(** * Smart Access facilities booking: the booking lifecycle engine

    A shallow embedding of [main.py] and [schemas.py]: the time utilities
    ([to_local_dt], [overlaps]), the availability calculator, the booking
    operations ([create_booking], [admin_action], [check_in]) and the
    no-show sweep ([sweep_noshows]), over an explicit model of the two
    MongoDB collections the handlers read and write.

    Python values are modelled as follows.
    - [str] is [string]; every character is a code point below 256, so
      [String.compare] is Python's ordering of strings.  Code points from
      256 on are outside the model.
    - [int] is [Z].
    - A naive [datetime] is the number of microseconds since
      0001-01-01T00:00:00, a [date] is its proleptic Gregorian ordinal.
    - An exception is a value of [exn]; a handler returns the store it
      leaves behind together with [inl] of the exception or [inr] of its
      response. *)

From Stdlib Require Import ZArith List String Ascii Bool Lia Arith DecimalString.
From Stdlib Require Import Sorting.Permutation Sorting.Sorted.
Import ListNotations.

Local Open Scope string_scope.
Local Open Scope Z_scope.

(** ** Exceptions *)

(** [HTTPException] is what the handlers raise on purpose; [ValueError]
    and [OverflowError] come out of [int], [datetime] and [strptime] and are
    caught nowhere in [main.py]. *)
Inductive exn : Type :=
| HTTPException (status_code : Z) (detail : string)
| ValueError
| OverflowError.

Definition result (A : Type) : Type := (exn + A)%type.

Definition bind {A B : Type} (r : result A) (k : A -> result B) : result B :=
  match r with
  | inl e => inl e
  | inr a => k a
  end.

Notation "x <- r ;; k" := (bind r (fun x => k))
  (at level 61, r at next level, right associativity).

Fixpoint mapM {A B : Type} (f : A -> result B) (l : list A) : result (list B) :=
  match l with
  | [] => inr []
  | a :: l' => b <- f a ;; bs <- mapM f l' ;; inr (b :: bs)
  end.

(** ** Python strings *)

Definition ord (c : ascii) : Z := Z.of_N (N_of_ascii c).

(** [str.split(sep)] for a one-character separator. *)
Fixpoint split (sep : ascii) (s : string) : list string :=
  match s with
  | EmptyString => [EmptyString]
  | String c s' =>
      if Ascii.eqb c sep then EmptyString :: split sep s'
      else match split sep s' with
           | h :: t => String c h :: t
           | [] => [String c EmptyString]
           end
  end.

(** The characters [int] strips around a literal: the blanks of ASCII
    (tab to carriage return, and the space) and, above ASCII and below code
    point 256, U+0085 and U+00A0.  The separators U+001C to U+001F are not
    among them. *)
Definition is_space (c : ascii) : bool :=
  let n := ord c in
  ((9 <=? n) && (n <=? 13)) || (n =? 32) || (n =? 133) || (n =? 160).

Definition is_digit (c : ascii) : bool :=
  let n := ord c in (48 <=? n) && (n <=? 57).

Definition digit_val (c : ascii) : Z := ord c - 48.

Fixpoint lstrip (s : string) : string :=
  match s with
  | EmptyString => EmptyString
  | String c s' => if is_space c then lstrip s' else s
  end.

Fixpoint rstrip (s : string) : string :=
  match s with
  | EmptyString => EmptyString
  | String c s' =>
      match rstrip s' with
      | EmptyString => if is_space c then EmptyString else String c EmptyString
      | r => String c r
      end
  end.

Definition strip (s : string) : string := rstrip (lstrip s).

(** The digits of a decimal literal: a digit, then digits each optionally
    preceded by one underscore. *)
Fixpoint parse_digits (s : string) (acc : Z) (after_digit : bool) : option Z :=
  match s with
  | EmptyString => if after_digit then Some acc else None
  | String c s' =>
      if is_digit c then parse_digits s' (10 * acc + digit_val c) true
      else if Ascii.eqb c "_" && after_digit then parse_digits s' acc false
      else None
  end.

(** The digits a decimal literal may have: the default of
    [sys.set_int_max_str_digits]. *)
Definition MAX_STR_DIGITS : Z := 4300.

Fixpoint count_digits (s : string) : Z :=
  match s with
  | EmptyString => 0
  | String c s' => (if is_digit c then 1 else 0) + count_digits s'
  end.

(** [int(s)] in base ten: [ValueError] for a text that is no literal and
    for a literal of more than [MAX_STR_DIGITS] digits. *)
Definition int (s : string) : result Z :=
  let t := strip s in
  let r := match t with
           | String "+" u => parse_digits u 0 false
           | String "-" u => option_map Z.opp (parse_digits u 0 false)
           | _ => parse_digits t 0 false
           end in
  match r with
  | Some n => if MAX_STR_DIGITS <? count_digits t then inl ValueError else inr n
  | None => inl ValueError
  end.

(** [s1 < s2] and [s1 >= s2] on strings. *)
Definition str_lt (s1 s2 : string) : bool :=
  match String.compare s1 s2 with Lt => true | _ => false end.

Definition str_ge (s1 s2 : string) : bool := negb (str_lt s1 s2).

(** ** Hexadecimal text *)

Definition hex_digit (upper : bool) (n : N) : ascii :=
  if (n <? 10)%N then ascii_of_N (48 + n)
  else ascii_of_N ((if upper then 55 else 87) + n).

Fixpoint hex_fixed (upper : bool) (width : nat) (n : N) : string :=
  match width with
  | O => EmptyString
  | S w => hex_fixed upper w (n / 16) ++ String (hex_digit upper (n mod 16)%N) EmptyString
  end.

Definition hex_val (c : ascii) : option N :=
  let n := N_of_ascii c in
  if ((48 <=? n) && (n <=? 57))%N then Some (n - 48)%N
  else if ((97 <=? n) && (n <=? 102))%N then Some (n - 87)%N
  else if ((65 <=? n) && (n <=? 70))%N then Some (n - 55)%N
  else None.

(** The blanks [bytes.fromhex] skips. *)
Definition is_ascii_blank (c : ascii) : bool :=
  let n := ord c in ((9 <=? n) && (n <=? 13)) || (n =? 32).

(** [bytes.fromhex(s)]: pairs of hexadecimal digits, the blanks before a
    pair and at the end skipped; the number of bytes read and their
    big-endian value, [None] when it raises [ValueError]. *)
Fixpoint fromhex (s : string) (count acc : N) : option (N * N) :=
  match s with
  | EmptyString => Some (count, acc)
  | String c s' =>
      if is_ascii_blank c then fromhex s' count acc
      else match hex_val c, s' with
           | Some hi, String c' s'' =>
               match hex_val c' with
               | Some lo => fromhex s'' (count + 1)%N (256 * acc + 16 * hi + lo)%N
               | None => None
               end
           | _, _ => None
           end
  end.

(** ** Dates and times *)

Definition is_leap (y : Z) : bool :=
  (y mod 4 =? 0) && (negb (y mod 100 =? 0) || (y mod 400 =? 0)).

Definition days_in_month (y m : Z) : Z :=
  if m =? 2 then (if is_leap y then 29 else 28)
  else if (m =? 4) || (m =? 6) || (m =? 9) || (m =? 11) then 30
  else 31.

Definition days_before_year (y : Z) : Z :=
  let p := y - 1 in p * 365 + p / 4 - p / 100 + p / 400.

Definition days_before_month (y m : Z) : Z :=
  fold_left Z.add
    (map (days_in_month y) (map Z.of_nat (seq 1 (Z.to_nat (m - 1))))) 0.

(** The proleptic Gregorian ordinal, 0001-01-01 being day 1. *)
Definition ymd2ord (y m d : Z) : Z :=
  days_before_year y + days_before_month y m + d.

Definition MINYEAR : Z := 1.
Definition MAXYEAR : Z := 9999.
Definition MAXORDINAL : Z := 3652059.

Definition USEC_PER_MINUTE : Z := 60000000.
Definition USEC_PER_DAY : Z := 86400000000.

(** A [date] as its ordinal, a naive [datetime] as microseconds since
    0001-01-01T00:00:00. *)
Definition pydate : Type := Z.
Definition pydatetime : Type := Z.

Definition valid_ymd (y m d : Z) : bool :=
  (MINYEAR <=? y) && (y <=? MAXYEAR) && (1 <=? m) && (m <=? 12)
  && (1 <=? d) && (d <=? days_in_month y m).

Definition is_c_int (n : Z) : bool := (- 2 ^ 31 <=? n) && (n <? 2 ^ 31).

(** [date(y, m, d)]. *)
Definition date_new (y m d : Z) : result pydate :=
  if negb (is_c_int y && is_c_int m && is_c_int d) then inl OverflowError
  else if valid_ymd y m d then inr (ymd2ord y m d)
  else inl ValueError.

(** [datetime(y, m, d, hh, mm)]. *)
Definition datetime_new (y m d hh mm : Z) : result pydatetime :=
  if negb (is_c_int y && is_c_int m && is_c_int d && is_c_int hh && is_c_int mm)
  then inl OverflowError
  else if valid_ymd y m d && (0 <=? hh) && (hh <=? 23) && (0 <=? mm) && (mm <=? 59)
  then inr ((ymd2ord y m d - 1) * USEC_PER_DAY + (hh * 60 + mm) * USEC_PER_MINUTE)
  else inl ValueError.

(** [dt.date()]. *)
Definition dt_date (t : pydatetime) : pydate := t / USEC_PER_DAY + 1.

(** [dt + timedelta(minutes=g)]: an [OverflowError] when the sum (or the
    [timedelta] itself) leaves the representable range. *)
Definition dt_add_minutes (t : pydatetime) (g : Z) : result pydatetime :=
  let r := t + g * USEC_PER_MINUTE in
  if (0 <=? r) && (r <? MAXORDINAL * USEC_PER_DAY) then inr r
  else inl OverflowError.

Definition in_range (lo hi : ascii) (c : ascii) : bool :=
  (ord lo <=? ord c) && (ord c <=? ord hi).

(** The month of [%m]: [1[0-2]|0[1-9]|[1-9]], followed by the literal
    hyphen; the value and the text after the hyphen. *)
Definition strptime_month (s : string) : option (Z * string) :=
  match s with
  | String a (String b r) =>
      if Ascii.eqb b "-" then
        if in_range "1" "9" a then Some (digit_val a, r) else None
      else
        match r with
        | String c r' =>
            if Ascii.eqb c "-" then
              if Ascii.eqb a "1" && in_range "0" "2" b then Some (10 + digit_val b, r')
              else if Ascii.eqb a "0" && in_range "1" "9" b then Some (digit_val b, r')
              else None
            else None
        | EmptyString => None
        end
  | _ => None
  end.

(** The day of [%d]: [3[0-1]|[1-2]\d|0[1-9]|[1-9]| [1-9]], the first
    alternative that matches; the value and the text left over. *)
Definition strptime_day (s : string) : option (Z * string) :=
  match s with
  | String a r =>
      let one := if in_range "1" "9" a then Some (digit_val a, r) else None in
      match r with
      | String b r' =>
          if (Ascii.eqb a "3" && in_range "0" "1" b)
             || (in_range "1" "2" a && is_digit b)
             || (Ascii.eqb a "0" && in_range "1" "9" b)
          then Some (10 * digit_val a + digit_val b, r')
          else if in_range "1" "9" a then one
          else if Ascii.eqb a " " && in_range "1" "9" b then Some (digit_val b, r')
          else None
      | EmptyString => one
      end
  | EmptyString => None
  end.

(** [datetime.strptime(s, "%Y-%m-%d").date()]. *)
Definition strptime_date (s : string) : result pydate :=
  match s with
  | String y1 (String y2 (String y3 (String y4 (String h r)))) =>
      if is_digit y1 && is_digit y2 && is_digit y3 && is_digit y4 && Ascii.eqb h "-" then
        match strptime_month r with
        | Some (m, r') =>
            match strptime_day r' with
            | Some (d, EmptyString) =>
                date_new (((digit_val y1 * 10 + digit_val y2) * 10 + digit_val y3) * 10
                          + digit_val y4) m d
            | _ => inl ValueError
            end
        | None => inl ValueError
        end
      else inl ValueError
  | _ => inl ValueError
  end.

(** ** Schemas ([schemas.py]) *)

Inductive FacilityType : Type :=
| meeting_room | discussion_room | banquet_hall | gym | training_centre
| studio | badminton_court | multipurpose_court | football_field | netball_court.

Record Facility : Type := {
  name : string;
  code : string;
  location : option string;
  capacity : option Z;
  type : FacilityType;
  is_active : bool
}.

Inductive Status : Type := pending | approved | rejected | cancelled | no_show.

Record Booking : Type := {
  facility_id : string;
  facility_code : string;
  user_name : string;
  user_email : string;
  purpose : option string;
  date : string;
  start_time : string;
  end_time : string;
  status : Status;
  access_code : option string;
  checked_in_at : option pydatetime
}.

Inductive Action : Type := approve | reject.

Record AdminAction : Type := {
  action : Action;
  note : option string
}.

Definition Status_eqb (a b : Status) : bool :=
  match a, b with
  | pending, pending | approved, approved | rejected, rejected
  | cancelled, cancelled | no_show, no_show => true
  | _, _ => false
  end.

(** ** The store *)

(** A stored document: the [_id] MongoDB gave it, twelve bytes read as a
    number below [16 ^ 24], and its fields.  An optional field that is
    [None] is a field the document does not have. *)
Record Document (A : Type) : Type := {
  _id : N;
  fields : A
}.
Arguments _id {A} _.
Arguments fields {A} _.

Record DB : Type := {
  facility : list (Document Facility);
  booking : list (Document Booking)
}.

(** [ObjectId(s)] for a [str]: twenty-four characters that
    [bytes.fromhex] reads, [None] when it raises [InvalidId].  Twenty-four
    hexadecimal digits are twelve bytes, the identifier itself.  With blanks
    among the characters fewer bytes are read: the identifier is one no
    document has, and is numbered from [16 ^ 24] on. *)
Definition ObjectId (s : string) : option N :=
  if Nat.eqb (String.length s) 24 then
    match fromhex s 0 0 with
    | Some (count, v) =>
        Some (if (count =? 12)%N then v else (16 ^ 24 * (count + 1) + v)%N)
    | None => None
    end
  else None.

(** [str(oid)]. *)
Definition oid_str (o : N) : string := hex_fixed false 24 o.

(** [collection.find_one({"_id": oid})]. *)
Definition find_one {A : Type} (l : list (Document A)) (oid : N) : option (Document A) :=
  find (fun d => N.eqb (_id d) oid) l.

(** [collection.update_one({"_id": oid}, {"$set": ...})]: the first
    document with that [_id] is rewritten by [f]. *)
Fixpoint update_one {A : Type} (l : list (Document A)) (oid : N) (f : A -> A)
  : list (Document A) :=
  match l with
  | [] => []
  | d :: l' =>
      if N.eqb (_id d) oid then {| _id := _id d; fields := f (fields d) |} :: l'
      else d :: update_one l' oid f
  end.

Definition fresh_id {A : Type} (l : list (Document A)) : N :=
  N.succ (fold_right N.max 0%N (map _id l)).

(** Modelled from the spec: [create_document] of [database.py], which is
    not part of the source.  The spec gives it as
    [insertBooking(Booking) -> id]: the booking is added to the collection
    under an identifier no stored booking has, and the identifier comes back
    as text.  The optional attributes the booking does not carry
    ([access_code], [checked_in_at]) are unset in the stored document. *)
Definition create_document (db : DB) (b : Booking) : DB * string :=
  let oid := fresh_id (booking db) in
  ({| facility := facility db;
      booking := booking db ++ [{| _id := oid; fields := b |}] |},
   oid_str oid).

Definition set_booking (db : DB) (l : list (Document Booking)) : DB :=
  {| facility := facility db; booking := l |}.

Definition with_status (s : Status) (b : Booking) : Booking :=
  {| facility_id := facility_id b; facility_code := facility_code b;
     user_name := user_name b; user_email := user_email b;
     purpose := purpose b; date := date b;
     start_time := start_time b; end_time := end_time b;
     status := s; access_code := access_code b;
     checked_in_at := checked_in_at b |}.

Definition with_access_code (c : string) (b : Booking) : Booking :=
  {| facility_id := facility_id b; facility_code := facility_code b;
     user_name := user_name b; user_email := user_email b;
     purpose := purpose b; date := date b;
     start_time := start_time b; end_time := end_time b;
     status := status b; access_code := Some c;
     checked_in_at := checked_in_at b |}.

Definition with_checked_in_at (t : pydatetime) (b : Booking) : Booking :=
  {| facility_id := facility_id b; facility_code := facility_code b;
     user_name := user_name b; user_email := user_email b;
     purpose := purpose b; date := date b;
     start_time := start_time b; end_time := end_time b;
     status := status b; access_code := access_code b;
     checked_in_at := Some t |}.

(** The filter [{"status": {"$in": ["pending", "approved"]}}]. *)
Definition active (b : Booking) : bool :=
  match status b with
  | pending | approved => true
  | _ => false
  end.

(** [db["booking"].find({"facility_code": fc, "date": d, "status": {"$in":
    ["pending", "approved"]}})], in the order of the collection. *)
Definition find_active (db : DB) (fc d : string) : list (Document Booking) :=
  filter (fun x => String.eqb (facility_code (fields x)) fc
                   && String.eqb (date (fields x)) d
                   && active (fields x))
         (booking db).

(** [db["facility"].find_one({"code": c})]. *)
Definition find_facility (db : DB) (c : string) : option (Document Facility) :=
  find (fun f => String.eqb (code (fields f)) c) (facility db).

(** ** Utilities ([main.py]) *)

(** [to_local_dt(date_str, time_str)]. *)
Definition to_local_dt (date_str time_str : string) : result pydatetime :=
  ymd <- mapM int (split "-" date_str) ;;
  match ymd with
  | [y; m; d] =>
      hm <- mapM int (split ":" time_str) ;;
      match hm with
      | [hh; mm] => datetime_new y m d hh mm
      | _ => inl ValueError
      end
  | _ => inl ValueError
  end.

(** [overlaps(s1, e1, s2, e2)]. *)
Definition overlaps (s1 e1 s2 e2 : string) : result bool :=
  a1 <- to_local_dt "2000-01-01" s1 ;;
  b1 <- to_local_dt "2000-01-01" e1 ;;
  a2 <- to_local_dt "2000-01-01" s2 ;;
  b2 <- to_local_dt "2000-01-01" e2 ;;
  inr ((a1 <? b2) && (a2 <? b1)).

(** ** Availability *)

Record Interval : Type := {
  i_start : string;
  i_end : string;
  i_status : Status
}.

Record Availability : Type := {
  a_facility_code : string;
  a_date : string;
  unavailable : list Interval;
  fully_occupied : bool;
  hours : string * string
}.

(** The inner [minutes(t)] of [availability]. *)
Definition minutes (t : string) : result Z :=
  hm <- mapM int (split ":" t) ;;
  match hm with
  | [h; m] => inr (h * 60 + m)
  | _ => inl ValueError
  end.

(** [range(a, b)]. *)
Definition range (a b : Z) : list Z :=
  map (fun k => a + Z.of_nat k) (seq 0 (Z.to_nat (b - a))).

(** [l[i] = v] for an index inside the list. *)
Fixpoint list_set (l : list Z) (i : nat) (v : Z) : list Z :=
  match l, i with
  | [], _ => []
  | _ :: l', O => v :: l'
  | x :: l', S i' => x :: list_set l' i' v
  end.

(** The inner loop [for i in range(...): if 0 <= i < len(covered):
    covered[i] = 1]. *)
Fixpoint mark (covered : list Z) (idxs : list Z) : list Z :=
  match idxs with
  | [] => covered
  | i :: rest =>
      mark (if (0 <=? i) && (i <? Z.of_nat (List.length covered))
            then list_set covered (Z.to_nat i) 1 else covered) rest
  end.

Definition open_t : string := "08:00".
Definition close_t : string := "22:00".

(** The loop over the bookings of [availability]. *)
Fixpoint cover (covered : list Z) (bookings : list (Document Booking))
  : result (list Z) :=
  match bookings with
  | [] => inr covered
  | b :: rest =>
      ms <- minutes (start_time (fields b)) ;;
      mo <- minutes open_t ;;
      mo' <- minutes open_t ;;
      let s := Z.max ms mo - mo' in
      me <- minutes (end_time (fields b)) ;;
      mc <- minutes close_t ;;
      mo'' <- minutes open_t ;;
      let e := Z.min me mc - mo'' in
      cover (mark covered (range (Z.max 0 s) (Z.max 0 e))) rest
  end.

(** [all(covered)] preceded by the truth test of the list. *)
Definition all_covered (covered : list Z) : bool :=
  negb (Nat.eqb (List.length covered) 0) && forallb (fun x => negb (x =? 0)) covered.

(** [availability(facility_code, date_str)]; it reads the store only. *)
Definition availability (db : DB) (fc date_str : string) : result Availability :=
  match find_facility db fc with
  | None => inl (HTTPException 404 "Facility not found")
  | Some _ =>
      let bookings := find_active db fc date_str in
      let intervals :=
        map (fun b => {| i_start := start_time (fields b);
                         i_end := end_time (fields b);
                         i_status := status (fields b) |}) bookings in
      mc <- minutes close_t ;;
      mo <- minutes open_t ;;
      covered <- cover (repeat 0 (Z.to_nat (mc - mo))) bookings ;;
      inr {| a_facility_code := fc;
             a_date := date_str;
             unavailable := intervals;
             fully_occupied := all_covered covered;
             hours := (open_t, close_t) |}
  end.

(** ** Booking *)

Module CreateBooking.

Record t : Type := {
  facility_code : string;
  user_name : string;
  user_email : string;
  purpose : option string;
  date : string;
  start_time : string;
  end_time : string
}.

End CreateBooking.

Record Created : Type := {
  message : string;
  booking_id : string
}.

(** The loop [for b in existing: if overlaps(...): raise
    HTTPException(409, ...)]. *)
Fixpoint check_existing (s e : string) (existing : list (Document Booking))
  : result unit :=
  match existing with
  | [] => inr tt
  | b :: rest =>
      o <- overlaps s e (start_time (fields b)) (end_time (fields b)) ;;
      if o then inl (HTTPException 409 "Time slot not available")
      else check_existing s e rest
  end.

(** [create_booking(payload, background_tasks)].  The e-mail to the
    administrator is queued after the insertion and writes to no collection;
    it is left out. *)
Definition create_booking (db : DB) (payload : CreateBooking.t)
  : DB * result Created :=
  match find_facility db (CreateBooking.facility_code payload) with
  | None => (db, inl (HTTPException 404 "Facility not found"))
  | Some fac =>
      if str_ge (CreateBooking.start_time payload) (CreateBooking.end_time payload)
      then (db, inl (HTTPException 400 "Invalid time range"))
      else
        let existing := find_active db (CreateBooking.facility_code payload)
                                       (CreateBooking.date payload) in
        match check_existing (CreateBooking.start_time payload)
                             (CreateBooking.end_time payload) existing with
        | inl e => (db, inl e)
        | inr _ =>
            let b := {| facility_id := oid_str (_id fac);
                        facility_code := CreateBooking.facility_code payload;
                        user_name := CreateBooking.user_name payload;
                        user_email := CreateBooking.user_email payload;
                        purpose := CreateBooking.purpose payload;
                        date := CreateBooking.date payload;
                        start_time := CreateBooking.start_time payload;
                        end_time := CreateBooking.end_time payload;
                        status := pending;
                        access_code := None;
                        checked_in_at := None |} in
            let (db', id) := create_document db b in
            (db', inr {| message := "Booking created and pending approval";
                         booking_id := id |})
        end
  end.

(** [os.urandom(3).hex().upper()], the three bytes being given. *)
Definition hex_upper (rnd : Byte.byte * Byte.byte * Byte.byte) : string :=
  let '(b0, b1, b2) := rnd in
  hex_fixed true 2 (Byte.to_N b0) ++ hex_fixed true 2 (Byte.to_N b1)
  ++ hex_fixed true 2 (Byte.to_N b2).

(** [admin_action(booking_id, action)]; [rnd] is what [os.urandom(3)]
    returns when the action is an approval.  The e-mail to the user writes
    to no collection and is left out. *)
Definition admin_action (db : DB) (booking_id : string) (a : AdminAction)
  (rnd : Byte.byte * Byte.byte * Byte.byte) : DB * result string :=
  match ObjectId booking_id with
  | None => (db, inl (HTTPException 400 "Invalid booking id"))
  | Some oid =>
      match find_one (booking db) oid with
      | None => (db, inl (HTTPException 404 "Not found"))
      | Some b =>
          match action a with
          | approve =>
              let c := hex_upper rnd in
              (set_booking db
                 (update_one (booking db) oid
                    (fun x => with_access_code c (with_status approved x))),
               inr "Approved")
          | reject =>
              (set_booking db (update_one (booking db) oid (with_status rejected)),
               inr "Rejected")
          end
      end
  end.

(** ** Check-in *)

Record CheckInPayload : Type := {
  cip_access_code : string
}.

Definition opt_str_eqb (a : option string) (b : string) : bool :=
  match a with
  | Some s => String.eqb s b
  | None => false
  end.

(** [check_in(booking_id, payload)]; [now] is what [datetime.utcnow()]
    returns. *)
Definition check_in (db : DB) (booking_id : string) (payload : CheckInPayload)
  (now : pydatetime) : DB * result string :=
  match ObjectId booking_id with
  | None => (db, inl (HTTPException 400 "Invalid booking id"))
  | Some oid =>
      match find_one (booking db) oid with
      | None => (db, inl (HTTPException 404 "Not found"))
      | Some b =>
          if negb (Status_eqb (status (fields b)) approved)
          then (db, inl (HTTPException 400 "Booking not approved"))
          else if negb (opt_str_eqb (access_code (fields b)) (cip_access_code payload))
          then (db, inl (HTTPException 403 "Invalid access code"))
          else (set_booking db (update_one (booking db) oid (with_checked_in_at now)),
                inr "Check-in recorded")
      end
  end.

(** ** No-show sweep *)

(** The default of [NO_SHOW_GRACE_MIN]. *)
Definition NO_SHOW_GRACE_MIN : Z := 15.

(** The filter [{"status": "approved", "checked_in_at": {"$exists":
    False}}]. *)
Definition sweep_selected (b : Booking) : bool :=
  Status_eqb (status b) approved
  && match checked_in_at b with None => true | Some _ => false end.

(** What one turn of the loop decides for row [b]: whether the row is
    marked, or the exception that ends the sweep. *)
Definition sweep_row (grace : Z) (today : pydate) (now : pydatetime) (b : Booking)
  : result bool :=
  b_date <- strptime_date (date b) ;;
  start_dt_local <- to_local_dt (date b) (start_time b) ;;
  if b_date <=? today then
    deadline <- dt_add_minutes start_dt_local grace ;;
    inr (deadline <=? now)
  else inr false.

Fixpoint sweep_loop (grace : Z) (today : pydate) (now : pydatetime)
  (rows : list (Document Booking)) (db : DB) (changed : Z) : DB * result Z :=
  match rows with
  | [] => (db, inr changed)
  | b :: rest =>
      match sweep_row grace today now (fields b) with
      | inl e => (db, inl e)
      | inr true =>
          sweep_loop grace today now rest
            (set_booking db (update_one (booking db) (_id b) (with_status no_show)))
            (changed + 1)
      | inr false => sweep_loop grace today now rest db changed
      end
  end.

(** [sweep_noshows()]; [grace] is [NO_SHOW_GRACE_MIN], [clock1] and
    [clock2] are what the two calls of [datetime.utcnow()] return. *)
Definition sweep_noshows (grace : Z) (db : DB) (clock1 clock2 : pydatetime)
  : DB * result Z :=
  let today := dt_date clock1 in
  let rows := filter (fun x => sweep_selected (fields x)) (booking db) in
  let now := clock2 in
  sweep_loop grace today now rows db 0.

(** ** Data seeding *)

(** [str(n)] for a natural number. *)
Definition str_of_nat (n : nat) : string :=
  DecimalString.NilZero.string_of_uint (Nat.to_uint n).

Definition numbered (count : nat) (nm prefix : string) (ty : FacilityType)
  (loc : string) : list Facility :=
  map (fun i => {| name := nm; code := prefix ++ str_of_nat (i + 1);
                   location := Some loc; capacity := None; type := ty;
                   is_active := true |})
      (seq 0 count).

(** [build_default_facilities()]. *)
Definition build_default_facilities : list Facility :=
  numbered 10 "Meeting Room, Mezzanine Floor" "MR-" meeting_room "Mezzanine Floor"
  ++ numbered 11 "Discussion Room, Persada Tower" "DR-" discussion_room
       "Selected Floors - Persada Tower"
  ++ numbered 1 "Banquet Hall" "BH-" banquet_hall "Convention Wing"
  ++ numbered 1 "Gymnasium" "GYM-" gym "Level 2"
  ++ numbered 6 "PLUS Training Centre" "PTC-" training_centre "Training Centre"
  ++ numbered 1 "PLUS Studio" "STUDIO-" studio "Media Wing"
  ++ numbered 2 "Badminton Court" "BC-" badminton_court "Sports Complex"
  ++ numbered 2 "Multipurpose Court" "MPC-" multipurpose_court "Sports Complex"
  ++ numbered 1 "Persada Football Field" "PFF-" football_field "Outdoor"
  ++ numbered 1 "Netball Court" "NC-" netball_court "Sports Complex".

Definition DEFAULT_FACILITIES : list Facility := build_default_facilities.

(** [seed_facilities()] on a configured database, each facility stored
    under a fresh identifier. *)
Definition seed_facilities (db : DB) : DB :=
  match facility db with
  | [] =>
      {| facility :=
           fold_left (fun (acc : list (Document Facility)) f =>
                        (acc ++ [{| _id := fresh_id acc; fields := f |}])%list)
                     DEFAULT_FACILITIES [];
         booking := booking db |}
  | _ :: _ => db
  end.

Definition empty_db : DB := {| facility := []; booking := [] |}.

(** The store after seeding, before any booking. *)
Definition seeded_db : DB := seed_facilities empty_db.

(** ** Vocabulary of the properties *)

(** A time of day written [HH:MM], hour in [[0,23]], minute in [[0,59]]. *)
Definition valid_hhmm (s : string) : bool :=
  match s with
  | String h1 (String h2 (String c (String m1 (String m2 EmptyString)))) =>
      is_digit h1 && is_digit h2 && Ascii.eqb c ":" && is_digit m1 && is_digit m2
      && (10 * digit_val h1 + digit_val h2 <=? 23)
      && (10 * digit_val m1 + digit_val m2 <=? 59)
  | _ => false
  end.

(** The minute of the day such a text denotes. *)
Definition minute_of_day (s : string) : Z :=
  match s with
  | String h1 (String h2 (String _ (String m1 (String m2 _)))) =>
      (10 * digit_val h1 + digit_val h2) * 60 + (10 * digit_val m1 + digit_val m2)
  | _ => 0
  end.

Definition times_valid (b : Booking) : bool :=
  valid_hhmm (start_time b) && valid_hhmm (end_time b).

(** Midnight of 2000-01-01, the day [overlaps] puts every time on. *)
Definition Y2K : pydatetime := (ymd2ord 2000 1 1 - 1) * USEC_PER_DAY.

(** An exception no handler raises on purpose: the caller sees a server
    error, not one of the handlers' HTTP errors. *)
Definition unhandled (e : exn) : bool :=
  match e with
  | HTTPException _ _ => false
  | ValueError | OverflowError => true
  end.

(** The errors of the spec's taxonomy, as the handlers raise them. *)
Definition E400 : exn := HTTPException 400 "Invalid time range".
Definition E409 : exn := HTTPException 409 "Time slot not available".
Definition E403 : exn := HTTPException 403 "Invalid access code".

(** The booking [create_booking] stores for [payload] on facility [fac]. *)
Definition pending_booking (fac : Document Facility) (payload : CreateBooking.t)
  : Booking :=
  {| facility_id := oid_str (_id fac);
     facility_code := CreateBooking.facility_code payload;
     user_name := CreateBooking.user_name payload;
     user_email := CreateBooking.user_email payload;
     purpose := CreateBooking.purpose payload;
     date := CreateBooking.date payload;
     start_time := CreateBooking.start_time payload;
     end_time := CreateBooking.end_time payload;
     status := pending;
     access_code := None;
     checked_in_at := None |}.

(** An existing booking that blocks [payload]: pending or approved, on the
    same facility and date, and overlapping under [overlaps]. *)
Definition conflicts_with (payload : CreateBooking.t) (b : Booking) : Prop :=
  active b = true
  /\ facility_code b = CreateBooking.facility_code payload
  /\ date b = CreateBooking.date payload
  /\ overlaps (CreateBooking.start_time payload) (CreateBooking.end_time payload)
       (start_time b) (end_time b) = inr true.

(** The requests of the spec's scenarios: facility [MR-1] on 2024-06-01. *)
Definition mr1_request (s e : string) : CreateBooking.t :=
  {| CreateBooking.facility_code := "MR-1";
     CreateBooking.user_name := "Aina";
     CreateBooking.user_email := "aina@example.com";
     CreateBooking.purpose := None;
     CreateBooking.date := "2024-06-01";
     CreateBooking.start_time := s;
     CreateBooking.end_time := e |}.

(** Scenario A after its first request: [MR-1] booked 09:00-10:00. *)
Definition scenario_A_db : DB :=
  fst (create_booking seeded_db (mr1_request "09:00" "10:00")).

(** The facility [MR-1] as seeding stores it. *)
Definition mr1 : Document Facility :=
  {| _id := 1;
     fields := {| name := "Meeting Room, Mezzanine Floor"; code := "MR-1";
                  location := Some "Mezzanine Floor"; capacity := None;
                  type := meeting_room; is_active := true |} |}.

(** Invariant I2 on the booking collection: no two distinct stored
    bookings, both pending or approved, on one facility and date, overlap
    under [overlaps]. *)
Definition I2 (l : list (Document Booking)) : Prop :=
  forall i j bi bj,
    i <> j -> nth_error l i = Some bi -> nth_error l j = Some bj ->
    active (fields bi) = true -> active (fields bj) = true ->
    facility_code (fields bi) = facility_code (fields bj) ->
    date (fields bi) = date (fields bj) ->
    overlaps (start_time (fields bi)) (end_time (fields bi))
             (start_time (fields bj)) (end_time (fields bj)) <> inr true.

(** The operations of the booking workflow, with what each one reads from
    outside the store. *)
Inductive Op : Type :=
| OpCreate (payload : CreateBooking.t)
| OpAdmin (booking_id : string) (a : AdminAction)
          (rnd : Byte.byte * Byte.byte * Byte.byte)
| OpCheckIn (booking_id : string) (payload : CheckInPayload) (now : pydatetime)
| OpSweep (grace : Z) (clock1 clock2 : pydatetime).

(** The store an operation leaves behind, whether it returns or raises. *)
Definition step (db : DB) (op : Op) : DB :=
  match op with
  | OpCreate payload => fst (create_booking db payload)
  | OpAdmin booking_id a rnd => fst (admin_action db booking_id a rnd)
  | OpCheckIn booking_id payload now => fst (check_in db booking_id payload now)
  | OpSweep grace clock1 clock2 => fst (sweep_noshows grace db clock1 clock2)
  end.

(** Operations run one after the other. *)
Definition run (db : DB) (ops : list Op) : DB := fold_left step ops db.

Definition is_create_or_admin (op : Op) : bool :=
  match op with
  | OpCreate _ | OpAdmin _ _ _ => true
  | _ => false
  end.

(** An approval whose target is, in [db], neither pending nor approved. *)
Definition reapproves (db : DB) (op : Op) : bool :=
  match op with
  | OpAdmin booking_id a _ =>
      match action a, ObjectId booking_id with
      | approve, Some oid =>
          match find_one (booking db) oid with
          | Some b => negb (active (fields b))
          | None => false
          end
      | _, _ => false
      end
  | _ => false
  end.

(** No operation of the sequence is such an approval in the store it
    meets. *)
Fixpoint never_reapproves (db : DB) (ops : list Op) : bool :=
  match ops with
  | [] => true
  | op :: rest => negb (reapproves db op) && never_reapproves (step db op) rest
  end.

Definition approve_ : AdminAction := {| action := approve; note := None |}.
Definition reject_ : AdminAction := {| action := reject; note := None |}.

(** A booking is made, rejected, its slot booked again, and the first
    booking then approved. *)
Definition reapproval_ops : list Op :=
  [ OpCreate (mr1_request "09:00" "10:00");
    OpAdmin (oid_str 1) reject_ (Byte.x00, Byte.x00, Byte.x00);
    OpCreate (mr1_request "09:00" "10:00");
    OpAdmin (oid_str 1) approve_ (Byte.x0a, Byte.xff, Byte.x3c) ].

(** A rewriting of a booking that leaves its facility, date and times
    alone. *)
Definition keeps_slot (f : Booking -> Booking) : Prop :=
  forall x, facility_code (f x) = facility_code x /\ date (f x) = date x
            /\ start_time (f x) = start_time x /\ end_time (f x) = end_time x.

(** The booking of a stored document marked as a no-show. *)
Definition mark_no_show (d : Document Booking) : Document Booking :=
  {| _id := _id d; fields := with_status no_show (fields d) |}.

(** The sweep as one pass over the collection: each selected row is judged
    by [sweep_row] and rewritten in place; the pass stops at the first row
    that raises.  [sweep_noshows_pass] below shows [sweep_noshows] computes
    this when the identifiers of the collection are distinct. *)
Fixpoint sweep_pass (grace : Z) (today : pydate) (now : pydatetime)
  (l : list (Document Booking)) (changed : Z)
  : list (Document Booking) * result Z :=
  match l with
  | [] => ([], inr changed)
  | d :: rest =>
      if sweep_selected (fields d) then
        match sweep_row grace today now (fields d) with
        | inl e => (d :: rest, inl e)
        | inr true =>
            let (rest', r) := sweep_pass grace today now rest (changed + 1) in
            (mark_no_show d :: rest', r)
        | inr false =>
            let (rest', r) := sweep_pass grace today now rest changed in
            (d :: rest', r)
        end
      else
        let (rest', r) := sweep_pass grace today now rest changed in
        (d :: rest', r)
  end.

(** The booking's date is today or earlier and the grace period after its
    start has run out at [now]. *)
Definition due (grace : Z) (today : pydate) (now : pydatetime) (b : Booking) : bool :=
  match strptime_date (date b), to_local_dt (date b) (start_time b) with
  | inr b_date, inr start_dt =>
      (b_date <=? today) && (start_dt + grace * USEC_PER_MINUTE <=? now)
  | _, _ => false
  end.

(** The bookings the sweep is to mark: approved, not checked in, due. *)
Definition transitions (grace : Z) (today : pydate) (now : pydatetime)
  (d : Document Booking) : bool :=
  sweep_selected (fields d) && due grace today now (fields d).

(** The clock reading of a day and time written as texts. *)
Definition clock_at (date_str time_str : string) : pydatetime :=
  match to_local_dt date_str time_str with
  | inr t => t
  | inl _ => 0
  end.

(** Scenario D: [MR-1] booked for 2024-06-01 at 08:00 and approved. *)
Definition scenario_D_db : DB :=
  run seeded_db [ OpCreate (mr1_request "08:00" "09:00");
                  OpAdmin (oid_str 1) approve_ (Byte.x0a, Byte.xff, Byte.x3c) ].

(** [MR-1] on 2024-06-01 booked 08:00-15:00 and 15:00-22:00, and the same
    with the second booking starting one minute later. *)
Definition tiling_db : DB :=
  run seeded_db [ OpCreate (mr1_request "08:00" "15:00");
                  OpCreate (mr1_request "15:00" "22:00") ].

Definition gap_db : DB :=
  run seeded_db [ OpCreate (mr1_request "08:00" "15:00");
                  OpCreate (mr1_request "15:01" "22:00") ].

(** Scenario B: [MR-1] booked for 2024-06-01 at 09:00 and approved with
    access code [0AFF3C]. *)
Definition scenario_B_db : DB :=
  run seeded_db [ OpCreate (mr1_request "09:00" "10:00");
                  OpAdmin (oid_str 1) approve_ (Byte.x0a, Byte.xff, Byte.x3c) ].

(** The [checked_in_at] of every stored booking, in the order of the
    collection. *)
Definition check_ins (db : DB) : list (option pydatetime) :=
  map (fun d => checked_in_at (fields d)) (booking db).

(** [op], run in [db], is an approval of the stored booking [oid]. *)
Definition approves (db : DB) (op : Op) (oid : N) : bool :=
  match op with
  | OpAdmin booking_id a _ =>
      match action a, ObjectId booking_id with
      | approve, Some o =>
          N.eqb o oid
          && match find_one (booking db) o with Some _ => true | None => false end
      | _, _ => false
      end
  | _ => false
  end.

(** Booking [oid] is approved by some operation of the sequence. *)
Fixpoint approved_ever (db : DB) (ops : list Op) (oid : N) : bool :=
  match ops with
  | [] => false
  | op :: rest => approves db op oid || approved_ever (step db op) rest oid
  end.

(** How the access code and the status of a stored booking stand to
    whether the booking has been approved ([g]). *)
Definition coded (d : Document Booking) (g : bool) : Prop :=
  (access_code (fields d) <> None <-> g = true)
  /\ (status (fields d) = approved \/ status (fields d) = no_show -> g = true)
  /\ (status (fields d) = pending -> g = false).

(** The invariant carried along a run: identifiers are distinct, only
    stored bookings count as approved, and every stored booking is [coded]. *)
Definition access_inv (db : DB) (G : N -> bool) : Prop :=
  NoDup (map _id (booking db))
  /\ (forall oid, G oid = true -> In oid (map _id (booking db)))
  /\ (forall d, In d (booking db) -> coded d (G (_id d))).

(** A booking is made, approved and then rejected. *)
Definition approve_then_reject_ops : list Op :=
  [ OpCreate (mr1_request "09:00" "10:00");
    OpAdmin (oid_str 1) approve_ (Byte.x0a, Byte.xff, Byte.x3c);
    OpAdmin (oid_str 1) reject_ (Byte.x00, Byte.x00, Byte.x00) ].

(** The booking of scenario B after its rejection: rejected, the access
    code still stored. *)
Definition rejected_with_code : Document Booking :=
  {| _id := 1;
     fields := with_status rejected
                 (with_access_code "0AFF3C"
                    (pending_booking mr1 (mr1_request "09:00" "10:00"))) |}.

(** Invariant I3 as the spec words it: a stored booking has an access code
    exactly when its status is approved or no-show. *)
Definition I3 (l : list (Document Booking)) : Prop :=
  forall d, In d l ->
            (access_code (fields d) <> None
             <-> status (fields d) = approved \/ status (fields d) = no_show).

(** A time text [to_local_dt] can read: split at the colon it is two
    integer literals, an hour in [[0,23]] and a minute in [[0,59]]. *)
Definition readable_time (t : string) : Prop :=
  exists hh mm, mapM int (split ":" t) = inr [hh; mm]
                /\ 0 <= hh <= 23 /\ 0 <= mm <= 59.

(** A request for facility [fc] on 2024-06-01. *)
Definition request_for (fc s e : string) : CreateBooking.t :=
  {| CreateBooking.facility_code := fc;
     CreateBooking.user_name := "Aina";
     CreateBooking.user_email := "aina@example.com";
     CreateBooking.purpose := None;
     CreateBooking.date := "2024-06-01";
     CreateBooking.start_time := s;
     CreateBooking.end_time := e |}.

(** Two approved bookings: [MR-1] at 08:00, and [MR-2] with the times
    [ab] and [cd], stored unread because [MR-2] had no booking that day. *)
Definition unreadable_db : DB :=
  run seeded_db [ OpCreate (request_for "MR-1" "08:00" "09:00");
                  OpAdmin (oid_str 1) approve_ (Byte.x0a, Byte.xff, Byte.x3c);
                  OpCreate (request_for "MR-2" "ab" "cd");
                  OpAdmin (oid_str 2) approve_ (Byte.x11, Byte.x22, Byte.x33) ].

(** ** Listings and seeding, with their responses *)

Record SeedResponse : Type := {
  seed_message : string;
  seed_count : Z
}.

(** [seed_facilities()] with what it returns; [count_documents({})] is the
    length of the collection. *)
Definition seed_facilities_handler (db : DB) : DB * SeedResponse :=
  let count := Z.of_nat (List.length (facility db)) in
  if 0 <? count
  then (db, {| seed_message := "Facilities already seeded"; seed_count := count |})
  else (seed_facilities db,
        {| seed_message := "Facilities seeded";
           seed_count := Z.of_nat (List.length DEFAULT_FACILITIES) |}).

(** A booking as a listing returns it: the [_id] replaced by its text. *)
Record Row : Type := {
  row_id : string;
  row : Booking
}.

Definition to_row (d : Document Booking) : Row :=
  {| row_id := oid_str (_id d); row := fields d |}.

(** [cursor.sort(...)], ascending under [le], as an insertion sort.  Rows
    with equal keys keep the order of the collection; MongoDB promises no
    order among them, and the properties proved of the listings do not
    depend on it. *)
Fixpoint insert_sorted {A : Type} (le : A -> A -> bool) (x : A) (l : list A)
  : list A :=
  match l with
  | [] => [x]
  | y :: l' => if le x y then x :: l else y :: insert_sorted le x l'
  end.

Definition sort_by {A : Type} (le : A -> A -> bool) (l : list A) : list A :=
  fold_right (insert_sorted le) [] l.

(** The order of [.sort("date", 1)]. *)
Definition date_le (a b : Document Booking) : bool :=
  String.leb (date (fields a)) (date (fields b)).

(** The order of [.sort([("date", 1), ("start_time", 1)])]. *)
Definition date_start_le (a b : Document Booking) : bool :=
  match String.compare (date (fields a)) (date (fields b)) with
  | Lt => true
  | Gt => false
  | Eq => String.leb (start_time (fields a)) (start_time (fields b))
  end.

(** [my_bookings(email)]. *)
Definition my_bookings (db : DB) (email : string) : list Row :=
  map to_row
      (sort_by date_le
         (filter (fun d => String.eqb (user_email (fields d)) email) (booking db))).

(** [admin_bookings()]. *)
Definition admin_bookings (db : DB) : list Row :=
  map to_row (sort_by date_start_le (booking db)).

(** [api_sweep()]: the number of bookings marked, under the key
    [changed]. *)
Definition api_sweep (grace : Z) (db : DB) (clock1 clock2 : pydatetime)
  : DB * result Z :=
  sweep_noshows grace db clock1 clock2.

(** ** Further vocabulary *)

(** Invariant I1 as the code checks it: the start text sorts before the end
    text. *)
Definition I1 (l : list (Document Booking)) : Prop :=
  forall d, In d l -> str_lt (start_time (fields d)) (end_time (fields d)) = true.

Definition is_upper_hex (c : ascii) : bool :=
  in_range "0" "9" c || in_range "A" "F" c.

Fixpoint string_forallb (p : ascii -> bool) (s : string) : bool :=
  match s with
  | EmptyString => true
  | String c s' => p c && string_forallb p s'
  end.

(** The text [HH:MM] of minute [m] of the day. *)
Definition hhmm_of_minute (m : Z) : string :=
  let h := m / 60 in
  let mi := m mod 60 in
  String (ascii_of_N (Z.to_N (48 + h / 10)))
    (String (ascii_of_N (Z.to_N (48 + h mod 10)))
       (String ":"
          (String (ascii_of_N (Z.to_N (48 + mi / 10)))
             (String (ascii_of_N (Z.to_N (48 + mi mod 10))) EmptyString)))).

(** The one-minute request for [fc] on [d] starting at minute [m]. *)
Definition minute_request (fc d : string) (m : Z) : CreateBooking.t :=
  {| CreateBooking.facility_code := fc;
     CreateBooking.user_name := "Aina";
     CreateBooking.user_email := "aina@example.com";
     CreateBooking.purpose := None;
     CreateBooking.date := d;
     CreateBooking.start_time := hhmm_of_minute m;
     CreateBooking.end_time := hhmm_of_minute (m + 1) |}.

(** Every active booking of the facility and date has valid times. *)
Definition slot_times_valid (db : DB) (fc d : string) : Prop :=
  forall b, In b (booking db) -> active (fields b) = true ->
            facility_code (fields b) = fc -> date (fields b) = d ->
            times_valid (fields b) = true.

(** No text occurs twice in the list. *)
Fixpoint distinct_strings (l : list string) : bool :=
  match l with
  | [] => true
  | x :: l' => negb (existsb (String.eqb x) l') && distinct_strings l'
  end.

(** The text has no hyphen. *)
Definition no_dash (s : string) : bool :=
  string_forallb (fun c => negb (Ascii.eqb c "-")) s.

(** ** Stores that tell the statuses apart *)

(** [MR-1] on 2024-06-01: the booking 09:00-10:00 rejected, the booking
    11:00-12:00 pending. *)
Definition rejected_slot_db : DB :=
  run seeded_db [ OpCreate (mr1_request "09:00" "10:00");
                  OpAdmin (oid_str 1) reject_ (Byte.x00, Byte.x00, Byte.x00);
                  OpCreate (mr1_request "11:00" "12:00") ].

(** The bookings of [tiling_db] with the second one rejected: the afternoon
    is held by a rejected booking only. *)
Definition rejected_tiling_db : DB :=
  run tiling_db [ OpAdmin (oid_str 2) reject_ (Byte.x00, Byte.x00, Byte.x00) ].

(** A request for [MR-1] on the day [d]. *)
Definition mr1_request_on (d s e : string) : CreateBooking.t :=
  {| CreateBooking.facility_code := "MR-1";
     CreateBooking.user_name := "Aina";
     CreateBooking.user_email := "aina@example.com";
     CreateBooking.purpose := None;
     CreateBooking.date := d;
     CreateBooking.start_time := s;
     CreateBooking.end_time := e |}.

(** Six bookings of [MR-1], in this order: 2024-06-01 08:00 approved;
    09:00 approved and checked in at 09:05; 10:00 pending; 11:00 rejected;
    13:00 approved; and 2024-06-02 00:00 approved. *)
Definition mixed_db : DB :=
  run seeded_db
    [ OpCreate (mr1_request "08:00" "09:00");
      OpCreate (mr1_request "09:00" "10:00");
      OpCreate (mr1_request "10:00" "11:00");
      OpCreate (mr1_request "11:00" "12:00");
      OpCreate (mr1_request "13:00" "14:00");
      OpCreate (mr1_request_on "2024-06-02" "00:00" "01:00");
      OpAdmin (oid_str 1) approve_ (Byte.x0a, Byte.xff, Byte.x3c);
      OpAdmin (oid_str 2) approve_ (Byte.x11, Byte.x22, Byte.x33);
      OpCheckIn (oid_str 2) {| cip_access_code := "112233" |}
                (clock_at "2024-06-01" "09:05");
      OpAdmin (oid_str 4) reject_ (Byte.x00, Byte.x00, Byte.x00);
      OpAdmin (oid_str 5) approve_ (Byte.x44, Byte.x55, Byte.x66);
      OpAdmin (oid_str 6) approve_ (Byte.x77, Byte.x88, Byte.x99) ].

(** * Properties *)

(** ** Times of day *)

Lemma is_digit_cases (c : ascii) :
  is_digit c = true ->
  In c ["0"; "1"; "2"; "3"; "4"; "5"; "6"; "7"; "8"; "9"]%char.
Proof.
  destruct c as [[] [] [] [] [] [] [] []]; vm_compute; intro H;
    try discriminate H; auto 12.
Qed.

Lemma is_digit_range (c : ascii) :
  is_digit c = true -> 0 <= digit_val c <= 9 /\ ord c = 48 + digit_val c.
Proof.
  unfold is_digit, digit_val. intro H.
  apply andb_true_iff in H as [H1 H2].
  apply Z.leb_le in H1, H2. lia.
Qed.

Lemma int_two_digits (a b : ascii) :
  is_digit a = true -> is_digit b = true ->
  int (String a (String b EmptyString)) = inr (10 * digit_val a + digit_val b).
Proof.
  intros Ha Hb. apply is_digit_cases in Ha, Hb. simpl in Ha, Hb.
  repeat (destruct Ha as [Ha | Ha]; [subst a | ]); try contradiction;
    repeat (destruct Hb as [Hb | Hb]; [subst b | ]); try contradiction;
    reflexivity.
Qed.

Lemma digit_not_colon (c : ascii) : is_digit c = true -> Ascii.eqb c ":" = false.
Proof.
  intro H. destruct (Ascii.eqb_spec c ":") as [-> | ]; [discriminate H | reflexivity].
Qed.

Lemma split_hhmm (h1 h2 m1 m2 : ascii) :
  is_digit h1 = true -> is_digit h2 = true ->
  is_digit m1 = true -> is_digit m2 = true ->
  split ":" (String h1 (String h2 (String ":" (String m1 (String m2 EmptyString)))))
  = [String h1 (String h2 EmptyString); String m1 (String m2 EmptyString)].
Proof.
  intros H1 H2 H3 H4. cbn [split].
  rewrite (digit_not_colon _ H1), (digit_not_colon _ H2),
    (digit_not_colon _ H3), (digit_not_colon _ H4).
  reflexivity.
Qed.

Lemma valid_hhmm_inv (s : string) :
  valid_hhmm s = true ->
  exists h1 h2 m1 m2,
    s = String h1 (String h2 (String ":" (String m1 (String m2 EmptyString))))
    /\ is_digit h1 = true /\ is_digit h2 = true
    /\ is_digit m1 = true /\ is_digit m2 = true
    /\ 10 * digit_val h1 + digit_val h2 <= 23
    /\ 10 * digit_val m1 + digit_val m2 <= 59.
Proof.
  destruct s as [ | h1 [ | h2 [ | c [ | m1 [ | m2 [ | ? ?]]]]]]; try discriminate.
  cbn [valid_hhmm]. intro H.
  apply andb_true_iff in H as [H Hm]. apply andb_true_iff in H as [H Hh].
  apply andb_true_iff in H as [H D4]. apply andb_true_iff in H as [H D3].
  apply andb_true_iff in H as [H Hc]. apply andb_true_iff in H as [D1 D2].
  exists h1, h2, m1, m2.
  destruct (Ascii.eqb_spec c ":") as [-> | ]; [ | discriminate].
  apply Z.leb_le in Hh, Hm. auto 10.
Qed.

Lemma minute_of_day_range (s : string) :
  valid_hhmm s = true -> 0 <= minute_of_day s < 1440.
Proof.
  intro H. destruct (valid_hhmm_inv s H)
    as (h1 & h2 & m1 & m2 & -> & D1 & D2 & D3 & D4 & Hh & Hm).
  apply is_digit_range in D1, D2, D3, D4. cbn [minute_of_day]. lia.
Qed.

Lemma mapM_int_hhmm (s : string) :
  valid_hhmm s = true ->
  exists hh mm, mapM int (split ":" s) = inr [hh; mm]
                /\ 0 <= hh <= 23 /\ 0 <= mm <= 59
                /\ minute_of_day s = hh * 60 + mm.
Proof.
  intro H. destruct (valid_hhmm_inv s H)
    as (h1 & h2 & m1 & m2 & -> & D1 & D2 & D3 & D4 & Hh & Hm).
  exists (10 * digit_val h1 + digit_val h2), (10 * digit_val m1 + digit_val m2).
  rewrite split_hhmm by assumption. cbn [mapM].
  rewrite (int_two_digits _ _ D1 D2), (int_two_digits _ _ D3 D4). cbn [bind].
  apply is_digit_range in D1, D2, D3, D4.
  cbn [minute_of_day]. repeat split; lia.
Qed.

Lemma datetime_new_2000 (hh mm : Z) :
  0 <= hh <= 23 -> 0 <= mm <= 59 ->
  datetime_new 2000 1 1 hh mm = inr (Y2K + (hh * 60 + mm) * USEC_PER_MINUTE).
Proof.
  intros Hh Hm. unfold datetime_new, is_c_int.
  change (is_c_int 2000) with true.
  replace (- 2 ^ 31 <=? hh) with true by (symmetry; apply Z.leb_le; lia).
  replace (hh <? 2 ^ 31) with true by (symmetry; apply Z.ltb_lt; lia).
  replace (- 2 ^ 31 <=? mm) with true by (symmetry; apply Z.leb_le; lia).
  replace (mm <? 2 ^ 31) with true by (symmetry; apply Z.ltb_lt; lia).
  replace (0 <=? hh) with true by (symmetry; apply Z.leb_le; lia).
  replace (hh <=? 23) with true by (symmetry; apply Z.leb_le; lia).
  replace (0 <=? mm) with true by (symmetry; apply Z.leb_le; lia).
  replace (mm <=? 59) with true by (symmetry; apply Z.leb_le; lia).
  reflexivity.
Qed.

(** [to_local_dt] on the day of [overlaps] and a valid time. *)
Lemma to_local_dt_hhmm (s : string) :
  valid_hhmm s = true ->
  to_local_dt "2000-01-01" s = inr (Y2K + minute_of_day s * USEC_PER_MINUTE).
Proof.
  intro H. destruct (mapM_int_hhmm s H) as (hh & mm & E & Hh & Hm & Em).
  unfold to_local_dt.
  change (mapM int (split "-" "2000-01-01")) with (@inr exn _ [2000; 1; 1]).
  cbn [bind]. rewrite E. cbn [bind].
  rewrite datetime_new_2000 by assumption. now rewrite Em.
Qed.

Lemma overlaps_hhmm (s1 e1 s2 e2 : string) :
  valid_hhmm s1 = true -> valid_hhmm e1 = true ->
  valid_hhmm s2 = true -> valid_hhmm e2 = true ->
  overlaps s1 e1 s2 e2
  = inr ((minute_of_day s1 <? minute_of_day e2)
         && (minute_of_day s2 <? minute_of_day e1)).
Proof.
  intros V1 V2 V3 V4. unfold overlaps.
  rewrite !to_local_dt_hhmm by assumption. cbn [bind].
  f_equal. f_equal.
  - destruct (Z.ltb_spec (minute_of_day s1) (minute_of_day e2));
      [apply Z.ltb_lt | apply Z.ltb_ge]; unfold USEC_PER_MINUTE; lia.
  - destruct (Z.ltb_spec (minute_of_day s2) (minute_of_day e1));
      [apply Z.ltb_lt | apply Z.ltb_ge]; unfold USEC_PER_MINUTE; lia.
Qed.

(** C3.  On valid [HH:MM] texts [overlaps] returns, and returns [True]
    exactly when the first interval starts before the second ends and the
    second starts before the first ends, the times being compared as minutes
    of the day.  It gives the same answer with the two intervals exchanged,
    and [False] when one interval ends on the minute the other starts. *)
Theorem overlaps_half_open (s1 e1 s2 e2 : string) :
  valid_hhmm s1 = true -> valid_hhmm e1 = true ->
  valid_hhmm s2 = true -> valid_hhmm e2 = true ->
  (exists r, overlaps s1 e1 s2 e2 = inr r
             /\ (r = true <-> minute_of_day s1 < minute_of_day e2
                              /\ minute_of_day s2 < minute_of_day e1))
  /\ overlaps s1 e1 s2 e2 = overlaps s2 e2 s1 e1
  /\ (e1 = s2 \/ e2 = s1 -> overlaps s1 e1 s2 e2 = inr false).
Proof.
  intros V1 V2 V3 V4. rewrite !overlaps_hhmm by assumption.
  split; [ | split].
  - eexists. split; [reflexivity | ].
    rewrite andb_true_iff, !Z.ltb_lt. reflexivity.
  - now rewrite andb_comm.
  - intros [-> | ->].
    + now rewrite Z.ltb_irrefl, andb_false_r.
    + now rewrite Z.ltb_irrefl.
Qed.

Lemma overlaps_half_open_witness :
  (exists r, overlaps "09:00" "10:00" "10:00" "11:00" = inr r
             /\ (r = true <-> minute_of_day "09:00" < minute_of_day "11:00"
                              /\ minute_of_day "10:00" < minute_of_day "10:00"))
  /\ overlaps "09:00" "10:00" "10:00" "11:00" = overlaps "10:00" "11:00" "09:00" "10:00"
  /\ ("10:00" = "10:00" \/ "11:00" = "09:00"
      -> overlaps "09:00" "10:00" "10:00" "11:00" = inr false).
Proof.
  apply (overlaps_half_open "09:00" "10:00" "10:00" "11:00"); reflexivity.
Defined.

(** Python's order on two valid [HH:MM] texts is the order of the minutes
    they denote. *)
Lemma str_lt_hhmm (s e : string) :
  valid_hhmm s = true -> valid_hhmm e = true ->
  str_lt s e = (minute_of_day s <? minute_of_day e).
Proof.
  intros Vs Ve.
  destruct (valid_hhmm_inv s Vs)
    as (a1 & a2 & a3 & a4 & -> & A1 & A2 & A3 & A4 & Ah & Am).
  destruct (valid_hhmm_inv e Ve)
    as (b1 & b2 & b3 & b4 & -> & B1 & B2 & B3 & B4 & Bh & Bm).
  apply is_digit_range in A1, A2, A3, A4, B1, B2, B3, B4.
  unfold str_lt. cbn [String.compare minute_of_day].
  unfold Ascii.compare, ord in *.
  repeat match goal with
         | |- context [(N_of_ascii ?x ?= N_of_ascii ?y)%N] =>
             destruct (N.compare_spec (N_of_ascii x) (N_of_ascii y))
         end;
    symmetry; first [apply Z.ltb_lt | apply Z.ltb_ge]; try lia.
Qed.

(** ** Exceptions of the time utilities *)

Lemma int_exn (s : string) (e : exn) : int s = inl e -> e = ValueError.
Proof.
  unfold int.
  destruct (match strip s with
            | String "+" u => parse_digits u 0 false
            | String "-" u => option_map Z.opp (parse_digits u 0 false)
            | _ => parse_digits (strip s) 0 false
            end); [ | congruence].
  destruct (MAX_STR_DIGITS <? count_digits (strip s)); [congruence | discriminate].
Qed.

Lemma mapM_int_exn (l : list string) (e : exn) :
  mapM int l = inl e -> e = ValueError.
Proof.
  induction l as [ | a l IH]; cbn [mapM]; [discriminate | ].
  destruct (int a) eqn:Ea; cbn [bind].
  - intro H. injection H as <-. eapply int_exn; eassumption.
  - destruct (mapM int l); cbn [bind]; [ | discriminate].
    intro H. injection H as <-. now apply IH.
Qed.

Lemma datetime_new_exn (y m d hh mm : Z) (e : exn) :
  datetime_new y m d hh mm = inl e -> unhandled e = true.
Proof.
  unfold datetime_new.
  repeat match goal with |- context [if ?c then _ else _] => destruct c end;
    intro H; try discriminate H; injection H as <-; reflexivity.
Qed.

Lemma to_local_dt_exn (date_str time_str : string) (e : exn) :
  to_local_dt date_str time_str = inl e -> unhandled e = true.
Proof.
  unfold to_local_dt.
  destruct (mapM int (split "-" date_str)) as [e1 | ymd] eqn:E1; cbn [bind].
  { intro H. injection H as <-. now rewrite (mapM_int_exn _ _ E1). }
  destruct ymd as [ | y [ | m [ | d [ | ? ?]]]];
    try (intro H; injection H as <-; reflexivity).
  destruct (mapM int (split ":" time_str)) as [e2 | hm] eqn:E2; cbn [bind].
  { intro H. injection H as <-. now rewrite (mapM_int_exn _ _ E2). }
  destruct hm as [ | hh [ | mm [ | ? ?]]];
    try (intro H; injection H as <-; reflexivity).
  apply datetime_new_exn.
Qed.

Lemma overlaps_exn (s1 e1 s2 e2 : string) (e : exn) :
  overlaps s1 e1 s2 e2 = inl e -> unhandled e = true.
Proof.
  unfold overlaps.
  destruct (to_local_dt "2000-01-01" s1) eqn:E1; cbn [bind];
    [intro H; injection H as <-; eapply to_local_dt_exn; eassumption | ].
  destruct (to_local_dt "2000-01-01" e1) eqn:E2; cbn [bind];
    [intro H; injection H as <-; eapply to_local_dt_exn; eassumption | ].
  destruct (to_local_dt "2000-01-01" s2) eqn:E3; cbn [bind];
    [intro H; injection H as <-; eapply to_local_dt_exn; eassumption | ].
  destruct (to_local_dt "2000-01-01" e2) eqn:E4; cbn [bind];
    [intro H; injection H as <-; eapply to_local_dt_exn; eassumption | ].
  discriminate.
Qed.

(** ** The conflict guard of [create_booking] *)

Lemma check_existing_cases (s e : string) (existing : list (Document Booking)) :
  match check_existing s e existing with
  | inr _ =>
      forall b, In b existing ->
                overlaps s e (start_time (fields b)) (end_time (fields b)) = inr false
  | inl x =>
      (x = E409 /\ exists b, In b existing
         /\ overlaps s e (start_time (fields b)) (end_time (fields b)) = inr true)
      \/ (unhandled x = true /\ exists b, In b existing
         /\ overlaps s e (start_time (fields b)) (end_time (fields b)) = inl x)
  end.
Proof.
  induction existing as [ | b rest IH]; cbn [check_existing].
  - intros b [].
  - destruct (overlaps s e (start_time (fields b)) (end_time (fields b)))
      as [x | [ | ]] eqn:E; cbn [bind].
    + right. split; [eapply overlaps_exn; eassumption | ].
      exists b. split; [now left | assumption].
    + left. split; [reflexivity | ]. exists b. split; [now left | assumption].
    + destruct (check_existing s e rest) as [x | u].
      * destruct IH as [(-> & b' & Hin & Hov) | (Hx & b' & Hin & Hov)].
        -- left. split; [reflexivity | ]. exists b'. split; [now right | assumption].
        -- right. split; [assumption | ]. exists b'. split; [now right | assumption].
      * intros b' [<- | Hin]; [assumption | now apply IH].
Qed.

Lemma find_active_In (db : DB) (fc d : string) (b : Document Booking) :
  In b (find_active db fc d) <->
  In b (booking db) /\ facility_code (fields b) = fc /\ date (fields b) = d
  /\ active (fields b) = true.
Proof.
  unfold find_active. rewrite filter_In, !andb_true_iff, !String.eqb_eq. tauto.
Qed.

Lemma str_ge_hhmm (s e : string) :
  valid_hhmm s = true -> valid_hhmm e = true ->
  str_ge s e = (minute_of_day e <=? minute_of_day s).
Proof.
  intros Vs Ve. unfold str_ge. rewrite str_lt_hhmm by assumption.
  rewrite Z.leb_antisym. reflexivity.
Qed.

(** Whatever [create_booking] raises, it raises before it writes. *)
Lemma create_booking_failure (db : DB) (payload : CreateBooking.t) (x : exn) :
  snd (create_booking db payload) = inl x -> fst (create_booking db payload) = db.
Proof.
  unfold create_booking.
  destruct (find_facility db (CreateBooking.facility_code payload)); [ | reflexivity].
  destruct (str_ge _ _); [reflexivity | ].
  destruct (check_existing _ _ _); [reflexivity | ].
  cbn. discriminate.
Qed.

(** The filter [active] keeps the bookings whose status is pending or
    approved. *)
Lemma active_status (b : Booking) :
  active b = true <-> status b = pending \/ status b = approved.
Proof.
  unfold active. destruct (status b); split; intro H;
    try reflexivity; try discriminate H; auto;
    destruct H as [H | H]; discriminate H.
Qed.

(** C2.  A request on an existing facility whose times are valid [HH:MM]
    texts: when the start is not before the end it fails with the 400 error
    whatever the store holds.  Otherwise, the stored bookings of that facility
    and date whose status is pending or approved having valid times too, it
    fails with the 409 error exactly when a stored booking whose status is
    pending or approved, of that facility and date, overlaps the request
    under [overlaps], and succeeds if none does: a booking of any other
    status does not block.  A failure leaves the store as it was; a success
    appends one booking, pending, carrying the request's data. *)
Theorem create_booking_contract (db : DB) (payload : CreateBooking.t)
  (fac : Document Facility) :
  find_facility db (CreateBooking.facility_code payload) = Some fac ->
  valid_hhmm (CreateBooking.start_time payload) = true ->
  valid_hhmm (CreateBooking.end_time payload) = true ->
  let s := minute_of_day (CreateBooking.start_time payload) in
  let e := minute_of_day (CreateBooking.end_time payload) in
  (e <= s -> create_booking db payload = (db, inl E400))
  /\ (s < e ->
      (forall b, In b (booking db) ->
                 status (fields b) = pending \/ status (fields b) = approved ->
                 facility_code (fields b) = CreateBooking.facility_code payload ->
                 date (fields b) = CreateBooking.date payload ->
                 times_valid (fields b) = true) ->
      (snd (create_booking db payload) = inl E409
       <-> exists b, In b (booking db)
                     /\ (status (fields b) = pending \/ status (fields b) = approved)
                     /\ facility_code (fields b) = CreateBooking.facility_code payload
                     /\ date (fields b) = CreateBooking.date payload
                     /\ overlaps (CreateBooking.start_time payload)
                                 (CreateBooking.end_time payload)
                                 (start_time (fields b)) (end_time (fields b))
                        = inr true)
      /\ (snd (create_booking db payload) = inl E409
          \/ exists c, snd (create_booking db payload) = inr c))
  /\ (forall x, snd (create_booking db payload) = inl x ->
                fst (create_booking db payload) = db)
  /\ (forall c, snd (create_booking db payload) = inr c ->
                fst (create_booking db payload)
                = {| facility := facility db;
                     booking := booking db
                                ++ [{| _id := fresh_id (booking db);
                                       fields := pending_booking fac payload |}] |}).
Proof.
  intros Hfac Vs Ve s e. split; [ | split; [ | split]].
  - intro Hse. unfold create_booking. rewrite Hfac, str_ge_hhmm by assumption.
    replace (_ <=? _) with true by (symmetry; apply Z.leb_le; exact Hse).
    reflexivity.
  - intros Hse Hvalid. unfold create_booking.
    rewrite Hfac, str_ge_hhmm by assumption.
    replace (_ <=? _) with false by (symmetry; apply Z.leb_gt; exact Hse).
    pose proof (check_existing_cases (CreateBooking.start_time payload)
                  (CreateBooking.end_time payload)
                  (find_active db (CreateBooking.facility_code payload)
                     (CreateBooking.date payload))) as Hc.
    destruct (check_existing _ _ _) as [x | u]; cbn [snd].
    + destruct Hc as [(-> & b & Hin & Hov) | (Hx & b & Hin & Hov)].
      * split; [ | now left]. split; [intros _ | reflexivity].
        apply find_active_In in Hin as (Hin & Hfc & Hd & Ha).
        apply active_status in Ha.
        exists b. repeat split; assumption.
      * exfalso. apply find_active_In in Hin as (Hin & Hfc & Hd & Ha).
        apply active_status in Ha.
        specialize (Hvalid b Hin Ha Hfc Hd).
        apply andb_true_iff in Hvalid as [V1 V2].
        rewrite overlaps_hhmm in Hov by assumption. discriminate Hov.
    + split; [ | right; eexists; reflexivity].
      split; [discriminate | ].
      intros (b & Hin & Ha & Hfc & Hd & Hov).
      rewrite (Hc b) in Hov; [discriminate Hov | ].
      apply find_active_In. apply active_status in Ha. repeat split; assumption.
  - apply create_booking_failure.
  - intro c. unfold create_booking. rewrite Hfac.
    destruct (str_ge _ _); [discriminate | ].
    destruct (check_existing _ _ _); [discriminate | ].
    reflexivity.
Qed.

Lemma create_booking_contract_witness :
  (snd (create_booking rejected_slot_db (mr1_request "11:30" "12:30")) = inl E409
   /\ fst (create_booking rejected_slot_db (mr1_request "11:30" "12:30"))
      = rejected_slot_db)
  /\ ((exists c, snd (create_booking rejected_slot_db (mr1_request "09:30" "10:30"))
                 = inr c)
      /\ map (fun d => (start_time (fields d), status (fields d)))
             (booking (fst (create_booking rejected_slot_db
                              (mr1_request "09:30" "10:30"))))
         = [("09:00", rejected); ("11:00", pending); ("09:30", pending)]).
Proof.
  assert (E : booking rejected_slot_db
              = [ {| _id := 1;
                     fields := with_status rejected
                                 (pending_booking mr1 (mr1_request "09:00" "10:00")) |};
                  {| _id := 2;
                     fields := pending_booking mr1 (mr1_request "11:00" "12:00") |} ])
    by (vm_compute; reflexivity).
  split.
  - assert (Hfac : find_facility rejected_slot_db
                     (CreateBooking.facility_code (mr1_request "11:30" "12:30"))
                   = Some mr1) by reflexivity.
    destruct (create_booking_contract rejected_slot_db (mr1_request "11:30" "12:30")
                mr1 Hfac eq_refl eq_refl) as (_ & H2 & H3 & _).
    assert (H : snd (create_booking rejected_slot_db (mr1_request "11:30" "12:30"))
                = inl E409).
    { apply H2.
      - reflexivity.
      - intros b Hin _ _ _. rewrite E in Hin.
        destruct Hin as [<- | [<- | []]]; reflexivity.
      - exists {| _id := 2;
                  fields := pending_booking mr1 (mr1_request "11:00" "12:00") |}.
        split; [rewrite E; right; left; reflexivity | ].
        split; [left; reflexivity | ].
        repeat split; vm_compute; reflexivity. }
    split; [exact H | exact (H3 _ H)].
  - assert (Hfac : find_facility rejected_slot_db
                     (CreateBooking.facility_code (mr1_request "09:30" "10:30"))
                   = Some mr1) by reflexivity.
    destruct (create_booking_contract rejected_slot_db (mr1_request "09:30" "10:30")
                mr1 Hfac eq_refl eq_refl) as (_ & H2 & _ & H4).
    assert (Hvalid : forall b, In b (booking rejected_slot_db) ->
                status (fields b) = pending \/ status (fields b) = approved ->
                facility_code (fields b)
                = CreateBooking.facility_code (mr1_request "09:30" "10:30") ->
                date (fields b) = CreateBooking.date (mr1_request "09:30" "10:30") ->
                times_valid (fields b) = true).
    { intros b Hin _ _ _. rewrite E in Hin.
      destruct Hin as [<- | [<- | []]]; reflexivity. }
    destruct (H2 eq_refl Hvalid) as [Hiff [H409 | [c Hc]]].
    + exfalso. apply Hiff in H409.
      destruct H409 as (b & Hin & Hst & _ & _ & Hov). rewrite E in Hin.
      destruct Hin as [<- | [<- | []]].
      * destruct Hst as [Hst | Hst]; discriminate Hst.
      * vm_compute in Hov. discriminate Hov.
    + split; [exists c; exact Hc | ].
      rewrite (H4 c Hc). cbn [booking]. rewrite map_app, E. reflexivity.
Defined.

(** ** Invariant I2 *)

Lemma overlaps_sym (s1 e1 s2 e2 : string) (v : bool) :
  overlaps s1 e1 s2 e2 = inr v -> overlaps s2 e2 s1 e1 = inr v.
Proof.
  unfold overlaps.
  destruct (to_local_dt "2000-01-01" s1); cbn [bind]; [discriminate | ].
  destruct (to_local_dt "2000-01-01" e1); cbn [bind]; [discriminate | ].
  destruct (to_local_dt "2000-01-01" s2); cbn [bind]; [discriminate | ].
  destruct (to_local_dt "2000-01-01" e2); cbn [bind]; [discriminate | ].
  rewrite andb_comm. trivial.
Qed.

Lemma nth_error_update_one {A : Type} (l : list (Document A)) (oid : N)
  (f : A -> A) (i : nat) (d' : Document A) :
  nth_error (update_one l oid f) i = Some d' ->
  exists d, nth_error l i = Some d
            /\ (d' = d
                \/ (find_one l oid = Some d
                    /\ d' = {| _id := _id d; fields := f (fields d) |})).
Proof.
  revert i. induction l as [ | x l IH]; intros i; cbn [update_one].
  - destruct i; discriminate.
  - unfold find_one. cbn [find]. destruct (N.eqb (_id x) oid) eqn:E.
    + destruct i as [ | i]; cbn [nth_error].
      * intro H. injection H as <-. exists x. auto.
      * intro H. exists d'. auto.
    + destruct i as [ | i]; cbn [nth_error].
      * intro H. injection H as <-. exists x. auto.
      * intro H. apply IH in H. exact H.
Qed.

Lemma I2_update_one (l : list (Document Booking)) (oid : N) (f : Booking -> Booking) :
  keeps_slot f ->
  (forall d, find_one l oid = Some d ->
             active (f (fields d)) = true -> active (fields d) = true) ->
  I2 l -> I2 (update_one l oid f).
Proof.
  intros Hk Ha HI i j bi bj Hij Hi Hj Ai Aj Hfc Hd.
  apply nth_error_update_one in Hi as (di & Hi & Ci).
  apply nth_error_update_one in Hj as (dj & Hj & Cj).
  assert (Ei : active (fields di) = true
               /\ facility_code (fields bi) = facility_code (fields di)
               /\ date (fields bi) = date (fields di)
               /\ start_time (fields bi) = start_time (fields di)
               /\ end_time (fields bi) = end_time (fields di)).
  { destruct Ci as [-> | [Hf ->]]; [auto | ]. cbn [fields] in *.
    destruct (Hk (fields di)) as (? & ? & ? & ?). auto using Ha. }
  assert (Ej : active (fields dj) = true
               /\ facility_code (fields bj) = facility_code (fields dj)
               /\ date (fields bj) = date (fields dj)
               /\ start_time (fields bj) = start_time (fields dj)
               /\ end_time (fields bj) = end_time (fields dj)).
  { destruct Cj as [-> | [Hf ->]]; [auto | ]. cbn [fields] in *.
    destruct (Hk (fields dj)) as (? & ? & ? & ?). auto using Ha. }
  destruct Ei as (Ai' & F1 & D1 & S1 & E1), Ej as (Aj' & F2 & D2 & S2 & E2).
  rewrite S1, E1, S2, E2.
  apply (HI i j di dj); congruence.
Qed.

Lemma I2_append (l : list (Document Booking)) (d : Document Booking) :
  I2 l ->
  (forall b, In b l -> active (fields b) = true ->
             facility_code (fields b) = facility_code (fields d) ->
             date (fields b) = date (fields d) ->
             overlaps (start_time (fields d)) (end_time (fields d))
                      (start_time (fields b)) (end_time (fields b)) = inr false) ->
  I2 (l ++ [d]).
Proof.
  intros HI Hnew i j bi bj Hij Hi Hj Ai Aj Hfc Hd.
  assert (Hlen : forall k b, nth_error (l ++ [d]) k = Some b ->
                             (nth_error l k = Some b /\ (k < List.length l)%nat)
                             \/ (k = List.length l /\ b = d)).
  { intros k b Hk. destruct (Nat.lt_ge_cases k (List.length l)) as [Hlt | Hge].
    - left. rewrite nth_error_app1 in Hk by assumption. auto.
    - right. rewrite nth_error_app2 in Hk by assumption.
      destruct (k - List.length l)%nat as [ | n] eqn:En; cbn in Hk.
      + injection Hk as <-. split; [lia | reflexivity].
      + destruct n; discriminate. }
  destruct (Hlen i bi Hi) as [[Hi' Li] | [Li ->]];
    destruct (Hlen j bj Hj) as [[Hj' Lj] | [Lj ->]].
  - now apply (HI i j bi bj).
  - intro Hov. apply overlaps_sym in Hov.
    rewrite (Hnew bi) in Hov; [discriminate | | | | ]; auto.
    eapply nth_error_In; eassumption.
  - rewrite (Hnew bj); [discriminate | | | | ]; auto.
    eapply nth_error_In; eassumption.
  - lia.
Qed.

Lemma I2_create_booking (db : DB) (payload : CreateBooking.t) :
  I2 (booking db) -> I2 (booking (fst (create_booking db payload))).
Proof.
  intro HI. unfold create_booking.
  destruct (find_facility db (CreateBooking.facility_code payload)) as [fac | ];
    [ | exact HI].
  destruct (str_ge _ _); [exact HI | ].
  pose proof (check_existing_cases (CreateBooking.start_time payload)
                (CreateBooking.end_time payload)
                (find_active db (CreateBooking.facility_code payload)
                   (CreateBooking.date payload))) as Hc.
  destruct (check_existing _ _ _) as [x | u]; [exact HI | ].
  cbn [create_document fst booking].
  apply I2_append; [exact HI | ].
  cbn [fields facility_code date start_time end_time].
  intros b Hin Ha Hfc Hd. apply Hc. apply find_active_In. auto.
Qed.

Lemma keeps_slot_with_status (s : Status) : keeps_slot (with_status s).
Proof. intro x. cbn. auto. Qed.

Lemma keeps_slot_approval (c : string) :
  keeps_slot (fun x => with_access_code c (with_status approved x)).
Proof. intro x. cbn. auto. Qed.

Lemma keeps_slot_with_checked_in_at (t : pydatetime) :
  keeps_slot (with_checked_in_at t).
Proof. intro x. cbn. auto. Qed.

Lemma I2_admin_action (db : DB) (booking_id : string) (a : AdminAction)
  (rnd : Byte.byte * Byte.byte * Byte.byte) :
  reapproves db (OpAdmin booking_id a rnd) = false ->
  I2 (booking db) -> I2 (booking (fst (admin_action db booking_id a rnd))).
Proof.
  unfold reapproves, admin_action. intros Hg HI.
  destruct (ObjectId booking_id) as [oid | ]; [ | exact HI].
  destruct (find_one (booking db) oid) as [b | ] eqn:Hb; [ | exact HI].
  destruct (action a); cbn [fst set_booking booking].
  - apply I2_update_one; [apply keeps_slot_approval | | exact HI].
    intros d Hd _. rewrite Hb in Hd. injection Hd as <-.
    now apply negb_false_iff in Hg.
  - apply I2_update_one; [apply keeps_slot_with_status | | exact HI].
    intros d _ H. discriminate H.
Qed.

Lemma I2_check_in (db : DB) (booking_id : string) (payload : CheckInPayload)
  (now : pydatetime) :
  I2 (booking db) -> I2 (booking (fst (check_in db booking_id payload now))).
Proof.
  unfold check_in. intro HI.
  destruct (ObjectId booking_id) as [oid | ]; [ | exact HI].
  destruct (find_one (booking db) oid) as [b | ]; [ | exact HI].
  destruct (negb _); [exact HI | ]. destruct (negb _); [exact HI | ].
  cbn [fst set_booking booking].
  apply I2_update_one; [apply keeps_slot_with_checked_in_at | | exact HI].
  intros d _ H. exact H.
Qed.

Lemma I2_sweep_loop (grace : Z) (today : pydate) (now : pydatetime)
  (rows : list (Document Booking)) (db : DB) (changed : Z) :
  I2 (booking db) ->
  I2 (booking (fst (sweep_loop grace today now rows db changed))).
Proof.
  revert db changed. induction rows as [ | b rest IH]; intros db changed HI;
    cbn [sweep_loop]; [exact HI | ].
  destruct (sweep_row grace today now (fields b)) as [x | [ | ]]; [exact HI | | ].
  - apply IH. cbn [set_booking booking].
    apply I2_update_one; [apply keeps_slot_with_status | | exact HI].
    intros d _ H. discriminate H.
  - apply IH, HI.
Qed.

Lemma I2_step (db : DB) (op : Op) :
  reapproves db op = false -> I2 (booking db) -> I2 (booking (step db op)).
Proof.
  destruct op; cbn [step]; intros Hg HI.
  - now apply I2_create_booking.
  - now apply I2_admin_action.
  - now apply I2_check_in.
  - now apply I2_sweep_loop.
Qed.

(** C1, as the code has it.  From a store where invariant I2 holds, it holds
    after every sequence of operations run one after the other in which no
    approval is applied to a booking that is neither pending nor approved at
    that moment. *)
Theorem I2_preserved (ops : list Op) (db : DB) :
  I2 (booking db) -> never_reapproves db ops = true -> I2 (booking (run db ops)).
Proof.
  revert db. induction ops as [ | op ops IH]; intros db HI Hg; cbn [run fold_left].
  - exact HI.
  - cbn [never_reapproves] in Hg. apply andb_true_iff in Hg as [Hop Hrest].
    apply negb_true_iff in Hop.
    apply IH; [now apply I2_step | exact Hrest].
Qed.

Lemma I2_seeded : I2 (booking seeded_db).
Proof. intros [ | i] j bi bj _ Hi; discriminate Hi. Qed.

Lemma I2_preserved_witness :
  I2 (booking (run seeded_db
                 [ OpCreate (mr1_request "09:00" "10:00");
                   OpCreate (mr1_request "09:30" "10:30");
                   OpCreate (mr1_request "10:00" "11:00");
                   OpAdmin (oid_str 1) approve_ (Byte.x0a, Byte.xff, Byte.x3c);
                   OpAdmin (oid_str 2) reject_ (Byte.x00, Byte.x00, Byte.x00) ])).
Proof.
  apply I2_preserved; [exact I2_seeded | vm_compute; reflexivity].
Defined.

(** C1 as stated fails: after create, reject, create on the freed slot and
    approval of the rejected booking, an approved and a pending booking of
    [MR-1] on 2024-06-01 both hold 09:00-10:00. *)
Lemma I2_broken_by_reapproval :
  forallb is_create_or_admin reapproval_ops = true
  /\ I2 (booking seeded_db)
  /\ ~ I2 (booking (run seeded_db reapproval_ops)).
Proof.
  split; [reflexivity | split; [exact I2_seeded | ]].
  intro H.
  remember (booking (run seeded_db reapproval_ops)) as l eqn:El.
  vm_compute in El.
  specialize (H 0%nat 1%nat).
  rewrite El in H. cbn [nth_error] in H.
  specialize (H _ _ (O_S 0) eq_refl eq_refl eq_refl eq_refl eq_refl eq_refl).
  apply H. vm_compute. reflexivity.
Qed.

(** ** The no-show sweep *)

Lemma update_one_fresh {A : Type} (pre : list (Document A)) (d : Document A)
  (rest : list (Document A)) (f : A -> A) :
  ~ In (_id d) (map _id pre) ->
  update_one (pre ++ d :: rest) (_id d) f
  = (pre ++ {| _id := _id d; fields := f (fields d) |} :: rest)%list.
Proof.
  induction pre as [ | x pre IH]; intro Hn; cbn [app update_one].
  - now rewrite N.eqb_refl.
  - cbn [map] in Hn. destruct (N.eqb_spec (_id x) (_id d)) as [E | _].
    + exfalso. apply Hn. now left.
    + f_equal. apply IH. intro H. apply Hn. now right.
Qed.

Lemma sweep_loop_pass (grace : Z) (today : pydate) (now : pydatetime)
  (fs : list (Document Facility)) (suffix pre : list (Document Booking))
  (changed : Z) :
  NoDup (map _id (pre ++ suffix)) ->
  sweep_loop grace today now (filter (fun x => sweep_selected (fields x)) suffix)
    {| facility := fs; booking := pre ++ suffix |} changed
  = ({| facility := fs;
        booking := pre ++ fst (sweep_pass grace today now suffix changed) |},
     snd (sweep_pass grace today now suffix changed)).
Proof.
  revert pre changed.
  induction suffix as [ | d rest IH]; intros pre changed Hnd; [reflexivity | ].
  assert (Hnext : forall d', _id d' = _id d ->
                             NoDup (map _id ((pre ++ [d']) ++ rest))).
  { intros d' E. rewrite <- app_assoc. cbn [app].
    rewrite map_app in *. cbn [map] in *. now rewrite E. }
  cbn [filter sweep_pass]. destruct (sweep_selected (fields d)).
  - cbn [sweep_loop].
    destruct (sweep_row grace today now (fields d)) as [e | [ | ]]; [reflexivity | | ].
    + unfold set_booking. cbn [facility booking].
      rewrite update_one_fresh.
      2:{ rewrite map_app in Hnd. cbn [map] in Hnd.
          apply NoDup_remove_2 in Hnd. intro H. apply Hnd.
          apply in_or_app. now left. }
      specialize (IH (pre ++ [mark_no_show d])%list (changed + 1)
                    (Hnext (mark_no_show d) eq_refl)).
      rewrite <- app_assoc in IH. cbn [app] in IH. unfold mark_no_show in IH at 1.
      rewrite IH.
      destruct (sweep_pass grace today now rest (changed + 1)) as [rest' r].
      cbn [fst snd]. now rewrite <- app_assoc.
    + specialize (IH (pre ++ [d])%list changed (Hnext d eq_refl)).
      rewrite <- app_assoc in IH. cbn [app] in IH. rewrite IH.
      destruct (sweep_pass grace today now rest changed) as [rest' r].
      cbn [fst snd]. now rewrite <- app_assoc.
  - specialize (IH (pre ++ [d])%list changed (Hnext d eq_refl)).
    rewrite <- app_assoc in IH. cbn [app] in IH. rewrite IH.
    destruct (sweep_pass grace today now rest changed) as [rest' r].
    cbn [fst snd]. now rewrite <- app_assoc.
Qed.

(** With distinct identifiers [sweep_noshows] is the single pass. *)
Lemma sweep_noshows_pass (grace : Z) (db : DB) (clock1 clock2 : pydatetime) :
  NoDup (map _id (booking db)) ->
  sweep_noshows grace db clock1 clock2
  = (set_booking db (fst (sweep_pass grace (dt_date clock1) clock2 (booking db) 0)),
     snd (sweep_pass grace (dt_date clock1) clock2 (booking db) 0)).
Proof.
  intro Hnd. unfold sweep_noshows, set_booking. destruct db as [fs bs].
  cbn [booking facility] in *.
  exact (sweep_loop_pass grace (dt_date clock1) clock2 fs bs [] 0 Hnd).
Qed.

Lemma sweep_row_due (grace : Z) (today : pydate) (now : pydatetime) (b : Booking)
  (v : bool) :
  sweep_row grace today now b = inr v -> v = due grace today now b.
Proof.
  unfold sweep_row, due.
  destruct (strptime_date (date b)) as [e | b_date]; cbn [bind]; [discriminate | ].
  destruct (to_local_dt (date b) (start_time b)) as [e | start_dt]; cbn [bind];
    [discriminate | ].
  destruct (b_date <=? today); cbn [andb].
  - unfold dt_add_minutes. destruct (_ && _); cbn [bind]; [ | discriminate].
    intro H. now injection H as <-.
  - intro H. now injection H as <-.
Qed.

Lemma sweep_pass_exact (grace : Z) (today : pydate) (now : pydatetime)
  (l : list (Document Booking)) (changed : Z) :
  (forall d, In d l -> sweep_selected (fields d) = true ->
             exists v, sweep_row grace today now (fields d) = inr v) ->
  sweep_pass grace today now l changed
  = (map (fun d => if transitions grace today now d then mark_no_show d else d) l,
     inr (changed + Z.of_nat (List.length (filter (transitions grace today now) l)))).
Proof.
  revert changed. induction l as [ | d rest IH]; intros changed Hok.
  - cbn. now rewrite Z.add_0_r.
  - assert (Hrest : forall d', In d' rest -> sweep_selected (fields d') = true ->
                               exists v, sweep_row grace today now (fields d') = inr v)
      by (intros d' Hin; apply Hok; now right).
    cbn [sweep_pass map filter]. unfold transitions at 1 3.
    destruct (sweep_selected (fields d)) eqn:Hsel; cbn [andb].
    + destruct (Hok d (or_introl eq_refl) Hsel) as [v Hv]. rewrite Hv.
      rewrite <- (sweep_row_due _ _ _ _ _ Hv).
      destruct v; rewrite (IH _ Hrest); [ | reflexivity].
      cbn [List.length]. do 2 f_equal. lia.
    + now rewrite (IH _ Hrest).
Qed.

Lemma sweep_pass_ids (grace : Z) (today : pydate) (now : pydatetime)
  (l : list (Document Booking)) (changed : Z) :
  map _id (fst (sweep_pass grace today now l changed)) = map _id l.
Proof.
  revert changed. induction l as [ | d rest IH]; intro changed; [reflexivity | ].
  cbn [sweep_pass].
  destruct (sweep_selected (fields d));
    [destruct (sweep_row grace today now (fields d)) as [e | [ | ]] | ];
    try reflexivity.
  all: match goal with
       | |- context [sweep_pass _ _ _ _ ?c] =>
           specialize (IH c); destruct (sweep_pass _ _ _ _ c)
       end; cbn [fst map] in *; now rewrite IH.
Qed.

Lemma sweep_pass_again (grace : Z) (today : pydate) (now : pydatetime)
  (l : list (Document Booking)) (changed changed' : Z) :
  fst (sweep_pass grace today now
         (fst (sweep_pass grace today now l changed)) changed')
  = fst (sweep_pass grace today now l changed)
  /\ (forall n, snd (sweep_pass grace today now l changed) = inr n ->
                snd (sweep_pass grace today now
                       (fst (sweep_pass grace today now l changed)) changed')
                = inr changed').
Proof.
  revert changed. induction l as [ | d rest IH]; intro changed.
  - cbn. auto.
  - cbn [sweep_pass]. destruct (sweep_selected (fields d)) eqn:Hsel.
    + destruct (sweep_row grace today now (fields d)) as [e | [ | ]] eqn:Hrow.
      * cbn [fst snd sweep_pass]. rewrite Hsel, Hrow. cbn [fst snd].
        split; [reflexivity | discriminate].
      * specialize (IH (changed + 1)).
        destruct (sweep_pass grace today now rest (changed + 1)) as [rest' r].
        cbn [fst snd] in *. cbn [sweep_pass].
        replace (sweep_selected (fields (mark_no_show d))) with false
          by (cbn; unfold sweep_selected in *; now destruct (status (fields d))).
        destruct (sweep_pass grace today now rest' changed') as [rest'' r'].
        cbn [fst snd] in *. destruct IH as [-> IH2]. auto.
      * specialize (IH changed).
        destruct (sweep_pass grace today now rest changed) as [rest' r].
        cbn [fst snd] in *. cbn [sweep_pass]. rewrite Hsel, Hrow.
        destruct (sweep_pass grace today now rest' changed') as [rest'' r'].
        cbn [fst snd] in *. destruct IH as [-> IH2]. auto.
    + specialize (IH changed).
      destruct (sweep_pass grace today now rest changed) as [rest' r].
      cbn [fst snd] in *. cbn [sweep_pass]. rewrite Hsel.
      destruct (sweep_pass grace today now rest' changed') as [rest'' r'].
      cbn [fst snd] in *. destruct IH as [-> IH2]. auto.
Qed.

(** The day of a clock reading: the day whose microseconds hold it. *)
Lemma dt_date_of_day (clock : pydatetime) (today : pydate) :
  (today - 1) * USEC_PER_DAY <= clock < today * USEC_PER_DAY ->
  dt_date clock = today.
Proof.
  unfold dt_date, USEC_PER_DAY. intro H.
  assert (E : clock / 86400000000 = today - 1)
    by (symmetry; apply Z.div_unique with (r := clock - (today - 1) * 86400000000); lia).
  change (clock / 86400000000 + 1 = today :> Z). lia.
Qed.

(** The bookings the sweep is to mark, status and check-in spelled out. *)
Lemma transitions_spec (grace : Z) (today : pydate) (now : pydatetime)
  (d : Document Booking) :
  transitions grace today now d = true
  <-> status (fields d) = approved
      /\ checked_in_at (fields d) = None
      /\ exists b_date start_dt,
           strptime_date (date (fields d)) = inr b_date
           /\ to_local_dt (date (fields d)) (start_time (fields d)) = inr start_dt
           /\ b_date <= today
           /\ start_dt + grace * USEC_PER_MINUTE <= now.
Proof.
  unfold transitions, sweep_selected, due. split.
  - intro H. apply andb_true_iff in H as [Hsel Hdue].
    apply andb_true_iff in Hsel as [Hst Hci].
    split; [destruct (status (fields d)); try discriminate Hst; reflexivity | ].
    split; [destruct (checked_in_at (fields d)); [discriminate Hci | reflexivity] | ].
    destruct (strptime_date (date (fields d))) as [e | b_date]; [discriminate Hdue | ].
    destruct (to_local_dt (date (fields d)) (start_time (fields d)))
      as [e | start_dt]; [discriminate Hdue | ].
    apply andb_true_iff in Hdue as [H1 H2]. apply Z.leb_le in H1, H2.
    exists b_date, start_dt. auto.
  - intros (Hst & Hci & b_date & start_dt & Hd & Ht & H1 & H2).
    rewrite Hst, Hci, Hd, Ht. cbn [Status_eqb andb].
    apply andb_true_iff. split; apply Z.leb_le; assumption.
Qed.

(** C4.  [clock1] being an instant of the day [today], on a collection with
    distinct identifiers whose bookings of status approved and without
    [checked_in_at] have a date and a start time that parse and, when dated
    today or earlier, a representable deadline, [sweep_noshows] returns.  It
    sets to no-show exactly the bookings whose status is approved, whose
    [checked_in_at] is unset, whose date is today or earlier and whose start
    plus the grace period is not after [clock2]; every other booking is left
    as it was; the number returned is the number of bookings it set.  Of the
    six bookings of [mixed_db], swept at noon of 2024-06-01 with the default
    grace of 15 minutes, only the first is set: the one checked in, the
    pending one, the rejected one, the one starting at 13:00 and the one of
    the next day stay; a booking of the day that begins at midnight is not
    set by a sweep that read the date just before midnight.  The booking of
    scenario D (today, 08:00) is set at 08:16 and stays approved at 08:14. *)
Theorem sweep_noshows_exact :
  (forall (grace : Z) (db : DB) (clock1 clock2 : pydatetime) (today : pydate),
      NoDup (map _id (booking db)) ->
      (today - 1) * USEC_PER_DAY <= clock1 < today * USEC_PER_DAY ->
      (forall d, In d (booking db) ->
                 status (fields d) = approved -> checked_in_at (fields d) = None ->
                 exists b_date start_dt,
                   strptime_date (date (fields d)) = inr b_date
                   /\ to_local_dt (date (fields d)) (start_time (fields d))
                      = inr start_dt
                   /\ (b_date <= today ->
                       0 <= start_dt + grace * USEC_PER_MINUTE
                       < MAXORDINAL * USEC_PER_DAY)) ->
      exists to_mark : Document Booking -> bool,
        (forall d, to_mark d = true
                   <-> status (fields d) = approved
                       /\ checked_in_at (fields d) = None
                       /\ exists b_date start_dt,
                            strptime_date (date (fields d)) = inr b_date
                            /\ to_local_dt (date (fields d)) (start_time (fields d))
                               = inr start_dt
                            /\ b_date <= today
                            /\ start_dt + grace * USEC_PER_MINUTE <= clock2)
        /\ sweep_noshows grace db clock1 clock2
           = ({| facility := facility db;
                 booking := map (fun d => if to_mark d
                                          then {| _id := _id d;
                                                  fields := with_status no_show (fields d) |}
                                          else d)
                                (booking db) |},
              inr (Z.of_nat (List.length (filter to_mark (booking db))))))
  /\ (let now := clock_at "2024-06-01" "12:00" in
      map (fun d => (start_time (fields d), status (fields d), checked_in_at (fields d)))
          (booking mixed_db)
      = [ ("08:00", approved, None);
          ("09:00", approved, Some (clock_at "2024-06-01" "09:05"));
          ("10:00", pending, None);
          ("11:00", rejected, None);
          ("13:00", approved, None);
          ("00:00", approved, None) ]
      /\ map (fun d => status (fields d))
             (booking (fst (sweep_noshows NO_SHOW_GRACE_MIN mixed_db now now)))
         = [no_show; approved; pending; rejected; approved; approved]
      /\ snd (sweep_noshows NO_SHOW_GRACE_MIN mixed_db now now) = inr 1)
  /\ (sweep_noshows 0 mixed_db (clock_at "2024-06-01" "23:59")
                    (clock_at "2024-06-02" "00:00")
      = (set_booking mixed_db
           (map (fun d => if (_id d =? 1)%N || (_id d =? 5)%N
                          then mark_no_show d else d) (booking mixed_db)),
         inr 2))
  /\ (let now := clock_at "2024-06-01" "08:16" in
      map (fun d => status (fields d))
          (booking (fst (sweep_noshows NO_SHOW_GRACE_MIN scenario_D_db now now)))
      = [no_show]
      /\ snd (sweep_noshows NO_SHOW_GRACE_MIN scenario_D_db now now) = inr 1)
  /\ (let now := clock_at "2024-06-01" "08:14" in
      sweep_noshows NO_SHOW_GRACE_MIN scenario_D_db now now
      = (scenario_D_db, inr 0)).
Proof.
  split; [ | split; [split; [ | split] | split; [ | split; [split | ]]]].
  - intros grace db clock1 clock2 today Hnd Hday Hok.
    exists (transitions grace today clock2).
    split; [intro d; apply transitions_spec | ].
    rewrite sweep_noshows_pass by assumption.
    rewrite (dt_date_of_day _ _ Hday).
    rewrite sweep_pass_exact; [reflexivity | ].
    intros d Hin Hsel. unfold sweep_selected in Hsel.
    apply andb_true_iff in Hsel as [Hst Hci].
    assert (Hst' : status (fields d) = approved)
      by (destruct (status (fields d)); try discriminate Hst; reflexivity).
    assert (Hci' : checked_in_at (fields d) = None)
      by (destruct (checked_in_at (fields d)); [discriminate Hci | reflexivity]).
    destruct (Hok d Hin Hst' Hci') as (b_date & start_dt & Hd & Ht & Hrange).
    unfold sweep_row. rewrite Hd, Ht. cbn [bind].
    destruct (b_date <=? today) eqn:Hle; [ | eexists; reflexivity].
    apply Z.leb_le in Hle. specialize (Hrange Hle). unfold dt_add_minutes.
    replace ((0 <=? start_dt + grace * USEC_PER_MINUTE)
             && (start_dt + grace * USEC_PER_MINUTE <? MAXORDINAL * USEC_PER_DAY))
      with true
      by (symmetry; apply andb_true_iff; split;
          [apply Z.leb_le | apply Z.ltb_lt]; lia).
    cbn [bind]. eexists. reflexivity.
  - vm_compute. reflexivity.
  - vm_compute. reflexivity.
  - vm_compute. reflexivity.
  - vm_compute. reflexivity.
  - vm_compute. reflexivity.
  - vm_compute. reflexivity.
  - vm_compute. reflexivity.
Qed.

Lemma sweep_noshows_exact_witness :
  exists to_mark : Document Booking -> bool,
    (forall d, to_mark d = true
               <-> status (fields d) = approved
                   /\ checked_in_at (fields d) = None
                   /\ exists b_date start_dt,
                        strptime_date (date (fields d)) = inr b_date
                        /\ to_local_dt (date (fields d)) (start_time (fields d))
                           = inr start_dt
                        /\ b_date <= ymd2ord 2024 6 1
                        /\ start_dt + 15 * USEC_PER_MINUTE
                           <= clock_at "2024-06-01" "12:00")
    /\ sweep_noshows 15 mixed_db (clock_at "2024-06-01" "12:00")
                     (clock_at "2024-06-01" "12:00")
       = ({| facility := facility mixed_db;
             booking := map (fun d => if to_mark d
                                      then {| _id := _id d;
                                              fields := with_status no_show (fields d) |}
                                      else d)
                            (booking mixed_db) |},
          inr (Z.of_nat (List.length (filter to_mark (booking mixed_db))))).
Proof.
  apply (proj1 sweep_noshows_exact 15 mixed_db (clock_at "2024-06-01" "12:00")
           (clock_at "2024-06-01" "12:00") (ymd2ord 2024 6 1)).
  - vm_compute. repeat constructor; cbn; intuition discriminate.
  - vm_compute. split; [intro H; discriminate H | reflexivity].
  - intros d Hin Hst Hci.
    assert (E : map (fun d => (date (fields d), start_time (fields d)))
                    (booking mixed_db)
                = [ ("2024-06-01", "08:00"); ("2024-06-01", "09:00");
                    ("2024-06-01", "10:00"); ("2024-06-01", "11:00");
                    ("2024-06-01", "13:00"); ("2024-06-02", "00:00") ])
      by (vm_compute; reflexivity).
    apply (in_map (fun d => (date (fields d), start_time (fields d)))) in Hin.
    rewrite E in Hin. cbn [In] in Hin.
    repeat (destruct Hin as [Hin | Hin];
            [injection Hin as <- <-;
             match goal with
             | |- exists _ _, strptime_date ?dt = _ /\ to_local_dt ?dt ?tm = _ /\ _ =>
                 exists (dt_date (clock_at dt "00:00")), (clock_at dt tm)
             end;
             split; [vm_compute; reflexivity | ];
             split; [vm_compute; reflexivity | ];
             intros _; vm_compute; split; [intro H; discriminate H | reflexivity]
            | ]).
    contradiction.
Defined.

(** C9.  On a collection with distinct identifiers, a second sweep at the
    same clock readings changes no booking, whatever the first one did; when
    the first sweep returned, the second returns 0. *)
Theorem sweep_noshows_idempotent (grace : Z) (db : DB) (clock1 clock2 : pydatetime) :
  NoDup (map _id (booking db)) ->
  let db1 := fst (sweep_noshows grace db clock1 clock2) in
  fst (sweep_noshows grace db1 clock1 clock2) = db1
  /\ (forall n, snd (sweep_noshows grace db clock1 clock2) = inr n ->
                snd (sweep_noshows grace db1 clock1 clock2) = inr 0).
Proof.
  intros Hnd db1. subst db1.
  rewrite (sweep_noshows_pass grace db) by assumption. cbn [fst snd].
  assert (Hnd1 : NoDup (map _id (booking (set_booking db
                   (fst (sweep_pass grace (dt_date clock1) clock2 (booking db) 0)))))).
  { cbn [set_booking booking]. now rewrite sweep_pass_ids. }
  rewrite sweep_noshows_pass by assumption. cbn [fst snd set_booking booking facility].
  destruct (sweep_pass_again grace (dt_date clock1) clock2 (booking db) 0 0)
    as [H1 H2].
  split; [now rewrite H1 | exact H2].
Qed.

Lemma sweep_noshows_idempotent_witness :
  snd (sweep_noshows 15 scenario_D_db (clock_at "2024-06-01" "08:16")
                     (clock_at "2024-06-01" "08:16")) = inr 1
  /\ snd (sweep_noshows 15
            (fst (sweep_noshows 15 scenario_D_db (clock_at "2024-06-01" "08:16")
                                (clock_at "2024-06-01" "08:16")))
            (clock_at "2024-06-01" "08:16") (clock_at "2024-06-01" "08:16")) = inr 0.
Proof.
  assert (Hnd : NoDup (map _id (booking scenario_D_db)))
    by (vm_compute; repeat constructor; intros []).
  assert (H1 : snd (sweep_noshows 15 scenario_D_db (clock_at "2024-06-01" "08:16")
                                  (clock_at "2024-06-01" "08:16")) = inr 1)
    by (vm_compute; reflexivity).
  split; [exact H1 | ].
  exact (proj2 (sweep_noshows_idempotent 15 scenario_D_db
                  (clock_at "2024-06-01" "08:16") (clock_at "2024-06-01" "08:16") Hnd)
               1 H1).
Defined.

(** ** Availability *)

Lemma range_In (a b x : Z) : In x (range a b) <-> a <= x < b.
Proof.
  unfold range. rewrite in_map_iff. split.
  - intros (k & <- & Hk). apply in_seq in Hk. lia.
  - intro H. exists (Z.to_nat (x - a)). split; [lia | ].
    apply in_seq. lia.
Qed.

Lemma list_set_length (l : list Z) (i : nat) (v : Z) :
  List.length (list_set l i v) = List.length l.
Proof.
  revert i. induction l as [ | x l IH]; intros [ | i]; cbn; auto.
Qed.

Lemma list_set_nth (l : list Z) (i j : nat) (v : Z) :
  (i < List.length l)%nat ->
  nth j (list_set l i v) 0 = if Nat.eqb j i then v else nth j l 0.
Proof.
  revert i j. induction l as [ | x l IH]; intros i j Hi; cbn in Hi; [lia | ].
  destruct i as [ | i], j as [ | j]; cbn; auto.
  apply IH. lia.
Qed.

Lemma mark_length (idxs : list Z) (covered : list Z) :
  List.length (mark covered idxs) = List.length covered.
Proof.
  revert covered. induction idxs as [ | i rest IH]; intro covered; cbn [mark];
    [reflexivity | ].
  rewrite IH. destruct (_ && _); [apply list_set_length | reflexivity].
Qed.

Lemma mark_nth (idxs : list Z) (covered : list Z) (j : nat) :
  (j < List.length covered)%nat ->
  (nth j (mark covered idxs) 0 <> 0
   <-> nth j covered 0 <> 0 \/ In (Z.of_nat j) idxs).
Proof.
  revert covered. induction idxs as [ | i rest IH]; intros covered Hj; cbn [mark In].
  - tauto.
  - destruct ((0 <=? i) && (i <? Z.of_nat (List.length covered))) eqn:Hin.
    + apply andb_true_iff in Hin as [H0 H1].
      apply Z.leb_le in H0. apply Z.ltb_lt in H1.
      rewrite IH by (now rewrite list_set_length).
      rewrite list_set_nth by lia.
      destruct (Nat.eqb_spec j (Z.to_nat i)) as [-> | Hne].
      * rewrite Z2Nat.id by lia. split; [auto | intros _; left; discriminate].
      * assert (i <> Z.of_nat j) by lia. tauto.
    + rewrite IH by assumption.
      assert (i <> Z.of_nat j).
      { intros ->. apply andb_false_iff in Hin as [H | H].
        - apply Z.leb_gt in H. lia.
        - apply Z.ltb_ge in H. lia. }
      tauto.
Qed.

Lemma minutes_open : minutes open_t = inr (8 * 60).
Proof. reflexivity. Qed.

Lemma minutes_close : minutes close_t = inr (22 * 60).
Proof. reflexivity. Qed.

(** What [cover] leaves in the bitmap. *)
Lemma cover_spec (bookings : list (Document Booking)) (covered : list Z) :
  (forall b, In b bookings ->
             exists ms me, minutes (start_time (fields b)) = inr ms
                           /\ minutes (end_time (fields b)) = inr me) ->
  exists covered',
    cover covered bookings = inr covered'
    /\ List.length covered' = List.length covered
    /\ forall j, (j < List.length covered)%nat ->
         (nth j covered' 0 <> 0
          <-> nth j covered 0 <> 0
              \/ exists b ms me,
                   In b bookings
                   /\ minutes (start_time (fields b)) = inr ms
                   /\ minutes (end_time (fields b)) = inr me
                   /\ Z.max ms (8 * 60) <= Z.of_nat j + 8 * 60 < Z.min me (22 * 60)).
Proof.
  revert covered. induction bookings as [ | b rest IH]; intros covered Hok.
  - exists covered. cbn [cover]. split; [reflexivity | split; [reflexivity | ]].
    intros j _. split; [auto | ]. intros [H | (b & ? & ? & [] & _)]. exact H.
  - destruct (Hok b (or_introl eq_refl)) as (ms & me & Hs & He).
    cbn [cover]. rewrite Hs, He, minutes_open, minutes_close. cbn [bind].
    destruct (IH (mark covered
                    (range (Z.max 0 (Z.max ms (8 * 60) - 8 * 60))
                           (Z.max 0 (Z.min me (22 * 60) - 8 * 60)))))
      as (covered' & Hc & Hlen & Hnth).
    { intros b' Hin. apply Hok. now right. }
    exists covered'. rewrite mark_length in Hlen.
    split; [exact Hc | split; [exact Hlen | ]].
    intros j Hj. rewrite Hnth by (now rewrite mark_length).
    rewrite mark_nth by assumption. rewrite range_In. split.
    + intros [[H | H] | (b' & ms' & me' & Hin & Hs' & He' & Hr)].
      * now left.
      * right. exists b, ms, me. repeat split; auto; try lia. now left.
      * right. exists b', ms', me'. repeat split; auto; try lia. now right.
    + intros [H | (b' & ms' & me' & [<- | Hin] & Hs' & He' & Hr)].
      * left. now left.
      * left. right. rewrite Hs in Hs'. rewrite He in He'.
        injection Hs' as <-. injection He' as <-. lia.
      * right. exists b', ms', me'. auto.
Qed.

Lemma all_covered_spec (covered : list Z) :
  all_covered covered = true
  <-> covered <> [] /\ forall j, (j < List.length covered)%nat -> nth j covered 0 <> 0.
Proof.
  unfold all_covered. rewrite andb_true_iff, forallb_forall. split.
  - intros [Hne Hall]. split.
    + intros ->. discriminate Hne.
    + intros j Hj. specialize (Hall (nth j covered 0) (nth_In _ _ Hj)).
      apply negb_true_iff, Z.eqb_neq in Hall. exact Hall.
  - intros [Hne Hall]. split.
    + destruct covered; [congruence | reflexivity].
    + intros x Hx. apply (In_nth _ _ 0) in Hx as (j & Hj & <-).
      apply negb_true_iff, Z.eqb_neq. now apply Hall.
Qed.

(** C7.  For an existing facility and a date whose bookings of status
    pending or approved have times [minutes] can read, [availability]
    returns, and [fully_occupied] is true exactly when every minute from
    08:00 up to but not including 22:00 lies in the clipped interval of at
    least one booking of that facility and date whose status is pending or
    approved: a booking of any other status covers nothing.  Two bookings
    tiling the window give true; a gap of one minute gives false; so does the
    tiling whose second booking is rejected. *)
Theorem availability_fully_occupied :
  (forall (db : DB) (fc date_str : string) (fac : Document Facility),
      find_facility db fc = Some fac ->
      (forall b, In b (booking db) ->
                 status (fields b) = pending \/ status (fields b) = approved ->
                 facility_code (fields b) = fc -> date (fields b) = date_str ->
                 exists ms me, minutes (start_time (fields b)) = inr ms
                               /\ minutes (end_time (fields b)) = inr me) ->
      exists a,
        availability db fc date_str = inr a
        /\ (fully_occupied a = true
            <-> forall m, 8 * 60 <= m < 22 * 60 ->
                  exists b, In b (booking db)
                            /\ (status (fields b) = pending
                                \/ status (fields b) = approved)
                            /\ facility_code (fields b) = fc
                            /\ date (fields b) = date_str
                            /\ exists ms me,
                                 minutes (start_time (fields b)) = inr ms
                                 /\ minutes (end_time (fields b)) = inr me
                                 /\ Z.max ms (8 * 60) <= m < Z.min me (22 * 60)))
  /\ (exists a, availability tiling_db "MR-1" "2024-06-01" = inr a
                /\ fully_occupied a = true)
  /\ (exists a, availability gap_db "MR-1" "2024-06-01" = inr a
                /\ fully_occupied a = false)
  /\ (map (fun d => (start_time (fields d), end_time (fields d), status (fields d)))
          (booking rejected_tiling_db)
      = [("08:00", "15:00", pending); ("15:00", "22:00", rejected)]
      /\ exists a, availability rejected_tiling_db "MR-1" "2024-06-01" = inr a
                   /\ fully_occupied a = false).
Proof.
  split; [ | split; [ | split; [ | split]]].
  - intros db fc date_str fac Hfac Hok. unfold availability. rewrite Hfac.
    rewrite minutes_open, minutes_close. cbn [bind].
    destruct (cover_spec (find_active db fc date_str)
                (repeat 0 (Z.to_nat (22 * 60 - 8 * 60))))
      as (covered & Hc & Hlen & Hnth).
    { intros b Hin. apply find_active_In in Hin as (Hin & Hf & Hd & Ha).
      apply active_status in Ha. now apply Hok. }
    rewrite Hc. cbn [bind]. eexists. split; [reflexivity | ].
    cbn [fully_occupied]. rewrite all_covered_spec.
    rewrite repeat_length in Hlen, Hnth. rewrite Hlen. split.
    + intros [_ Hall] m Hm.
      assert (Hj : (Z.to_nat (m - 8 * 60) < Z.to_nat (22 * 60 - 8 * 60))%nat) by lia.
      specialize (Hall _ Hj). apply Hnth in Hall; [ | exact Hj].
      destruct Hall as [H | (b & ms & me & Hin & Hs & He & Hr)].
      * exfalso. apply H. apply nth_repeat.
      * apply find_active_In in Hin as (Hin & Hf & Hd & Ha).
        apply active_status in Ha.
        exists b. repeat split; auto. exists ms, me. repeat split; auto; lia.
    + intro Hall. split.
      * intros ->. cbn in Hlen. lia.
      * intros j Hj. apply Hnth; [exact Hj | ]. right.
        destruct (Hall (Z.of_nat j + 8 * 60)) as (b & Hin & Ha & Hf & Hd & Hcov);
          [lia | ].
        destruct Hcov as (ms & me & Hs & He & Hr).
        exists b, ms, me. repeat split; auto; try lia.
        apply find_active_In. apply active_status in Ha. auto.
  - eexists. split; [vm_compute; reflexivity | reflexivity].
  - eexists. split; [vm_compute; reflexivity | reflexivity].
  - vm_compute. reflexivity.
  - eexists. split; [vm_compute; reflexivity | reflexivity].
Qed.

Lemma availability_fully_occupied_witness :
  exists a,
    availability rejected_tiling_db "MR-1" "2024-06-01" = inr a
    /\ fully_occupied a = false.
Proof.
  assert (E : booking rejected_tiling_db
              = [ {| _id := 1;
                     fields := pending_booking mr1 (mr1_request "08:00" "15:00") |};
                  {| _id := 2;
                     fields := with_status rejected
                                 (pending_booking mr1 (mr1_request "15:00" "22:00")) |} ])
    by (vm_compute; reflexivity).
  assert (M : minutes "15:00" = inr 900) by (vm_compute; reflexivity).
  destruct (proj1 availability_fully_occupied rejected_tiling_db "MR-1" "2024-06-01"
              mr1) as (a & Ha & Hiff).
  - vm_compute. reflexivity.
  - intros b Hin [Hst | Hst] _ _; rewrite E in Hin;
      destruct Hin as [<- | [<- | []]]; try discriminate Hst.
    exists 480, 900. split; vm_compute; reflexivity.
  - exists a. split; [exact Ha | ].
    destruct (fully_occupied a); [exfalso | reflexivity].
    destruct (proj1 Hiff eq_refl (15 * 60))
      as (b & Hin & Hst & _ & _ & ms & me & _ & He & Hr); [lia | ].
    rewrite E in Hin. destruct Hin as [<- | [<- | []]].
    + change (minutes "15:00" = inr me) in He. rewrite M in He.
      injection He as <-. lia.
    + destruct Hst as [Hst | Hst]; discriminate Hst.
Defined.

(** ** Check-in *)

Lemma find_one_Some {A : Type} (l : list (Document A)) (oid : N) (d : Document A) :
  find_one l oid = Some d -> In d l /\ _id d = oid.
Proof.
  unfold find_one. intro H. apply find_some in H as [Hin E].
  apply N.eqb_eq in E. auto.
Qed.

Lemma find_one_update_one {A : Type} (l : list (Document A)) (oid : N)
  (f : A -> A) (d : Document A) :
  find_one l oid = Some d ->
  find_one (update_one l oid f) oid = Some {| _id := _id d; fields := f (fields d) |}.
Proof.
  unfold find_one. induction l as [ | x l IH]; cbn [find update_one]; [discriminate | ].
  destruct (N.eqb (_id x) oid) eqn:E.
  - intro H. injection H as <-. cbn [find _id]. now rewrite E.
  - intro H. cbn [find]. rewrite E. now apply IH.
Qed.

Lemma update_one_nth_error {A : Type} (l : list (Document A)) (oid : N)
  (f : A -> A) (i : nat) (d : Document A) :
  nth_error l i = Some d ->
  exists d', nth_error (update_one l oid f) i = Some d'
             /\ (d' = d
                 \/ (find_one l oid = Some d
                     /\ d' = {| _id := _id d; fields := f (fields d) |})).
Proof.
  revert i. induction l as [ | x l IH]; intros i; [destruct i; discriminate | ].
  unfold find_one. cbn [update_one find]. destruct (N.eqb (_id x) oid) eqn:E.
  - destruct i as [ | i]; cbn [nth_error]; intro H.
    + injection H as <-. eexists. split; [reflexivity | auto].
    + exists d. auto.
  - destruct i as [ | i]; cbn [nth_error]; intro H.
    + exists d. auto.
    + now apply IH.
Qed.

Lemma opt_str_eqb_true (a : option string) (b : string) :
  opt_str_eqb a b = true <-> a = Some b.
Proof.
  destruct a as [s | ]; cbn.
  - rewrite String.eqb_eq. split; congruence.
  - split; discriminate.
Qed.

Lemma check_in_success (db : DB) (booking_id : string) (oid : N)
  (d : Document Booking) (payload : CheckInPayload) (now : pydatetime) :
  ObjectId booking_id = Some oid ->
  find_one (booking db) oid = Some d ->
  status (fields d) = approved ->
  access_code (fields d) = Some (cip_access_code payload) ->
  check_in db booking_id payload now
  = (set_booking db (update_one (booking db) oid (with_checked_in_at now)),
     inr "Check-in recorded").
Proof.
  intros Hid Hd Hst Hc. unfold check_in. rewrite Hid, Hd, Hst.
  apply opt_str_eqb_true in Hc. now rewrite Hc.
Qed.

(** C10.  A check-in on an approved booking with the stored access code
    succeeds and records [now], for every [now]: the time is not compared
    with the booking's date or times. *)
Theorem check_in_no_temporal_check (db : DB) (booking_id : string) (oid : N)
  (d : Document Booking) (code : string) (now : pydatetime) :
  ObjectId booking_id = Some oid ->
  find_one (booking db) oid = Some d ->
  status (fields d) = approved ->
  access_code (fields d) = Some code ->
  snd (check_in db booking_id {| cip_access_code := code |} now)
  = inr "Check-in recorded"
  /\ exists d', find_one (booking (fst (check_in db booking_id
                                          {| cip_access_code := code |} now))) oid
                = Some d'
                /\ checked_in_at (fields d') = Some now
                /\ status (fields d') = approved.
Proof.
  intros Hid Hd Hst Hc.
  rewrite (check_in_success db booking_id oid d {| cip_access_code := code |} now)
    by assumption.
  split; [reflexivity | ]. cbn [fst set_booking booking].
  eexists. split; [apply find_one_update_one; exact Hd | ].
  cbn. auto.
Qed.

Lemma check_in_no_temporal_check_witness :
  snd (check_in scenario_B_db (oid_str 1) {| cip_access_code := "0AFF3C" |}
         (clock_at "1999-12-31" "23:59"))
  = inr "Check-in recorded"
  /\ exists d', find_one (booking (fst (check_in scenario_B_db (oid_str 1)
                                          {| cip_access_code := "0AFF3C" |}
                                          (clock_at "1999-12-31" "23:59")))) 1
                = Some d'
                /\ checked_in_at (fields d') = Some (clock_at "1999-12-31" "23:59")
                /\ status (fields d') = approved.
Proof.
  apply (check_in_no_temporal_check scenario_B_db (oid_str 1) 1
           {| _id := 1;
              fields := with_access_code "0AFF3C"
                          (with_status approved
                             (pending_booking mr1 (mr1_request "09:00" "10:00"))) |});
    vm_compute; reflexivity.
Defined.

Lemma update_one_keeps_check_in (l : list (Document Booking)) (oid : N)
  (f : Booking -> Booking) (i : nat) (d : Document Booking) :
  (forall x, checked_in_at (f x) = checked_in_at x) ->
  nth_error l i = Some d ->
  exists d', nth_error (update_one l oid f) i = Some d'
             /\ checked_in_at (fields d') = checked_in_at (fields d).
Proof.
  intros Hf Hi.
  destruct (update_one_nth_error l oid f i d Hi) as (d' & Hd' & Hc).
  exists d'. split; [exact Hd' | ].
  destruct Hc as [-> | [_ ->]]; [reflexivity | apply Hf].
Qed.

Lemma sweep_loop_keeps_check_in (grace : Z) (today : pydate) (now : pydatetime)
  (rows : list (Document Booking)) (db : DB) (changed : Z) (i : nat)
  (d : Document Booking) :
  nth_error (booking db) i = Some d ->
  exists d', nth_error (booking (fst (sweep_loop grace today now rows db changed))) i
             = Some d'
             /\ checked_in_at (fields d') = checked_in_at (fields d).
Proof.
  revert db changed d. induction rows as [ | b rest IH]; intros db changed d Hi;
    cbn [sweep_loop].
  - exists d. auto.
  - destruct (sweep_row grace today now (fields b)) as [e | [ | ]].
    + exists d. auto.
    + destruct (update_one_keeps_check_in (booking db) (_id b) (with_status no_show)
                  i d (fun _ => eq_refl) Hi) as (d1 & H1 & E1).
      destruct (IH (set_booking db (update_one (booking db) (_id b)
                                      (with_status no_show)))
                  (changed + 1) d1 H1) as (d2 & H2 & E2).
      exists d2. split; [exact H2 | congruence].
    + now apply IH.
Qed.

(** C5, as the code has it.  A check-in with a wrong code on an approved
    booking fails with the 403 error and leaves the store as it was.  A
    check-in with the stored code on an approved booking records [now],
    whether or not a check-in was recorded before.  No other operation changes
    the [checked_in_at] of a stored booking. *)
Theorem checked_in_at_written_by_check_in :
  (forall (db : DB) (booking_id : string) (oid : N) (d : Document Booking)
          (payload : CheckInPayload) (now : pydatetime),
      ObjectId booking_id = Some oid ->
      find_one (booking db) oid = Some d ->
      status (fields d) = approved ->
      access_code (fields d) <> Some (cip_access_code payload) ->
      check_in db booking_id payload now = (db, inl E403))
  /\ (forall (db : DB) (booking_id : string) (oid : N) (d : Document Booking)
             (payload : CheckInPayload) (now : pydatetime),
         ObjectId booking_id = Some oid ->
         find_one (booking db) oid = Some d ->
         status (fields d) = approved ->
         access_code (fields d) = Some (cip_access_code payload) ->
         exists d', find_one (booking (fst (check_in db booking_id payload now))) oid
                    = Some d'
                    /\ checked_in_at (fields d') = Some now)
  /\ (forall (db : DB) (op : Op) (i : nat) (d : Document Booking),
         nth_error (booking db) i = Some d ->
         exists d', nth_error (booking (step db op)) i = Some d'
                    /\ (checked_in_at (fields d') = checked_in_at (fields d)
                        \/ exists booking_id payload now,
                             op = OpCheckIn booking_id payload now
                             /\ snd (check_in db booking_id payload now)
                                = inr "Check-in recorded"
                             /\ checked_in_at (fields d') = Some now)).
Proof.
  split; [ | split].
  - intros db booking_id oid d payload now Hid Hd Hst Hc.
    unfold check_in. rewrite Hid, Hd, Hst. cbn [Status_eqb negb].
    destruct (opt_str_eqb _ _) eqn:E; [ | reflexivity].
    apply opt_str_eqb_true in E. contradiction.
  - intros db booking_id oid d payload now Hid Hd Hst Hc.
    rewrite (check_in_success db booking_id oid d payload now) by assumption.
    cbn [fst set_booking booking]. eexists.
    split; [apply find_one_update_one; exact Hd | reflexivity].
  - intros db op i d Hi. destruct op as [payload | bid a rnd | bid payload now | g c1 c2];
      cbn [step].
    + unfold create_booking.
      destruct (find_facility _ _); [ | exists d; auto].
      destruct (str_ge _ _); [exists d; auto | ].
      destruct (check_existing _ _ _); [exists d; auto | ].
      cbn [create_document fst booking]. exists d. split; [ | auto].
      rewrite nth_error_app1; [exact Hi | ].
      apply nth_error_Some. congruence.
    + unfold admin_action.
      destruct (ObjectId bid) as [oid | ]; [ | exists d; auto].
      destruct (find_one _ _); [ | exists d; auto].
      destruct (action a); cbn [fst set_booking booking].
      * destruct (update_one_keeps_check_in (booking db) oid
                    (fun x => with_access_code (hex_upper rnd) (with_status approved x))
                    i d (fun _ => eq_refl) Hi) as (d' & H1 & E1).
        exists d'. auto.
      * destruct (update_one_keeps_check_in (booking db) oid (with_status rejected)
                    i d (fun _ => eq_refl) Hi) as (d' & H1 & E1).
        exists d'. auto.
    + unfold check_in.
      destruct (ObjectId bid) as [oid | ] eqn:E1; [ | exists d; auto].
      destruct (find_one _ _) as [b | ] eqn:E2; [ | exists d; auto].
      destruct (negb (Status_eqb _ _)) eqn:E3; [exists d; auto | ].
      destruct (negb (opt_str_eqb _ _)) eqn:E4; [exists d; auto | ].
      cbn [fst snd set_booking booking].
      destruct (update_one_nth_error (booking db) oid (with_checked_in_at now) i d Hi)
        as (d' & Hd' & Hc).
      exists d'. split; [exact Hd' | ].
      destruct Hc as [-> | [_ ->]]; [now left | ].
      right. exists bid, payload, now. rewrite E1, E2, E3, E4. auto.
    + destruct (sweep_loop_keeps_check_in g (dt_date c1) c2
                  (filter (fun x => sweep_selected (fields x)) (booking db))
                  db 0 i d Hi) as (d' & H1 & E1).
      exists d'. auto.
Qed.

Lemma checked_in_at_written_by_check_in_witness :
  check_in scenario_B_db (oid_str 1) {| cip_access_code := "000000" |}
           (clock_at "2024-06-01" "09:05")
  = (scenario_B_db, inl E403).
Proof.
  apply (proj1 checked_in_at_written_by_check_in scenario_B_db (oid_str 1) 1%N
           {| _id := 1;
              fields := with_access_code "0AFF3C"
                          (with_status approved
                             (pending_booking mr1 (mr1_request "09:00" "10:00"))) |}).
  - vm_compute. reflexivity.
  - vm_compute. reflexivity.
  - reflexivity.
  - cbn. discriminate.
Defined.

(** C5 as stated fails: a second check-in with the correct code succeeds and
    replaces the recorded time by the later one.  And on a booking that is
    not approved a wrong code is answered with the 400 error of the status
    test, not with the 403 error. *)
Lemma repeat_check_in_overwrites :
  let code := {| cip_access_code := "0AFF3C" |} in
  let t1 := clock_at "2024-06-01" "09:05" in
  let t2 := clock_at "2024-06-01" "09:45" in
  let db1 := fst (check_in scenario_B_db (oid_str 1) code t1) in
  check_ins db1 = [Some t1]
  /\ snd (check_in db1 (oid_str 1) code t2) = inr "Check-in recorded"
  /\ check_ins (fst (check_in db1 (oid_str 1) code t2)) = [Some t2]
  /\ t1 < t2
  /\ check_in scenario_A_db (oid_str 1) {| cip_access_code := "000000" |} t1
     = (scenario_A_db, inl (HTTPException 400 "Booking not approved")).
Proof.
  vm_compute. repeat split; reflexivity.
Qed.

(** ** Access codes *)

Lemma fresh_id_fresh {A : Type} (l : list (Document A)) :
  ~ In (fresh_id l) (map _id l).
Proof.
  assert (Hle : forall (ids : list N) x, In x ids -> (x <= fold_right N.max 0 ids)%N).
  { induction ids as [ | y ys IH]; intros x []; cbn [fold_right].
    - subst. apply N.le_max_l.
    - etransitivity; [now apply IH | apply N.le_max_r]. }
  unfold fresh_id. intro H. apply Hle in H. lia.
Qed.

Lemma update_one_ids {A : Type} (l : list (Document A)) (oid : N) (f : A -> A) :
  map _id (update_one l oid f) = map _id l.
Proof.
  induction l as [ | x l IH]; cbn [update_one]; [reflexivity | ].
  destruct (N.eqb (_id x) oid); cbn [map _id]; [reflexivity | now rewrite IH].
Qed.

Lemma update_one_In {A : Type} (l : list (Document A)) (oid : N) (f : A -> A)
  (d' : Document A) :
  NoDup (map _id l) ->
  In d' (update_one l oid f) ->
  (In d' l /\ _id d' <> oid)
  \/ (exists d, In d l /\ _id d = oid
                /\ d' = {| _id := _id d; fields := f (fields d) |}).
Proof.
  induction l as [ | x l IH]; cbn [update_one]; intros Hnd Hin; [destruct Hin | ].
  cbn [map] in Hnd. apply NoDup_cons_iff in Hnd as [Hx Hnd].
  destruct (N.eqb_spec (_id x) oid) as [E | E].
  - destruct Hin as [<- | Hin].
    + right. exists x. split; [now left | auto].
    + left. split; [now right | ].
      intro E'. apply Hx. rewrite E, <- E'. now apply in_map.
  - destruct Hin as [<- | Hin].
    + left. split; [now left | exact E].
    + destruct (IH Hnd Hin) as [[H1 H2] | (d & H1 & H2 & H3)].
      * left. split; [now right | exact H2].
      * right. exists d. split; [now right | auto].
Qed.

Lemma sweep_pass_In (grace : Z) (today : pydate) (now : pydatetime)
  (l : list (Document Booking)) (changed : Z) (d' : Document Booking) :
  In d' (fst (sweep_pass grace today now l changed)) ->
  In d' l
  \/ exists d, In d l /\ sweep_selected (fields d) = true /\ d' = mark_no_show d.
Proof.
  revert changed. induction l as [ | x rest IH]; intros changed; cbn [sweep_pass];
    [intros [] | ].
  assert (Hrec : forall c,
             In d' (x :: fst (sweep_pass grace today now rest c)) ->
             In d' (x :: rest)
             \/ exists d, In d (x :: rest) /\ sweep_selected (fields d) = true
                          /\ d' = mark_no_show d).
  { intros c [<- | Hin]; [left; now left | ].
    destruct (IH c Hin) as [H | (d & H1 & H2 & H3)].
    - left. now right.
    - right. exists d. split; [now right | auto]. }
  destruct (sweep_selected (fields x)) eqn:Hsel.
  - destruct (sweep_row grace today now (fields x)) as [e | [ | ]].
    + cbn [fst]. auto.
    + destruct (sweep_pass grace today now rest (changed + 1)) as [rest' r] eqn:E.
      cbn [fst]. intros [<- | Hin].
      * right. exists x. split; [now left | auto].
      * specialize (IH (changed + 1)). rewrite E in IH. cbn [fst] in IH.
        destruct (IH Hin) as [H | (d & H1 & H2 & H3)].
        -- left. now right.
        -- right. exists d. split; [now right | auto].
    + specialize (Hrec changed).
      destruct (sweep_pass grace today now rest changed) as [rest' r].
      exact Hrec.
  - specialize (Hrec changed).
    destruct (sweep_pass grace today now rest changed) as [rest' r].
    exact Hrec.
Qed.

Lemma access_inv_ext (db : DB) (G G' : N -> bool) :
  (forall o, G o = G' o) -> access_inv db G -> access_inv db G'.
Proof.
  intros E (H1 & H2 & H3). split; [exact H1 | split].
  - intros oid. rewrite <- E. apply H2.
  - intros d Hin. rewrite <- E. now apply H3.
Qed.

Lemma access_inv_update (db : DB) (G G' : N -> bool) (oid : N)
  (f : Booking -> Booking) :
  access_inv db G ->
  (forall o, o <> oid -> G' o = G o) ->
  (G' oid = true -> In oid (map _id (booking db))) ->
  (forall d, In d (booking db) -> _id d = oid -> coded d (G oid) ->
             coded {| _id := _id d; fields := f (fields d) |} (G' oid)) ->
  access_inv (set_booking db (update_one (booking db) oid f)) G'.
Proof.
  intros (Hnd & Hids & Hc) Hother Hoid Hnew. unfold access_inv.
  cbn [set_booking booking]. rewrite update_one_ids.
  split; [exact Hnd | split].
  - intros o Ho. destruct (N.eq_dec o oid) as [-> | Hne]; [now apply Hoid | ].
    apply Hids. now rewrite <- Hother.
  - intros d' Hin.
    destruct (update_one_In _ _ _ _ Hnd Hin) as [[H1 H2] | (d & H1 & H2 & ->)].
    + rewrite Hother by exact H2. now apply Hc.
    + cbn [_id]. rewrite H2. apply Hnew; auto. rewrite <- H2. now apply Hc.
Qed.

Lemma access_inv_same (db : DB) (G G' : N -> bool) :
  (forall o, G' o = G o) -> access_inv db G -> access_inv db G'.
Proof. intros E. apply access_inv_ext. intro o. now rewrite E. Qed.

Lemma access_inv_step (db : DB) (G : N -> bool) (op : Op) :
  access_inv db G ->
  access_inv (step db op) (fun o => G o || approves db op o).
Proof.
  intro HJ. destruct op as [payload | bid a rnd | bid payload now | g c1 c2];
    cbn [step approves].
  - (* create *)
    assert (Hsame : access_inv db (fun o => G o || false))
      by (apply (access_inv_same db G); [intro; apply orb_false_r | exact HJ]).
    unfold create_booking.
    destruct (find_facility _ _) as [fac | ]; [ | exact Hsame].
    destruct (str_ge _ _); [exact Hsame | ].
    destruct (check_existing _ _ _); [exact Hsame | ].
    cbn [create_document fst]. destruct HJ as (Hnd & Hids & Hc).
    pose proof (fresh_id_fresh (booking db)) as Hfresh.
    unfold access_inv. cbn [booking]. rewrite map_app. cbn [map _id].
    split; [ | split].
    + apply NoDup_app; [exact Hnd | repeat constructor; intros [] | ].
      intros x Hx [<- | []]. contradiction.
    + intros o Ho. rewrite orb_false_r in Ho. apply in_or_app. left. now apply Hids.
    + intros d Hin. rewrite orb_false_r. apply in_app_or in Hin as [Hin | [<- | []]].
      * now apply Hc.
      * cbn [_id]. destruct (G (fresh_id (booking db))) eqn:EG.
        -- exfalso. apply Hfresh. now apply Hids.
        -- unfold coded. cbn. repeat split; try congruence.
           intros [H | H]; discriminate H.
  - (* admin *)
    unfold admin_action.
    destruct (ObjectId bid) as [oid | ] eqn:Eid.
    2:{ apply (access_inv_same db G); [ | exact HJ].
        intro o. destruct (action a); apply orb_false_r. }
    destruct (find_one (booking db) oid) as [b | ] eqn:Eb.
    2:{ apply (access_inv_same db G); [ | exact HJ].
        intro o. destruct (action a); [ | apply orb_false_r].
        now rewrite andb_false_r, orb_false_r. }
    apply find_one_Some in Eb as [Hb Hbid].
    destruct (action a); cbn [fst].
    + apply (access_inv_update db G); [exact HJ | | | ].
      * intros o Ho. replace (N.eqb oid o) with false; [apply orb_false_r | ].
        symmetry. apply N.eqb_neq. congruence.
      * intros _. rewrite <- Hbid. now apply in_map.
      * intros d _ _ _. rewrite N.eqb_refl, orb_true_r.
        unfold coded. cbn. repeat split; congruence.
    + apply (access_inv_update db G); [exact HJ | | | ].
      * intros o _. apply orb_false_r.
      * rewrite orb_false_r. apply HJ.
      * intros d _ _ (C1 & C2 & C3). rewrite orb_false_r.
        unfold coded. cbn. split; [exact C1 | ].
        split; [intros [H | H]; discriminate H | discriminate].
  - (* check-in *)
    assert (Hsame : access_inv db (fun o => G o || false))
      by (apply (access_inv_same db G); [intro; apply orb_false_r | exact HJ]).
    unfold check_in.
    destruct (ObjectId bid) as [oid | ]; [ | exact Hsame].
    destruct (find_one (booking db) oid) as [b | ]; [ | exact Hsame].
    destruct (negb _); [exact Hsame | ]. destruct (negb _); [exact Hsame | ].
    cbn [fst]. apply (access_inv_update db G); [exact HJ | | | ].
    + intros o _. apply orb_false_r.
    + rewrite orb_false_r. apply HJ.
    + intros d _ _ C. rewrite orb_false_r. exact C.
  - (* sweep *)
    destruct HJ as (Hnd & Hids & Hc).
    rewrite sweep_noshows_pass by exact Hnd. cbn [fst].
    unfold access_inv. cbn [set_booking booking]. rewrite sweep_pass_ids.
    split; [exact Hnd | split].
    + intros o Ho. rewrite orb_false_r in Ho. now apply Hids.
    + intros d' Hin. rewrite orb_false_r.
      apply sweep_pass_In in Hin as [Hin | (d & Hin & Hsel & ->)]; [now apply Hc | ].
      destruct (Hc d Hin) as (C1 & C2 & C3). cbn [mark_no_show _id].
      unfold sweep_selected in Hsel. apply andb_true_iff in Hsel as [Hst _].
      assert (Ha : status (fields d) = approved)
        by (destruct (status (fields d)); try discriminate Hst; reflexivity).
      unfold coded. cbn. split; [exact C1 | ].
      split; [intros _; apply C2; now left | discriminate].
Qed.

Lemma access_inv_run (ops : list Op) (db : DB) (G : N -> bool) :
  access_inv db G ->
  access_inv (run db ops) (fun o => G o || approved_ever db ops o).
Proof.
  revert db G. induction ops as [ | op rest IH]; intros db G HJ;
    cbn [run fold_left approved_ever].
  - apply (access_inv_same db G); [intro; apply orb_false_r | exact HJ].
  - apply (access_inv_ext _ _ _ (fun o => eq_sym (orb_assoc _ _ _))).
    apply (IH (step db op) (fun o => G o || approves db op o)).
    now apply access_inv_step.
Qed.

(** C6, as the code has it.  After every sequence of operations on a store
    that began without bookings, a stored booking has an access code exactly
    when some operation of the sequence approved it; so an approved or no-show
    booking has one, a pending booking has none, and a rejected booking has
    none unless it was approved before.  Approving a stored booking gives it
    the status approved and a code. *)
Theorem access_code_iff_approved :
  (forall (ops : list Op) (db : DB) (d : Document Booking),
      booking db = [] ->
      In d (booking (run db ops)) ->
      (access_code (fields d) <> None <-> approved_ever db ops (_id d) = true)
      /\ (status (fields d) = approved \/ status (fields d) = no_show ->
          access_code (fields d) <> None)
      /\ (status (fields d) = pending -> access_code (fields d) = None)
      /\ (status (fields d) = rejected -> approved_ever db ops (_id d) = false ->
          access_code (fields d) = None))
  /\ (forall (db : DB) (booking_id : string) (oid : N) (d : Document Booking)
             (rnd : Byte.byte * Byte.byte * Byte.byte),
         ObjectId booking_id = Some oid ->
         find_one (booking db) oid = Some d ->
         exists d', find_one (booking (fst (admin_action db booking_id approve_ rnd))) oid
                    = Some d'
                    /\ status (fields d') = approved
                    /\ access_code (fields d') = Some (hex_upper rnd)).
Proof.
  split.
  - intros ops db d Hempty Hin.
    assert (H0 : access_inv db (fun _ => false)).
    { unfold access_inv. rewrite Hempty. cbn.
      split; [constructor | split; [discriminate | intros ? []]]. }
    destruct (access_inv_run ops db _ H0) as (_ & _ & Hc).
    destruct (Hc d Hin) as (C1 & C2 & C3). cbn [orb] in *.
    split; [exact C1 | split; [ | split]].
    + intro Hs. apply C1. now apply C2.
    + intro Hs. specialize (C3 Hs).
      destruct (access_code (fields d)) eqn:E; [ | reflexivity].
      assert (approved_ever db ops (_id d) = true) by (apply C1; discriminate).
      congruence.
    + intros _ Hne. destruct (access_code (fields d)) eqn:E; [ | reflexivity].
      assert (approved_ever db ops (_id d) = true) by (apply C1; discriminate).
      congruence.
  - intros db booking_id oid d rnd Hid Hd. unfold admin_action.
    rewrite Hid, Hd. cbn [approve_ action fst set_booking booking].
    eexists. split; [apply find_one_update_one; exact Hd | ]. cbn. auto.
Qed.

Lemma access_code_iff_approved_witness :
  (access_code (fields rejected_with_code) <> None
   <-> approved_ever seeded_db approve_then_reject_ops (_id rejected_with_code) = true)
  /\ (status (fields rejected_with_code) = approved
      \/ status (fields rejected_with_code) = no_show ->
      access_code (fields rejected_with_code) <> None)
  /\ (status (fields rejected_with_code) = pending ->
      access_code (fields rejected_with_code) = None)
  /\ (status (fields rejected_with_code) = rejected ->
      approved_ever seeded_db approve_then_reject_ops (_id rejected_with_code) = false ->
      access_code (fields rejected_with_code) = None).
Proof.
  apply (proj1 access_code_iff_approved approve_then_reject_ops seeded_db
           rejected_with_code).
  - reflexivity.
  - vm_compute. left. reflexivity.
Defined.

(** C6 as stated fails: a booking approved and then rejected has the status
    rejected and still carries its access code. *)
Lemma rejected_keeps_access_code :
  booking (run seeded_db approve_then_reject_ops) = [rejected_with_code]
  /\ status (fields rejected_with_code) = rejected
  /\ access_code (fields rejected_with_code) = Some "0AFF3C"
  /\ ~ I3 (booking (run seeded_db approve_then_reject_ops)).
Proof.
  assert (E : booking (run seeded_db approve_then_reject_ops) = [rejected_with_code])
    by (vm_compute; reflexivity).
  split; [exact E | split; [reflexivity | split; [reflexivity | ]]].
  rewrite E. intro H.
  destruct (proj1 (H rejected_with_code (or_introl eq_refl))) as [H1 | H1];
    [cbn; discriminate | discriminate H1 | discriminate H1].
Qed.

(** ** Unreadable times *)

Lemma to_local_dt_readable (date_str time_str : string) (t : pydatetime) :
  to_local_dt date_str time_str = inr t -> readable_time time_str.
Proof.
  unfold to_local_dt, readable_time.
  destruct (mapM int (split "-" date_str)) as [e | ymd]; cbn [bind]; [discriminate | ].
  destruct ymd as [ | y [ | m [ | d [ | ? ?]]]]; try discriminate.
  destruct (mapM int (split ":" time_str)) as [e | hm]; cbn [bind]; [discriminate | ].
  destruct hm as [ | hh [ | mm [ | ? ?]]]; try discriminate.
  unfold datetime_new. destruct (negb _); [discriminate | ].
  destruct (valid_ymd y m d && (0 <=? hh) && (hh <=? 23) && (0 <=? mm) && (mm <=? 59))
    eqn:E; [ | discriminate].
  intros _. exists hh, mm. split; [reflexivity | ].
  repeat (apply andb_true_iff in E as [E ?]).
  repeat match goal with H : (_ <=? _) = true |- _ => apply Z.leb_le in H end.
  lia.
Qed.

Lemma minutes_exn (t : string) (e : exn) : minutes t = inl e -> e = ValueError.
Proof.
  unfold minutes.
  destruct (mapM int (split ":" t)) as [e' | hm] eqn:E; cbn [bind].
  - intro H. injection H as <-. eapply mapM_int_exn; eassumption.
  - destruct hm as [ | h [ | m [ | ? ?]]]; congruence.
Qed.

Lemma sweep_row_exn (grace : Z) (today : pydate) (now : pydatetime) (b : Booking)
  (e : exn) :
  sweep_row grace today now b = inl e -> unhandled e = true.
Proof.
  unfold sweep_row.
  destruct (strptime_date (date b)) as [e1 | b_date] eqn:E1; cbn [bind].
  { intro H. injection H as <-. revert E1. unfold strptime_date, date_new.
    repeat match goal with
           | |- context [match ?x with _ => _ end] => destruct x
           end; intro H; try discriminate H; injection H as <-; reflexivity. }
  destruct (to_local_dt (date b) (start_time b)) as [e2 | st] eqn:E2; cbn [bind].
  { intro H. injection H as <-. eapply to_local_dt_exn; eassumption. }
  destruct (b_date <=? today); [ | discriminate].
  unfold dt_add_minutes. destruct (_ && _); cbn [bind]; [discriminate | ].
  intro H. injection H as <-. reflexivity.
Qed.

Lemma sweep_loop_exn (grace : Z) (today : pydate) (now : pydatetime)
  (rows : list (Document Booking)) (db : DB) (changed : Z) (e : exn) :
  snd (sweep_loop grace today now rows db changed) = inl e -> unhandled e = true.
Proof.
  revert db changed. induction rows as [ | b rest IH]; intros db changed;
    cbn [sweep_loop]; [discriminate | ].
  destruct (sweep_row grace today now (fields b)) as [x | [ | ]] eqn:E.
  - cbn [snd]. intro H. injection H as <-. eapply sweep_row_exn; eassumption.
  - apply IH.
  - apply IH.
Qed.

Lemma cover_exn (bookings : list (Document Booking)) (covered : list Z) (e : exn) :
  cover covered bookings = inl e -> e = ValueError.
Proof.
  revert covered. induction bookings as [ | b rest IH]; intro covered;
    cbn [cover]; [discriminate | ].
  rewrite minutes_open, minutes_close.
  destruct (minutes (start_time (fields b))) as [e1 | ms] eqn:E1; cbn [bind].
  { intro H. injection H as <-. eapply minutes_exn; eassumption. }
  destruct (minutes (end_time (fields b))) as [e2 | me] eqn:E2; cbn [bind].
  { intro H. injection H as <-. eapply minutes_exn; eassumption. }
  apply IH.
Qed.

(** C8, as the code has it.  A time text that is not two integer literals
    around a colon, hour in [[0,23]] and minute in [[0,59]], makes
    [to_local_dt], and so [overlaps], raise an exception no handler catches,
    never one of the HTTP errors.  [create_booking] leaves the store as it was
    whenever it raises; when the facility has no active booking on the date it
    reads no time and stores the request, whatever its time texts are, as long
    as the start text sorts before the end text.  [availability] raises
    nothing but the 404 error and [ValueError], and [sweep_noshows] nothing
    but uncaught exceptions. *)
Theorem unreadable_time_is_unhandled :
  (forall (date_str t : string),
      ~ readable_time t ->
      exists e, to_local_dt date_str t = inl e /\ unhandled e = true)
  /\ (forall (s1 e1 s2 e2 : string),
         ~ readable_time s1 \/ ~ readable_time e1
         \/ ~ readable_time s2 \/ ~ readable_time e2 ->
         exists e, overlaps s1 e1 s2 e2 = inl e /\ unhandled e = true)
  /\ (forall (db : DB) (payload : CreateBooking.t) (e : exn),
         snd (create_booking db payload) = inl e ->
         fst (create_booking db payload) = db)
  /\ (forall (db : DB) (payload : CreateBooking.t) (fac : Document Facility),
         find_facility db (CreateBooking.facility_code payload) = Some fac ->
         str_lt (CreateBooking.start_time payload) (CreateBooking.end_time payload)
         = true ->
         find_active db (CreateBooking.facility_code payload)
                     (CreateBooking.date payload) = [] ->
         exists c, snd (create_booking db payload) = inr c)
  /\ (forall (db : DB) (fc date_str : string) (e : exn),
         availability db fc date_str = inl e ->
         e = HTTPException 404 "Facility not found" \/ e = ValueError)
  /\ (forall (grace : Z) (db : DB) (clock1 clock2 : pydatetime) (e : exn),
         snd (sweep_noshows grace db clock1 clock2) = inl e -> unhandled e = true).
Proof.
  assert (H1 : forall date_str t, ~ readable_time t ->
                 exists e, to_local_dt date_str t = inl e /\ unhandled e = true).
  { intros date_str t Hn. destruct (to_local_dt date_str t) as [e | x] eqn:E.
    - exists e. split; [reflexivity | eapply to_local_dt_exn; eassumption].
    - exfalso. apply Hn. eapply to_local_dt_readable; eassumption. }
  split; [exact H1 | split; [ | split; [ | split; [ | split]]]].
  - intros s1 e1 s2 e2 Hn.
    destruct (overlaps s1 e1 s2 e2) as [e | v] eqn:E.
    + exists e. split; [reflexivity | eapply overlaps_exn; eassumption].
    + exfalso. unfold overlaps in E.
      destruct (to_local_dt "2000-01-01" s1) eqn:E1; cbn [bind] in E;
        [discriminate | ].
      destruct (to_local_dt "2000-01-01" e1) eqn:E2; cbn [bind] in E;
        [discriminate | ].
      destruct (to_local_dt "2000-01-01" s2) eqn:E3; cbn [bind] in E;
        [discriminate | ].
      destruct (to_local_dt "2000-01-01" e2) eqn:E4; cbn [bind] in E;
        [discriminate | ].
      apply to_local_dt_readable in E1, E2, E3, E4. tauto.
  - apply create_booking_failure.
  - intros db payload fac Hfac Hlt Hnone. unfold create_booking, str_ge.
    rewrite Hfac, Hlt, Hnone. cbn. eexists. reflexivity.
  - intros db fc date_str e. unfold availability.
    destruct (find_facility db fc); [ | intro H; injection H as <-; now left].
    rewrite minutes_open, minutes_close. cbn [bind].
    destruct (cover _ _) as [e' | covered] eqn:E; cbn [bind]; [ | discriminate].
    intro H. injection H as <-. right. eapply cover_exn; eassumption.
  - intros grace db clock1 clock2 e. apply sweep_loop_exn.
Qed.

Lemma unreadable_time_is_unhandled_witness :
  exists e, to_local_dt "2000-01-01" "ab" = inl e /\ unhandled e = true.
Proof.
  apply (proj1 unreadable_time_is_unhandled "2000-01-01" "ab").
  intros (hh & mm & H & _). vm_compute in H. discriminate H.
Defined.

(** C8 as stated fails.  A time that is no [HH:MM] text is not answered with
    a validation error: [overlaps] raises [ValueError], which
    [create_booking] passes on uncaught; with no active booking on that
    facility and date the request is stored without its times being read;
    the sweep meets the stored text after it has marked the row before it;
    and [to_local_dt] reads [9:5] as 09:05. *)
Lemma unreadable_time_not_validated :
  valid_hhmm "ab" = false
  /\ overlaps "ab" "cd" "09:00" "10:00" = inl ValueError
  /\ create_booking scenario_A_db (mr1_request "ab" "cd")
     = (scenario_A_db, inl ValueError)
  /\ (exists c, snd (create_booking seeded_db (mr1_request "ab" "cd")) = inr c)
  /\ map (fun d => start_time (fields d))
         (booking (fst (create_booking seeded_db (mr1_request "ab" "cd")))) = ["ab"]
  /\ (let now := clock_at "2024-06-01" "12:00" in
      map (fun d => status (fields d)) (booking unreadable_db) = [approved; approved]
      /\ map (fun d => status (fields d))
             (booking (fst (sweep_noshows NO_SHOW_GRACE_MIN unreadable_db now now)))
         = [no_show; approved]
      /\ snd (sweep_noshows NO_SHOW_GRACE_MIN unreadable_db now now) = inl ValueError)
  /\ valid_hhmm "9:5" = false
  /\ to_local_dt "2000-01-01" "9:5" = to_local_dt "2000-01-01" "09:05".
Proof.
  split; [reflexivity | ].
  split; [vm_compute; reflexivity | ].
  split; [vm_compute; reflexivity | ].
  split; [eexists; vm_compute; reflexivity | ].
  split; [vm_compute; reflexivity | ].
  split; [repeat split; vm_compute; reflexivity | ].
  split; [reflexivity | vm_compute; reflexivity].
Qed.

(** * Further properties of the code *)

(** ** Overlap and the conflict guard *)

(** X1.  Two intervals with valid times, each starting before it ends,
    overlap under [overlaps] exactly when some minute of the day lies in
    both. *)
Theorem overlaps_shared_minute (s1 e1 s2 e2 : string) :
  valid_hhmm s1 = true -> valid_hhmm e1 = true ->
  valid_hhmm s2 = true -> valid_hhmm e2 = true ->
  minute_of_day s1 < minute_of_day e1 ->
  minute_of_day s2 < minute_of_day e2 ->
  (overlaps s1 e1 s2 e2 = inr true
   <-> exists m, minute_of_day s1 <= m < minute_of_day e1
                 /\ minute_of_day s2 <= m < minute_of_day e2).
Proof.
  intros V1 V2 V3 V4 H1 H2. rewrite overlaps_hhmm by assumption. split.
  - intro H. injection H as H. apply andb_true_iff in H as [Ha Hb].
    apply Z.ltb_lt in Ha, Hb.
    exists (Z.max (minute_of_day s1) (minute_of_day s2)). lia.
  - intros (m & Ha & Hb). f_equal. apply andb_true_iff.
    split; apply Z.ltb_lt; lia.
Qed.

Lemma overlaps_shared_minute_witness :
  overlaps "09:00" "10:00" "09:30" "10:30" = inr true
  <-> exists m, minute_of_day "09:00" <= m < minute_of_day "10:00"
                /\ minute_of_day "09:30" <= m < minute_of_day "10:30".
Proof.
  apply (overlaps_shared_minute "09:00" "10:00" "09:30" "10:30"); reflexivity.
Defined.

Lemma check_existing_app (s e : string) (l l' : list (Document Booking)) :
  check_existing s e l = inr tt ->
  check_existing s e (l ++ l') = check_existing s e l'.
Proof.
  induction l as [ | b rest IH]; cbn [check_existing app]; [reflexivity | ].
  destruct (overlaps s e (start_time (fields b)) (end_time (fields b)))
    as [x | [ | ]]; cbn [bind]; try discriminate. exact IH.
Qed.

Lemma create_booking_success (db : DB) (payload : CreateBooking.t) (c : Created) :
  snd (create_booking db payload) = inr c ->
  exists fac,
    find_facility db (CreateBooking.facility_code payload) = Some fac
    /\ str_lt (CreateBooking.start_time payload) (CreateBooking.end_time payload) = true
    /\ check_existing (CreateBooking.start_time payload) (CreateBooking.end_time payload)
         (find_active db (CreateBooking.facility_code payload)
                      (CreateBooking.date payload)) = inr tt
    /\ fst (create_booking db payload)
       = {| facility := facility db;
            booking := booking db
                       ++ [{| _id := fresh_id (booking db);
                              fields := pending_booking fac payload |}] |}
    /\ c = {| message := "Booking created and pending approval";
              booking_id := oid_str (fresh_id (booking db)) |}.
Proof.
  unfold create_booking, str_ge.
  destruct (find_facility db (CreateBooking.facility_code payload)) as [fac | ];
    [ | discriminate].
  destruct (str_lt _ _); cbn [negb]; [ | discriminate].
  destruct (check_existing _ _ _) as [x | []]; [discriminate | ].
  cbn. intro H. injection H as <-. exists fac. auto.
Qed.

(** X2.  A request with valid times that has been admitted cannot be
    admitted a second time: the same request, made again, is refused with the
    409 error and the store stays as the first call left it. *)
Theorem create_booking_twice (db : DB) (payload : CreateBooking.t) (c : Created) :
  valid_hhmm (CreateBooking.start_time payload) = true ->
  valid_hhmm (CreateBooking.end_time payload) = true ->
  snd (create_booking db payload) = inr c ->
  create_booking (fst (create_booking db payload)) payload
  = (fst (create_booking db payload), inl E409).
Proof.
  intros Vs Ve Hc.
  destruct (create_booking_success db payload c Hc)
    as (fac & Hfac & Hlt & Hex & -> & _).
  unfold create_booking at 1, str_ge.
  unfold find_facility, find_active in *. cbn [facility booking].
  rewrite Hfac, Hlt. cbn [negb]. rewrite filter_app. cbn [filter fields pending_booking
    facility_code date active status].
  rewrite !String.eqb_refl. cbn [andb].
  rewrite (check_existing_app _ _ _ _ Hex). cbn [check_existing fields start_time
    end_time pending_booking].
  rewrite overlaps_hhmm by assumption.
  rewrite str_lt_hhmm in Hlt by assumption. rewrite Hlt. reflexivity.
Qed.

Lemma create_booking_twice_witness :
  create_booking (fst (create_booking seeded_db (mr1_request "09:00" "10:00")))
                 (mr1_request "09:00" "10:00")
  = (fst (create_booking seeded_db (mr1_request "09:00" "10:00")), inl E409).
Proof.
  apply (create_booking_twice seeded_db (mr1_request "09:00" "10:00")
           {| message := "Booking created and pending approval";
              booking_id := oid_str 1 |}); vm_compute; reflexivity.
Defined.

(** X3.  Every way [create_booking] fails: the 404 error when the facility
    is unknown, whatever the times are; else the 400 error when the start text
    does not sort before the end text; else the 409 error with an active
    overlapping booking of that facility and date in the store, or the
    uncaught exception [overlaps] raised on one of them.  In each case the
    store is left as it was. *)
Theorem create_booking_errors (db : DB) (payload : CreateBooking.t) (e : exn) :
  snd (create_booking db payload) = inl e ->
  fst (create_booking db payload) = db
  /\ ((e = HTTPException 404 "Facility not found"
       /\ find_facility db (CreateBooking.facility_code payload) = None)
      \/ (e = E400
          /\ find_facility db (CreateBooking.facility_code payload) <> None
          /\ str_ge (CreateBooking.start_time payload) (CreateBooking.end_time payload)
             = true)
      \/ (e = E409
          /\ exists b, In b (booking db) /\ conflicts_with payload (fields b))
      \/ (unhandled e = true
          /\ exists b, In b (booking db) /\ active (fields b) = true
                       /\ facility_code (fields b) = CreateBooking.facility_code payload
                       /\ date (fields b) = CreateBooking.date payload
                       /\ overlaps (CreateBooking.start_time payload)
                                   (CreateBooking.end_time payload)
                                   (start_time (fields b)) (end_time (fields b))
                          = inl e)).
Proof.
  intro H. split; [eapply create_booking_failure; eassumption | ].
  revert H. unfold create_booking.
  destruct (find_facility db (CreateBooking.facility_code payload)) as [fac | ] eqn:Hfac.
  2:{ cbn. intro H. injection H as <-. left. auto. }
  destruct (str_ge _ _) eqn:Hge.
  { cbn. intro H. injection H as <-. right. left. repeat split; congruence. }
  pose proof (check_existing_cases (CreateBooking.start_time payload)
                (CreateBooking.end_time payload)
                (find_active db (CreateBooking.facility_code payload)
                   (CreateBooking.date payload))) as Hc.
  destruct (check_existing _ _ _) as [x | u]; [ | cbn; discriminate].
  cbn. intro H. injection H as <-.
  destruct Hc as [(-> & b & Hin & Hov) | (Hx & b & Hin & Hov)];
    apply find_active_In in Hin as (Hin & Hfc & Hd & Ha).
  - right. right. left. split; [reflexivity | ]. exists b. repeat split; assumption.
  - right. right. right. split; [exact Hx | ]. exists b. auto 6.
Qed.

Lemma create_booking_errors_witness :
  fst (create_booking seeded_db (request_for "XX-9" "ab" "cd")) = seeded_db
  /\ ((HTTPException 404 "Facility not found" = HTTPException 404 "Facility not found"
       /\ find_facility seeded_db
            (CreateBooking.facility_code (request_for "XX-9" "ab" "cd")) = None)
      \/ (HTTPException 404 "Facility not found" = E400
          /\ find_facility seeded_db
               (CreateBooking.facility_code (request_for "XX-9" "ab" "cd")) <> None
          /\ str_ge (CreateBooking.start_time (request_for "XX-9" "ab" "cd"))
                    (CreateBooking.end_time (request_for "XX-9" "ab" "cd")) = true)
      \/ (HTTPException 404 "Facility not found" = E409
          /\ exists b, In b (booking seeded_db)
                       /\ conflicts_with (request_for "XX-9" "ab" "cd") (fields b))
      \/ (unhandled (HTTPException 404 "Facility not found") = true
          /\ exists b, In b (booking seeded_db) /\ active (fields b) = true
                       /\ facility_code (fields b)
                          = CreateBooking.facility_code (request_for "XX-9" "ab" "cd")
                       /\ date (fields b)
                          = CreateBooking.date (request_for "XX-9" "ab" "cd")
                       /\ overlaps (CreateBooking.start_time (request_for "XX-9" "ab" "cd"))
                                   (CreateBooking.end_time (request_for "XX-9" "ab" "cd"))
                                   (start_time (fields b)) (end_time (fields b))
                          = inl (HTTPException 404 "Facility not found"))).
Proof.
  apply (create_booking_errors seeded_db (request_for "XX-9" "ab" "cd")).
  vm_compute. reflexivity.
Defined.

(** ** Identifiers as text *)

Lemma string_length_append (s t : string) :
  String.length (s ++ t) = (String.length s + String.length t)%nat.
Proof.
  induction s as [ | c s IH]; cbn [String.append String.length Nat.add];
    [reflexivity | now rewrite IH].
Qed.

Lemma hex_fixed_length (upper : bool) (width : nat) (n : N) :
  String.length (hex_fixed upper width n) = width.
Proof.
  revert n. induction width as [ | w IH]; intro n; cbn [hex_fixed]; [reflexivity | ].
  rewrite string_length_append, IH. cbn. lia.
Qed.

Lemma string_append_assoc (s t u : string) :
  ((s ++ t) ++ u)%string = (s ++ (t ++ u))%string.
Proof.
  induction s as [ | c s IH]; cbn [String.append]; [reflexivity | now rewrite IH].
Qed.

Lemma hex_val_digit (upper : bool) (k : N) :
  (k < 16)%N -> hex_val (hex_digit upper k) = Some k.
Proof.
  intro H.
  assert (Hk : In k [0; 1; 2; 3; 4; 5; 6; 7; 8; 9; 10; 11; 12; 13; 14; 15]%N).
  { cbn. lia. }
  cbn in Hk. destruct upper;
    repeat (destruct Hk as [<- | Hk]; [reflexivity | ]); contradiction.
Qed.

Lemma hex_digit_not_blank (upper : bool) (k : N) :
  (k < 16)%N -> is_ascii_blank (hex_digit upper k) = false.
Proof.
  intro H.
  assert (Hk : In k [0; 1; 2; 3; 4; 5; 6; 7; 8; 9; 10; 11; 12; 13; 14; 15]%N).
  { cbn. lia. }
  cbn in Hk. destruct upper;
    repeat (destruct Hk as [<- | Hk]; [reflexivity | ]); contradiction.
Qed.

(** [fromhex] over the text of a number written in [j] pairs of digits. *)
Lemma fromhex_fixed (upper : bool) (j : nat) (n : N) (t : string) (count acc : N) :
  fromhex (hex_fixed upper (2 * j) n ++ t) count acc
  = fromhex t (count + N.of_nat j)%N
      (acc * 256 ^ N.of_nat j + n mod 256 ^ N.of_nat j)%N.
Proof.
  revert n t count acc. induction j as [ | j IH]; intros n t count acc.
  - cbn [Nat.mul hex_fixed String.append]. change (256 ^ N.of_nat 0)%N with 1%N.
    rewrite N.mod_1_r. f_equal; lia.
  - replace (2 * S j)%nat with (S (S (2 * j))) by lia.
    cbn [hex_fixed]. rewrite !string_append_assoc. cbn [String.append].
    rewrite IH. cbn [fromhex].
    rewrite hex_digit_not_blank by (apply N.mod_lt; discriminate).
    rewrite !hex_val_digit by (apply N.mod_lt; discriminate).
    rewrite Nnat.Nat2N.inj_succ, N.pow_succ_r'.
    rewrite (N.Div0.mod_mul_r n 256 (256 ^ N.of_nat j)).
    assert (E1 : (n mod 256 = n mod 16 + 16 * ((n / 16) mod 16))%N)
      by (change 256%N with (16 * 16)%N; apply N.Div0.mod_mul_r).
    assert (E2 : (n / 16 / 16 = n / 256)%N)
      by (rewrite N.Div0.div_div; reflexivity).
    rewrite E1, E2. f_equal; lia.
Qed.

(** The text of an identifier reads back as the identifier. *)
Lemma ObjectId_oid_str (o : N) :
  (o < 16 ^ 24)%N -> ObjectId (oid_str o) = Some o.
Proof.
  intro H. unfold ObjectId, oid_str. rewrite hex_fixed_length. cbn [Nat.eqb].
  pose proof (fromhex_fixed false 12 o EmptyString 0 0) as F.
  change (2 * 12)%nat with 24%nat in F.
  assert (E : (hex_fixed false 24 o ++ EmptyString)%string = hex_fixed false 24 o).
  { generalize (hex_fixed false 24 o). intro s.
    induction s as [ | c s IH]; cbn [String.append]; [reflexivity | now rewrite IH]. }
  rewrite E in F. rewrite F. cbn [fromhex].
  change (0 + N.of_nat 12 =? 12)%N with true. cbv beta iota. f_equal.
  change (256 ^ N.of_nat 12)%N with (16 ^ 24)%N.
  rewrite N.mod_small by exact H. lia.
Qed.

Lemma find_one_app_fresh {A : Type} (l : list (Document A)) (d : Document A) :
  ~ In (_id d) (map _id l) -> find_one (l ++ [d]) (_id d) = Some d.
Proof.
  unfold find_one. induction l as [ | x l IH]; intro Hn; cbn [app find].
  - now rewrite N.eqb_refl.
  - cbn [map] in Hn. destruct (N.eqb_spec (_id x) (_id d)) as [E | _].
    + exfalso. apply Hn. now left.
    + apply IH. intro H. apply Hn. now right.
Qed.

(** ** The life of a booking *)

(** X4.  The identifier [create_booking] returns leads to the booking it
    stored: approving under that identifier succeeds, a check-in under it with
    the code of the approval succeeds, and the stored booking then is
    approved, carries that code and the time of the check-in, and still has
    the facility, date and times of the request. *)
Theorem booking_lifecycle (db : DB) (payload : CreateBooking.t) (c : Created)
  (rnd : Byte.byte * Byte.byte * Byte.byte) (now : pydatetime) :
  snd (create_booking db payload) = inr c ->
  (fresh_id (booking db) < 16 ^ 24)%N ->
  let db1 := fst (create_booking db payload) in
  let db2 := fst (admin_action db1 (booking_id c) approve_ rnd) in
  let code := {| cip_access_code := hex_upper rnd |} in
  snd (admin_action db1 (booking_id c) approve_ rnd) = inr "Approved"
  /\ snd (check_in db2 (booking_id c) code now) = inr "Check-in recorded"
  /\ exists d,
       find_one (booking (fst (check_in db2 (booking_id c) code now)))
                (fresh_id (booking db)) = Some d
       /\ status (fields d) = approved
       /\ access_code (fields d) = Some (hex_upper rnd)
       /\ checked_in_at (fields d) = Some now
       /\ facility_code (fields d) = CreateBooking.facility_code payload
       /\ date (fields d) = CreateBooking.date payload
       /\ start_time (fields d) = CreateBooking.start_time payload
       /\ end_time (fields d) = CreateBooking.end_time payload.
Proof.
  intros Hc Hsmall.
  destruct (create_booking_success db payload c Hc)
    as (fac & _ & _ & _ & -> & ->).
  cbn [booking_id].
  set (db1 := {| facility := facility db; booking := _ |}).
  set (db2 := fst (admin_action db1 _ approve_ rnd)).
  set (code := {| cip_access_code := hex_upper rnd |}).
  pose (oid := fresh_id (booking db)).
  pose (d0 := {| _id := oid; fields := pending_booking fac payload |}).
  assert (Hid : ObjectId (oid_str oid) = Some oid) by now apply ObjectId_oid_str.
  assert (H1 : find_one (booking db1) oid = Some d0).
  { subst db1. cbn [booking]. apply (find_one_app_fresh (booking db) d0).
    apply fresh_id_fresh. }
  assert (E2 : admin_action db1 (oid_str oid) approve_ rnd
               = (set_booking db1
                    (update_one (booking db1) oid
                       (fun x => with_access_code (hex_upper rnd)
                                   (with_status approved x))),
                  inr "Approved")).
  { unfold admin_action. now rewrite Hid, H1. }
  assert (H2 : find_one (booking db2) oid
               = Some {| _id := oid;
                         fields := with_access_code (hex_upper rnd)
                                     (with_status approved (fields d0)) |}).
  { subst db2. fold oid. rewrite E2. cbn [fst set_booking booking].
    exact (find_one_update_one (booking db1) oid
             (fun x => with_access_code (hex_upper rnd) (with_status approved x))
             d0 H1). }
  fold oid. rewrite E2. split; [reflexivity | ].
  rewrite (check_in_success db2 (oid_str oid) oid _ code now Hid H2 eq_refl eq_refl).
  split; [reflexivity | ]. cbn [fst set_booking booking].
  eexists. split; [exact (find_one_update_one _ oid (with_checked_in_at now) _ H2) | ].
  cbn. auto 10.
Qed.

Lemma booking_lifecycle_witness :
  snd (admin_action (fst (create_booking seeded_db (mr1_request "09:00" "10:00")))
         (oid_str 1) approve_ (Byte.x0a, Byte.xff, Byte.x3c)) = inr "Approved".
Proof.
  exact (proj1 (booking_lifecycle seeded_db (mr1_request "09:00" "10:00")
                  {| message := "Booking created and pending approval";
                     booking_id := oid_str 1 |}
                  (Byte.x0a, Byte.xff, Byte.x3c) 0
                  ltac:(vm_compute; reflexivity) ltac:(vm_compute; reflexivity))).
Defined.

Lemma hex_byte_format (b : Byte.byte) :
  String.length (hex_fixed true 2 (Byte.to_N b)) = 2%nat
  /\ string_forallb is_upper_hex (hex_fixed true 2 (Byte.to_N b)) = true.
Proof. destruct b; split; reflexivity. Qed.

Lemma string_forallb_append (p : ascii -> bool) (s t : string) :
  string_forallb p (s ++ t) = string_forallb p s && string_forallb p t.
Proof.
  induction s as [ | c s IH]; cbn [String.append string_forallb]; [reflexivity | ].
  now rewrite IH, andb_assoc.
Qed.

Lemma hex_upper_format (rnd : Byte.byte * Byte.byte * Byte.byte) :
  String.length (hex_upper rnd) = 6%nat
  /\ string_forallb is_upper_hex (hex_upper rnd) = true.
Proof.
  destruct rnd as [[b0 b1] b2]. unfold hex_upper.
  destruct (hex_byte_format b0) as [L0 F0], (hex_byte_format b1) as [L1 F1],
    (hex_byte_format b2) as [L2 F2].
  rewrite !string_length_append, !string_forallb_append, L0, L1, L2, F0, F1, F2.
  split; reflexivity.
Qed.

(** X5.  The access code an approval stores is six characters long, each a
    digit or a capital letter from A to F. *)
Theorem approval_code_format (db : DB) (booking_id : string) (oid : N)
  (d : Document Booking) (rnd : Byte.byte * Byte.byte * Byte.byte) :
  ObjectId booking_id = Some oid ->
  find_one (booking db) oid = Some d ->
  exists d' code,
    find_one (booking (fst (admin_action db booking_id approve_ rnd))) oid = Some d'
    /\ access_code (fields d') = Some code
    /\ String.length code = 6%nat
    /\ string_forallb is_upper_hex code = true.
Proof.
  intros Hid Hd. unfold admin_action. rewrite Hid, Hd.
  cbn [approve_ action fst set_booking booking].
  destruct (hex_upper_format rnd) as [HL HF].
  eexists. exists (hex_upper rnd).
  split; [apply find_one_update_one; exact Hd | ]. cbn. auto.
Qed.

Lemma approval_code_format_witness :
  exists d' code,
    find_one (booking (fst (admin_action scenario_A_db (oid_str 1) approve_
                              (Byte.x0a, Byte.xff, Byte.x3c)))) 1 = Some d'
    /\ access_code (fields d') = Some code
    /\ String.length code = 6%nat
    /\ string_forallb is_upper_hex code = true.
Proof.
  apply (approval_code_format scenario_A_db (oid_str 1) 1%N
           {| _id := 1; fields := pending_booking mr1 (mr1_request "09:00" "10:00") |});
    vm_compute; reflexivity.
Defined.

Lemma find_one_update_one_other {A : Type} (l : list (Document A)) (oid o : N)
  (f : A -> A) :
  o <> oid -> find_one (update_one l oid f) o = find_one l o.
Proof.
  intro Hne. unfold find_one.
  induction l as [ | x l IH]; cbn [update_one find]; [reflexivity | ].
  destruct (N.eqb_spec (_id x) oid) as [E | E]; cbn [find _id].
  - replace (N.eqb (_id x) o) with false; [reflexivity | ].
    symmetry. apply N.eqb_neq. congruence.
  - destruct (N.eqb (_id x) o); [reflexivity | exact IH].
Qed.

Lemma admin_action_approve (db : DB) (booking_id : string) (oid : N)
  (d : Document Booking) (rnd : Byte.byte * Byte.byte * Byte.byte) :
  ObjectId booking_id = Some oid ->
  find_one (booking db) oid = Some d ->
  admin_action db booking_id approve_ rnd
  = (set_booking db
       (update_one (booking db) oid
          (fun x => with_access_code (hex_upper rnd) (with_status approved x))),
     inr "Approved")
  /\ find_one (booking (fst (admin_action db booking_id approve_ rnd))) oid
     = Some {| _id := _id d;
               fields := with_access_code (hex_upper rnd)
                           (with_status approved (fields d)) |}.
Proof.
  intros Hid Hd. unfold admin_action. rewrite Hid, Hd.
  cbn [approve_ action fst set_booking booking]. split; [reflexivity | ].
  exact (find_one_update_one (booking db) oid
           (fun x => with_access_code (hex_upper rnd) (with_status approved x)) d Hd).
Qed.

(** X6.  Approving a booking again gives it a new code and drops the old
    one: after a second approval with a different code, a check-in with the
    first code is refused with the 403 error and changes nothing, and a
    check-in with the second code succeeds. *)
Theorem reapproval_replaces_code (db : DB) (booking_id : string) (oid : N)
  (d : Document Booking) (rnd1 rnd2 : Byte.byte * Byte.byte * Byte.byte)
  (now : pydatetime) :
  ObjectId booking_id = Some oid ->
  find_one (booking db) oid = Some d ->
  hex_upper rnd1 <> hex_upper rnd2 ->
  let db1 := fst (admin_action db booking_id approve_ rnd1) in
  let db2 := fst (admin_action db1 booking_id approve_ rnd2) in
  check_in db2 booking_id {| cip_access_code := hex_upper rnd1 |} now = (db2, inl E403)
  /\ snd (check_in db2 booking_id {| cip_access_code := hex_upper rnd2 |} now)
     = inr "Check-in recorded".
Proof.
  intros Hid Hd Hne db1 db2.
  destruct (admin_action_approve db booking_id oid d rnd1 Hid Hd) as [_ H1].
  fold db1 in H1.
  destruct (admin_action_approve db1 booking_id oid _ rnd2 Hid H1) as [_ H2].
  fold db2 in H2.
  split.
  - unfold check_in. rewrite Hid, H2. cbn.
    destruct (String.eqb_spec (hex_upper rnd2) (hex_upper rnd1)) as [E | _];
      [congruence | reflexivity].
  - now rewrite (check_in_success db2 booking_id oid _
                   {| cip_access_code := hex_upper rnd2 |} now Hid H2 eq_refl eq_refl).
Qed.

Lemma reapproval_replaces_code_witness :
  check_in (fst (admin_action scenario_B_db (oid_str 1) approve_
                   (Byte.x11, Byte.x22, Byte.x33)))
           (oid_str 1) {| cip_access_code := "0AFF3C" |} 0
  = (fst (admin_action scenario_B_db (oid_str 1) approve_
            (Byte.x11, Byte.x22, Byte.x33)), inl E403).
Proof.
  assert (E : fst (admin_action scenario_A_db (oid_str 1) approve_
                     (Byte.x0a, Byte.xff, Byte.x3c)) = scenario_B_db)
    by (vm_compute; reflexivity).
  rewrite <- E.
  apply (reapproval_replaces_code scenario_A_db (oid_str 1) 1%N
           {| _id := 1; fields := pending_booking mr1 (mr1_request "09:00" "10:00") |}
           (Byte.x0a, Byte.xff, Byte.x3c) (Byte.x11, Byte.x22, Byte.x33) 0).
  - vm_compute. reflexivity.
  - vm_compute. reflexivity.
  - vm_compute. discriminate.
Defined.

(** X7.  [admin_action] looks at no status: on every stored booking, pending
    or already decided, both actions succeed and set the status they name.
    The booking keeps its facility, date, times and check-in time, a
    rejection keeps its access code too, and what is found under every other
    identifier is what was found before. *)
Theorem admin_action_any_status (db : DB) (booking_id : string) (oid : N)
  (d : Document Booking) (a : AdminAction)
  (rnd : Byte.byte * Byte.byte * Byte.byte) :
  ObjectId booking_id = Some oid ->
  find_one (booking db) oid = Some d ->
  snd (admin_action db booking_id a rnd)
  = inr (match action a with approve => "Approved" | reject => "Rejected" end)
  /\ (exists d',
        find_one (booking (fst (admin_action db booking_id a rnd))) oid = Some d'
        /\ status (fields d')
           = match action a with approve => approved | reject => rejected end
        /\ checked_in_at (fields d') = checked_in_at (fields d)
        /\ (action a = reject -> access_code (fields d') = access_code (fields d))
        /\ facility_code (fields d') = facility_code (fields d)
        /\ date (fields d') = date (fields d)
        /\ start_time (fields d') = start_time (fields d)
        /\ end_time (fields d') = end_time (fields d))
  /\ (forall o, o <> oid ->
                find_one (booking (fst (admin_action db booking_id a rnd))) o
                = find_one (booking db) o).
Proof.
  intros Hid Hd. unfold admin_action. rewrite Hid, Hd.
  destruct (action a); cbn [fst snd set_booking booking].
  - split; [reflexivity | split].
    + eexists. split; [apply find_one_update_one; exact Hd | ].
      cbn. repeat split; auto. discriminate.
    + intros o Ho. now apply find_one_update_one_other.
  - split; [reflexivity | split].
    + eexists. split; [apply find_one_update_one; exact Hd | ].
      cbn. repeat split; auto.
    + intros o Ho. now apply find_one_update_one_other.
Qed.

Lemma admin_action_any_status_witness :
  snd (admin_action (run seeded_db approve_then_reject_ops) (oid_str 1) approve_
         (Byte.x11, Byte.x22, Byte.x33)) = inr "Approved".
Proof.
  exact (proj1 (admin_action_any_status (run seeded_db approve_then_reject_ops)
                  (oid_str 1) 1%N rejected_with_code approve_
                  (Byte.x11, Byte.x22, Byte.x33)
                  ltac:(vm_compute; reflexivity) ltac:(vm_compute; reflexivity))).
Defined.

(** X8.  Every way [check_in] and [admin_action] refuse, and that a refusal
    writes nothing.  [check_in] answers 400 for a text that is no identifier,
    404 for an identifier nothing is stored under, 400 for a booking that is
    not approved whatever code is submitted, and 403 for an approved booking
    whose code differs; [admin_action] knows only the first two. *)
Theorem refusals_write_nothing (db : DB) (booking_id : string) :
  (forall (payload : CheckInPayload) (now : pydatetime) (e : exn),
      snd (check_in db booking_id payload now) = inl e ->
      fst (check_in db booking_id payload now) = db
      /\ ((e = HTTPException 400 "Invalid booking id" /\ ObjectId booking_id = None)
          \/ (e = HTTPException 404 "Not found"
              /\ exists oid, ObjectId booking_id = Some oid
                             /\ find_one (booking db) oid = None)
          \/ (e = HTTPException 400 "Booking not approved"
              /\ exists oid d, ObjectId booking_id = Some oid
                               /\ find_one (booking db) oid = Some d
                               /\ status (fields d) <> approved)
          \/ (e = E403
              /\ exists oid d, ObjectId booking_id = Some oid
                               /\ find_one (booking db) oid = Some d
                               /\ status (fields d) = approved
                               /\ access_code (fields d)
                                  <> Some (cip_access_code payload))))
  /\ (forall (oid : N) (d : Document Booking) (payload : CheckInPayload)
             (now : pydatetime),
         ObjectId booking_id = Some oid ->
         find_one (booking db) oid = Some d ->
         status (fields d) <> approved ->
         check_in db booking_id payload now
         = (db, inl (HTTPException 400 "Booking not approved")))
  /\ (forall (a : AdminAction) (rnd : Byte.byte * Byte.byte * Byte.byte) (e : exn),
         snd (admin_action db booking_id a rnd) = inl e ->
         fst (admin_action db booking_id a rnd) = db
         /\ ((e = HTTPException 400 "Invalid booking id" /\ ObjectId booking_id = None)
             \/ (e = HTTPException 404 "Not found"
                 /\ exists oid, ObjectId booking_id = Some oid
                                /\ find_one (booking db) oid = None))).
Proof.
  split; [ | split].
  - intros payload now e. unfold check_in.
    destruct (ObjectId booking_id) as [oid | ] eqn:Hid.
    2:{ cbn. intro H. injection H as <-. auto. }
    destruct (find_one (booking db) oid) as [d | ] eqn:Hd.
    2:{ cbn. intro H. injection H as <-. split; [reflexivity | ].
        right. left. split; [reflexivity | ]. exists oid. auto. }
    destruct (Status_eqb (status (fields d)) approved) eqn:Hst; cbn [negb].
    2:{ cbn. intro H. injection H as <-. split; [reflexivity | ].
        right. right. left. split; [reflexivity | ]. exists oid, d.
        repeat split; auto. intro E. rewrite E in Hst. discriminate Hst. }
    destruct (opt_str_eqb _ _) eqn:Hc; cbn [negb]; [cbn; discriminate | ].
    cbn. intro H. injection H as <-. split; [reflexivity | ].
    right. right. right. split; [reflexivity | ]. exists oid, d.
    repeat split; auto.
    + destruct (status (fields d)); try discriminate Hst; reflexivity.
    + intro E. apply opt_str_eqb_true in E. congruence.
  - intros oid d payload now Hid Hd Hst. unfold check_in. rewrite Hid, Hd.
    destruct (status (fields d)); try reflexivity. contradiction.
  - intros a rnd e. unfold admin_action.
    destruct (ObjectId booking_id) as [oid | ] eqn:Hid.
    2:{ cbn. intro H. injection H as <-. auto. }
    destruct (find_one (booking db) oid) as [d | ] eqn:Hd.
    2:{ cbn. intro H. injection H as <-. split; [reflexivity | ].
        right. split; [reflexivity | ]. exists oid. auto. }
    destruct (action a); cbn; discriminate.
Qed.

Lemma refusals_write_nothing_witness :
  check_in scenario_A_db (oid_str 1) {| cip_access_code := "0AFF3C" |} 0
  = (scenario_A_db, inl (HTTPException 400 "Booking not approved")).
Proof.
  apply (proj1 (proj2 (refusals_write_nothing scenario_A_db (oid_str 1))) 1%N
           {| _id := 1; fields := pending_booking mr1 (mr1_request "09:00" "10:00") |}).
  - vm_compute. reflexivity.
  - vm_compute. reflexivity.
  - cbn. discriminate.
Defined.

(** ** What the sweep touches *)

Lemma sweep_pass_marked (grace : Z) (today : pydate) (now : pydatetime)
  (l : list (Document Booking)) (changed : Z) (d' : Document Booking) :
  In d' (fst (sweep_pass grace today now l changed)) ->
  In d' l
  \/ exists d, In d l /\ sweep_selected (fields d) = true
               /\ sweep_row grace today now (fields d) = inr true
               /\ d' = mark_no_show d.
Proof.
  revert changed. induction l as [ | x rest IH]; intros changed; cbn [sweep_pass];
    [intros [] | ].
  assert (Hrec : forall c,
             In d' (x :: fst (sweep_pass grace today now rest c)) ->
             In d' (x :: rest)
             \/ exists d, In d (x :: rest) /\ sweep_selected (fields d) = true
                          /\ sweep_row grace today now (fields d) = inr true
                          /\ d' = mark_no_show d).
  { intros c [<- | Hin]; [left; now left | ].
    destruct (IH c Hin) as [H | (d & H1 & H2 & H3 & H4)].
    - left. now right.
    - right. exists d. split; [now right | auto]. }
  destruct (sweep_selected (fields x)) eqn:Hsel.
  - destruct (sweep_row grace today now (fields x)) as [e | [ | ]] eqn:Hrow.
    + cbn [fst]. auto.
    + destruct (sweep_pass grace today now rest (changed + 1)) as [rest' r] eqn:E.
      cbn [fst]. intros [<- | Hin].
      * right. exists x. split; [now left | auto].
      * specialize (IH (changed + 1)). rewrite E in IH. cbn [fst] in IH.
        destruct (IH Hin) as [H | (d & H1 & H2 & H3 & H4)].
        -- left. now right.
        -- right. exists d. split; [now right | auto].
    + specialize (Hrec changed).
      destruct (sweep_pass grace today now rest changed) as [rest' r].
      exact Hrec.
  - specialize (Hrec changed).
    destruct (sweep_pass grace today now rest changed) as [rest' r].
    exact Hrec.
Qed.

Lemma sweep_pass_kept (grace : Z) (today : pydate) (now : pydatetime)
  (l : list (Document Booking)) (changed : Z) (d : Document Booking) :
  In d l ->
  sweep_selected (fields d) = false
  \/ sweep_row grace today now (fields d) <> inr true ->
  In d (fst (sweep_pass grace today now l changed)).
Proof.
  revert changed. induction l as [ | x rest IH]; intros changed Hin Hk;
    [destruct Hin | ].
  cbn [sweep_pass].
  assert (Hrec : forall c, In d (x :: fst (sweep_pass grace today now rest c))).
  { intro c. destruct Hin as [-> | Hin]; [now left | right; now apply IH]. }
  destruct (sweep_selected (fields x)) eqn:Hsel.
  - destruct (sweep_row grace today now (fields x)) as [e | [ | ]] eqn:Hrow.
    + exact Hin.
    + destruct Hin as [-> | Hin].
      * exfalso. destruct Hk as [Hk | Hk]; congruence.
      * specialize (IH (changed + 1) Hin Hk).
        destruct (sweep_pass grace today now rest (changed + 1)). now right.
    + specialize (Hrec changed).
      destruct (sweep_pass grace today now rest changed). exact Hrec.
  - specialize (Hrec changed).
    destruct (sweep_pass grace today now rest changed). exact Hrec.
Qed.

(** X9.  On a collection with distinct identifiers, whether the sweep
    returns or raises, every booking it leaves in the store is one that was
    there, or one that was approved, not checked in and due, now marked as a
    no-show.  A booking that is not approved, or is checked in, or is dated
    after today, is still there unchanged, whatever the grace period and the
    time are. *)
Theorem sweep_touches_only_due (grace : Z) (db : DB) (clock1 clock2 : pydatetime) :
  NoDup (map _id (booking db)) ->
  (forall d', In d' (booking (fst (sweep_noshows grace db clock1 clock2))) ->
              In d' (booking db)
              \/ exists d, In d (booking db)
                           /\ status (fields d) = approved
                           /\ checked_in_at (fields d) = None
                           /\ due grace (dt_date clock1) clock2 (fields d) = true
                           /\ d' = mark_no_show d)
  /\ (forall d, In d (booking db) ->
                status (fields d) <> approved
                \/ checked_in_at (fields d) <> None
                \/ (exists b_date, strptime_date (date (fields d)) = inr b_date
                                   /\ dt_date clock1 < b_date) ->
                In d (booking (fst (sweep_noshows grace db clock1 clock2)))).
Proof.
  intro Hnd. rewrite sweep_noshows_pass by exact Hnd.
  cbn [fst set_booking booking]. split.
  - intros d' Hin.
    apply sweep_pass_marked in Hin as [Hin | (d & Hin & Hsel & Hrow & ->)];
      [now left | ].
    right. exists d. unfold sweep_selected in Hsel.
    apply andb_true_iff in Hsel as [Hst Hci].
    repeat split; auto.
    + destruct (status (fields d)); try discriminate Hst; reflexivity.
    + destruct (checked_in_at (fields d)); [discriminate Hci | reflexivity].
    + symmetry. eapply sweep_row_due; eassumption.
  - intros d Hin Hk. apply sweep_pass_kept; [exact Hin | ].
    destruct Hk as [Hst | [Hci | (b_date & Hd & Hlt)]].
    + left. unfold sweep_selected.
      destruct (status (fields d)); try reflexivity. contradiction.
    + left. unfold sweep_selected.
      destruct (checked_in_at (fields d)); [apply andb_false_r | contradiction].
    + right. unfold sweep_row. rewrite Hd. cbn [bind].
      destruct (to_local_dt _ _); cbn [bind]; [discriminate | ].
      replace (b_date <=? dt_date clock1) with false
        by (symmetry; apply Z.leb_gt; exact Hlt).
      discriminate.
Qed.

Lemma sweep_touches_only_due_witness :
  In {| _id := 1;
        fields := with_access_code "0AFF3C"
                    (with_status approved
                       (pending_booking mr1 (mr1_request "08:00" "09:00"))) |}
     (booking (fst (sweep_noshows (-100000) scenario_D_db
                      (clock_at "2024-05-31" "23:00") (clock_at "2024-05-31" "23:00")))).
Proof.
  assert (Hnd : NoDup (map _id (booking scenario_D_db)))
    by (vm_compute; repeat constructor; intros []).
  apply (proj2 (sweep_touches_only_due (-100000) scenario_D_db
                  (clock_at "2024-05-31" "23:00") (clock_at "2024-05-31" "23:00") Hnd)).
  - vm_compute. left. reflexivity.
  - right. right. eexists. split; vm_compute; reflexivity.
Defined.

(** ** What every operation keeps *)

Lemma sweep_loop_ids (grace : Z) (today : pydate) (now : pydatetime)
  (rows : list (Document Booking)) (db : DB) (changed : Z) :
  map _id (booking (fst (sweep_loop grace today now rows db changed)))
  = map _id (booking db)
  /\ facility (fst (sweep_loop grace today now rows db changed)) = facility db.
Proof.
  revert db changed. induction rows as [ | b rest IH]; intros db changed;
    cbn [sweep_loop]; [auto | ].
  destruct (sweep_row grace today now (fields b)) as [e | [ | ]]; [auto | | apply IH].
  destruct (IH (set_booking db (update_one (booking db) (_id b) (with_status no_show)))
              (changed + 1)) as [H1 H2].
  rewrite H1, H2. cbn [set_booking booking facility]. now rewrite update_one_ids.
Qed.

Lemma step_ids (db : DB) (op : Op) :
  facility (step db op) = facility db
  /\ (map _id (booking (step db op)) = map _id (booking db)
      \/ map _id (booking (step db op))
         = (map _id (booking db) ++ [fresh_id (booking db)])%list).
Proof.
  destruct op as [payload | bid a rnd | bid payload now | g c1 c2]; cbn [step].
  - unfold create_booking.
    destruct (find_facility _ _); [ | auto].
    destruct (str_ge _ _); [auto | ].
    destruct (check_existing _ _ _); [auto | ].
    cbn [create_document fst facility booking]. split; [reflexivity | right].
    now rewrite map_app.
  - unfold admin_action.
    destruct (ObjectId bid) as [oid | ]; [ | auto].
    destruct (find_one _ _); [ | auto].
    destruct (action a); cbn [fst set_booking facility booking];
      rewrite update_one_ids; auto.
  - unfold check_in.
    destruct (ObjectId bid) as [oid | ]; [ | auto].
    destruct (find_one _ _); [ | auto].
    destruct (negb _); [auto | ]. destruct (negb _); [auto | ].
    cbn [fst set_booking facility booking]. rewrite update_one_ids. auto.
  - unfold sweep_noshows.
    destruct (sweep_loop_ids g (dt_date c1) c2
                (filter (fun x => sweep_selected (fields x)) (booking db)) db 0)
      as [H1 H2].
    auto.
Qed.

(** X10.  No operation deletes or reorders bookings, and none writes to the
    facility collection: after any sequence of operations the facilities are
    those of the start, the identifiers of the bookings of the start are
    still there, in their order, before those of the bookings made since; and
    identifiers that were distinct stay distinct. *)
Theorem store_only_grows (ops : list Op) (db : DB) :
  facility (run db ops) = facility db
  /\ (exists extra,
         map _id (booking (run db ops)) = (map _id (booking db) ++ extra)%list)
  /\ (NoDup (map _id (booking db)) -> NoDup (map _id (booking (run db ops)))).
Proof.
  revert db. induction ops as [ | op rest IH]; intro db.
  - cbn [run fold_left].
    split; [reflexivity | split; [exists []; now rewrite app_nil_r | auto]].
  - change (run db (op :: rest)) with (run (step db op) rest).
    destruct (IH (step db op)) as (F & (extra & E) & N).
    destruct (step_ids db op) as [Fs Is].
    split; [congruence | split].
    + destruct Is as [Is | Is]; rewrite Is in E.
      * exists extra. exact E.
      * exists (fresh_id (booking db) :: extra). rewrite E, <- app_assoc. reflexivity.
    + intro Hnd. apply N. destruct Is as [Is | Is]; rewrite Is; [exact Hnd | ].
      apply NoDup_app; [exact Hnd | repeat constructor; intros [] | ].
      intros x Hx [<- | []]. exact (fresh_id_fresh (booking db) Hx).
Qed.

Lemma store_only_grows_witness :
  NoDup (map _id (booking (run seeded_db reapproval_ops))).
Proof.
  apply (proj2 (proj2 (store_only_grows reapproval_ops seeded_db))).
  vm_compute. constructor.
Defined.

Lemma update_one_In_any {A : Type} (l : list (Document A)) (oid : N) (f : A -> A)
  (d' : Document A) :
  In d' (update_one l oid f) ->
  exists d, In d l /\ (d' = d \/ d' = {| _id := _id d; fields := f (fields d) |}).
Proof.
  intro Hin. apply In_nth_error in Hin as [i Hi].
  apply nth_error_update_one in Hi as (d & Hd & [-> | [_ ->]]);
    exists d; (split; [eapply nth_error_In; eassumption | auto]).
Qed.

Lemma I1_update_one (l : list (Document Booking)) (oid : N) (f : Booking -> Booking) :
  keeps_slot f -> I1 l -> I1 (update_one l oid f).
Proof.
  intros Hk HI d' Hin.
  apply update_one_In_any in Hin as (d & Hd & [-> | ->]); [now apply HI | ].
  cbn [fields]. destruct (Hk (fields d)) as (_ & _ & -> & ->). now apply HI.
Qed.

Lemma I1_sweep_loop (grace : Z) (today : pydate) (now : pydatetime)
  (rows : list (Document Booking)) (db : DB) (changed : Z) :
  I1 (booking db) ->
  I1 (booking (fst (sweep_loop grace today now rows db changed))).
Proof.
  revert db changed. induction rows as [ | b rest IH]; intros db changed HI;
    cbn [sweep_loop]; [exact HI | ].
  destruct (sweep_row grace today now (fields b)) as [e | [ | ]];
    [exact HI | | now apply IH].
  apply IH. cbn [set_booking booking].
  apply I1_update_one; [apply keeps_slot_with_status | exact HI].
Qed.

Lemma I1_step (db : DB) (op : Op) : I1 (booking db) -> I1 (booking (step db op)).
Proof.
  intro HI. destruct op as [payload | bid a rnd | bid payload now | g c1 c2];
    cbn [step].
  - unfold create_booking, str_ge.
    destruct (find_facility _ _) as [fac | ]; [ | exact HI].
    destruct (str_lt _ _) eqn:Hlt; cbn [negb]; [ | exact HI].
    destruct (check_existing _ _ _); [exact HI | ].
    cbn [create_document fst booking]. intros d Hin.
    apply in_app_or in Hin as [Hin | [<- | []]]; [now apply HI | exact Hlt].
  - unfold admin_action.
    destruct (ObjectId bid) as [oid | ]; [ | exact HI].
    destruct (find_one _ _); [ | exact HI].
    destruct (action a); cbn [fst set_booking booking]; apply I1_update_one;
      try exact HI; [apply keeps_slot_approval | apply keeps_slot_with_status].
  - unfold check_in.
    destruct (ObjectId bid) as [oid | ]; [ | exact HI].
    destruct (find_one _ _); [ | exact HI].
    destruct (negb _); [exact HI | ]. destruct (negb _); [exact HI | ].
    cbn [fst set_booking booking].
    apply I1_update_one; [apply keeps_slot_with_checked_in_at | exact HI].
  - now apply I1_sweep_loop.
Qed.

(** X11.  Invariant I1 is kept: from a store whose bookings all have a start
    text that sorts before the end text, every booking in the store after any
    sequence of operations has one, and when its times are valid [HH:MM]
    texts it starts earlier in the day than it ends. *)
Theorem I1_preserved (ops : list Op) (db : DB) (d : Document Booking) :
  I1 (booking db) ->
  In d (booking (run db ops)) ->
  str_lt (start_time (fields d)) (end_time (fields d)) = true
  /\ (times_valid (fields d) = true ->
      minute_of_day (start_time (fields d)) < minute_of_day (end_time (fields d))).
Proof.
  intros HI Hin.
  assert (HI' : I1 (booking (run db ops))).
  { clear Hin. revert db HI. induction ops as [ | op rest IH]; intros db HI;
      [exact HI | ].
    change (run db (op :: rest)) with (run (step db op) rest).
    apply IH. now apply I1_step. }
  specialize (HI' d Hin). split; [exact HI' | ].
  intro Hv. apply andb_true_iff in Hv as [Vs Ve].
  rewrite str_lt_hhmm in HI' by assumption. now apply Z.ltb_lt.
Qed.

Lemma I1_preserved_witness :
  str_lt (start_time (fields rejected_with_code))
         (end_time (fields rejected_with_code)) = true
  /\ (times_valid (fields rejected_with_code) = true ->
      minute_of_day (start_time (fields rejected_with_code))
      < minute_of_day (end_time (fields rejected_with_code))).
Proof.
  apply (I1_preserved approve_then_reject_ops seeded_db rejected_with_code).
  - intros d [].
  - vm_compute. left. reflexivity.
Defined.

(** ** Availability and the conflict guard *)




Lemma availability_bitmap (db : DB) (fc date_str : string) (fac : Document Facility) :
  find_facility db fc = Some fac ->
  (forall b, In b (find_active db fc date_str) ->
             exists ms me, minutes (start_time (fields b)) = inr ms
                           /\ minutes (end_time (fields b)) = inr me) ->
  exists a,
    availability db fc date_str = inr a
    /\ (fully_occupied a = true
        <-> forall m, 8 * 60 <= m < 22 * 60 ->
              exists b ms me,
                In b (find_active db fc date_str)
                /\ minutes (start_time (fields b)) = inr ms
                /\ minutes (end_time (fields b)) = inr me
                /\ ms <= m < me).
Proof.
  intros Hfac Hok. unfold availability. rewrite Hfac.
  rewrite minutes_open, minutes_close. cbn [bind].
  destruct (cover_spec (find_active db fc date_str)
              (repeat 0 (Z.to_nat (22 * 60 - 8 * 60))) Hok)
    as (covered & Hc & Hlen & Hnth).
  rewrite Hc. cbn [bind]. eexists. split; [reflexivity | ].
  cbn [fully_occupied]. rewrite all_covered_spec.
  rewrite repeat_length in Hlen, Hnth. rewrite Hlen. split.
  - intros [_ Hall] m Hm.
    assert (Hj : (Z.to_nat (m - 8 * 60) < Z.to_nat (22 * 60 - 8 * 60))%nat) by lia.
    specialize (Hall _ Hj). apply Hnth in Hall; [ | exact Hj].
    destruct Hall as [H | (b & ms & me & Hin & Hs & He & Hr)].
    + exfalso. apply H. apply nth_repeat.
    + exists b, ms, me. repeat split; auto; lia.
  - intro Hall. split.
    + intros ->. cbn in Hlen. lia.
    + intros j Hj. apply Hnth; [exact Hj | ]. right.
      destruct (Hall (Z.of_nat j + 8 * 60)) as (b & ms & me & Hin & Hs & He & Hr);
        [lia | ].
      exists b, ms, me. repeat split; auto; lia.
Qed.

(** X13.  One pending or approved booking that starts at or before 08:00
    and ends at or after 22:00 makes the day fully occupied, whatever other
    bookings the facility has that day, as long as [minutes] can read their
    times. *)
Theorem availability_spanning_booking (db : DB) (fc date_str : string)
  (fac : Document Facility) (b : Document Booking) (ms me : Z) :
  find_facility db fc = Some fac ->
  (forall x, In x (booking db) -> active (fields x) = true ->
             facility_code (fields x) = fc -> date (fields x) = date_str ->
             exists s e, minutes (start_time (fields x)) = inr s
                         /\ minutes (end_time (fields x)) = inr e) ->
  In b (booking db) -> active (fields b) = true ->
  facility_code (fields b) = fc -> date (fields b) = date_str ->
  minutes (start_time (fields b)) = inr ms ->
  minutes (end_time (fields b)) = inr me ->
  ms <= 8 * 60 -> 22 * 60 <= me ->
  exists a, availability db fc date_str = inr a /\ fully_occupied a = true.
Proof.
  intros Hfac Hok Hin Ha Hf Hd Hs He Hlo Hhi.
  destruct (availability_bitmap db fc date_str fac Hfac) as (a & Ea & Hiff).
  { intros x Hx. apply find_active_In in Hx as (Hx & H1 & H2 & H3). now apply Hok. }
  exists a. split; [exact Ea | ]. apply Hiff. intros m Hm.
  exists b, ms, me. repeat split; auto; try lia.
  apply find_active_In. auto.
Qed.

Lemma availability_spanning_booking_witness :
  exists a,
    availability (fst (create_booking seeded_db (mr1_request "07:30" "22:30")))
                 "MR-1" "2024-06-01" = inr a
    /\ fully_occupied a = true.
Proof.
  assert (E : booking (fst (create_booking seeded_db (mr1_request "07:30" "22:30")))
              = [{| _id := 1;
                    fields := pending_booking mr1 (mr1_request "07:30" "22:30") |}])
    by (vm_compute; reflexivity).
  apply (availability_spanning_booking _ "MR-1" "2024-06-01" mr1
           {| _id := 1; fields := pending_booking mr1 (mr1_request "07:30" "22:30") |}
           (7 * 60 + 30) (22 * 60 + 30)).
  - vm_compute. reflexivity.
  - intros x Hx _ _ _. rewrite E in Hx. destruct Hx as [<- | []].
    eexists. eexists. split; reflexivity.
  - rewrite E. now left.
  - reflexivity.
  - reflexivity.
  - reflexivity.
  - reflexivity.
  - reflexivity.
  - lia.
  - lia.
Defined.

Lemma minutes_hhmm (s : string) :
  valid_hhmm s = true -> minutes s = inr (minute_of_day s).
Proof.
  intro H. destruct (mapM_int_hhmm s H) as (hh & mm & E & _ & _ & Em).
  unfold minutes. rewrite E. cbn [bind]. now rewrite Em.
Qed.

Lemma hhmm_of_minute_valid (m : Z) :
  0 <= m < 1440 ->
  valid_hhmm (hhmm_of_minute m) = true /\ minute_of_day (hhmm_of_minute m) = m.
Proof.
  intro Hm.
  assert (Hall : forallb (fun k => valid_hhmm (hhmm_of_minute k)
                                   && (minute_of_day (hhmm_of_minute k) =? k))
                         (range 0 1440) = true) by (vm_compute; reflexivity).
  rewrite forallb_forall in Hall.
  specialize (Hall m (proj2 (range_In 0 1440 m) Hm)).
  apply andb_true_iff in Hall as [H1 H2]. apply Z.eqb_eq in H2. auto.
Qed.

Lemma check_existing_valid (s e : string) (existing : list (Document Booking)) :
  valid_hhmm s = true -> valid_hhmm e = true ->
  (forall b, In b existing -> times_valid (fields b) = true) ->
  (check_existing s e existing = inl E409
   <-> exists b, In b existing
                 /\ minute_of_day s < minute_of_day (end_time (fields b))
                 /\ minute_of_day (start_time (fields b)) < minute_of_day e)
  /\ (check_existing s e existing = inl E409 \/ check_existing s e existing = inr tt).
Proof.
  intros Vs Ve. induction existing as [ | b rest IH]; intro Hv; cbn [check_existing].
  - split; [ | now right]. split; [discriminate | intros (b & [] & _)].
  - assert (Vb : times_valid (fields b) = true) by (apply Hv; now left).
    apply andb_true_iff in Vb as [V1 V2].
    destruct (IH (fun x Hx => Hv x (or_intror Hx))) as [IH1 IH2].
    rewrite overlaps_hhmm by assumption. cbn [bind].
    destruct ((minute_of_day s <? minute_of_day (end_time (fields b)))
              && (minute_of_day (start_time (fields b)) <? minute_of_day e)) eqn:E.
    + split; [ | now left]. split; [intros _ | reflexivity].
      apply andb_true_iff in E as [E1 E2]. apply Z.ltb_lt in E1, E2.
      exists b. split; [now left | auto].
    + split; [ | exact IH2]. rewrite IH1. split.
      * intros (x & Hx & H1 & H2). exists x. split; [now right | auto].
      * intros (x & [<- | Hx] & H1 & H2).
        -- exfalso. apply Z.ltb_lt in H1, H2. rewrite H1, H2 in E. discriminate E.
        -- exists x. auto.
Qed.

(** X14.  The availability report and the conflict guard agree.  For an
    existing facility whose active bookings of the date have valid times, the
    day is reported fully occupied exactly when no one-minute request between
    08:00 and 22:00 would be admitted: each is refused with the 409 error. *)
Theorem fully_occupied_means_unbookable (db : DB) (fc date_str : string)
  (fac : Document Facility) :
  find_facility db fc = Some fac ->
  slot_times_valid db fc date_str ->
  exists a,
    availability db fc date_str = inr a
    /\ (fully_occupied a = true
        <-> forall m, 8 * 60 <= m < 22 * 60 ->
              snd (create_booking db (minute_request fc date_str m)) = inl E409).
Proof.
  intros Hfac Hv.
  assert (Hvalid : forall b, In b (find_active db fc date_str) ->
                             times_valid (fields b) = true).
  { intros b Hb. apply find_active_In in Hb as (Hb & H1 & H2 & H3). now apply Hv. }
  destruct (availability_bitmap db fc date_str fac Hfac) as (a & Ea & Hiff).
  { intros b Hb. specialize (Hvalid b Hb). apply andb_true_iff in Hvalid as [V1 V2].
    exists (minute_of_day (start_time (fields b))),
           (minute_of_day (end_time (fields b))).
    split; now apply minutes_hhmm. }
  exists a. split; [exact Ea | ]. rewrite Hiff.
  assert (Hreq : forall m, 8 * 60 <= m < 22 * 60 ->
            (snd (create_booking db (minute_request fc date_str m)) = inl E409
             <-> exists b, In b (find_active db fc date_str)
                           /\ minute_of_day (start_time (fields b)) <= m
                              < minute_of_day (end_time (fields b)))).
  { intros m Hm.
    destruct (hhmm_of_minute_valid m) as [Vs Es]; [lia | ].
    destruct (hhmm_of_minute_valid (m + 1)) as [Ve Ee]; [lia | ].
    unfold create_booking. cbn [minute_request CreateBooking.facility_code
      CreateBooking.start_time CreateBooking.end_time CreateBooking.date].
    rewrite Hfac, str_ge_hhmm by assumption. rewrite Es, Ee.
    replace (m + 1 <=? m) with false by (symmetry; apply Z.leb_gt; lia).
    destruct (check_existing_valid (hhmm_of_minute m) (hhmm_of_minute (m + 1))
                (find_active db fc date_str) Vs Ve Hvalid) as [Hc1 Hc2].
    rewrite Es, Ee in Hc1.
    destruct (check_existing _ _ _) as [x | []] eqn:Ec.
    - cbn [snd]. destruct Hc2 as [Hx | Hx]; [ | discriminate Hx].
      injection Hx as ->. split; [intros _ | reflexivity].
      destruct (proj1 Hc1 eq_refl) as (b & Hb & H1 & H2).
      exists b. split; [exact Hb | lia].
    - cbn [create_document snd]. split; [discriminate | ].
      intros (b & Hb & H1). exfalso.
      assert (H : @inr exn unit tt = inl E409); [ | discriminate H].
      apply Hc1. exists b. split; [exact Hb | lia]. }
  split.
  - intros Hall m Hm. apply Hreq; [exact Hm | ].
    destruct (Hall m Hm) as (b & ms & me & Hb & Hs & He & Hr).
    specialize (Hvalid b Hb). apply andb_true_iff in Hvalid as [V1 V2].
    rewrite minutes_hhmm in Hs, He by assumption.
    injection Hs as <-. injection He as <-. exists b. auto.
  - intros Hall m Hm. specialize (Hall m Hm). apply Hreq in Hall; [ | exact Hm].
    destruct Hall as (b & Hb & Hr).
    specialize (Hvalid b Hb). apply andb_true_iff in Hvalid as [V1 V2].
    exists b, (minute_of_day (start_time (fields b))),
           (minute_of_day (end_time (fields b))).
    repeat split; auto; try lia; now apply minutes_hhmm.
Qed.

Lemma fully_occupied_means_unbookable_witness :
  exists a,
    availability tiling_db "MR-1" "2024-06-01" = inr a
    /\ (fully_occupied a = true
        <-> forall m, 8 * 60 <= m < 22 * 60 ->
              snd (create_booking tiling_db (minute_request "MR-1" "2024-06-01" m))
              = inl E409).
Proof.
  apply (fully_occupied_means_unbookable tiling_db "MR-1" "2024-06-01" mr1).
  - vm_compute. reflexivity.
  - intros b Hin _ _ _.
    assert (E : map (fun d => (start_time (fields d), end_time (fields d)))
                    (booking tiling_db)
                = [("08:00", "15:00"); ("15:00", "22:00")])
      by (vm_compute; reflexivity).
    apply (in_map (fun d => (start_time (fields d), end_time (fields d)))) in Hin.
    rewrite E in Hin. unfold times_valid.
    destruct Hin as [H | [H | []]]; injection H as <- <-; reflexivity.
Defined.

(** ** Listings *)

Lemma insert_sorted_perm {A : Type} (le : A -> A -> bool) (x : A) (l : list A) :
  Permutation (insert_sorted le x l) (x :: l).
Proof.
  induction l as [ | y l IH]; cbn [insert_sorted]; [reflexivity | ].
  destruct (le x y); [reflexivity | ].
  etransitivity; [apply perm_skip, IH | apply perm_swap].
Qed.

Lemma sort_by_perm {A : Type} (le : A -> A -> bool) (l : list A) :
  Permutation (sort_by le l) l.
Proof.
  induction l as [ | x l IH]; cbn [sort_by fold_right]; [reflexivity | ].
  etransitivity; [apply insert_sorted_perm | now apply perm_skip].
Qed.

Lemma insert_sorted_sorted {A : Type} (le : A -> A -> bool) (x : A) (l : list A) :
  (forall a b, le a b = false -> le b a = true) ->
  Sorted (fun a b => le a b = true) l ->
  Sorted (fun a b => le a b = true) (insert_sorted le x l).
Proof.
  intros Htot Hs. induction Hs as [ | y l Hs IH Hhd]; cbn [insert_sorted].
  - repeat constructor.
  - destruct (le x y) eqn:E.
    + constructor; [now constructor | now constructor].
    + constructor; [exact IH | ].
      destruct l as [ | z l]; cbn [insert_sorted].
      * constructor. now apply Htot.
      * destruct (le x z); constructor; [now apply Htot | ].
        now inversion Hhd.
Qed.

Lemma sort_by_sorted {A : Type} (le : A -> A -> bool) (l : list A) :
  (forall a b, le a b = false -> le b a = true) ->
  Sorted (fun a b => le a b = true) (sort_by le l).
Proof.
  intro Htot. induction l as [ | x l IH]; cbn [sort_by fold_right];
    [constructor | now apply insert_sorted_sorted].
Qed.

Lemma Sorted_map {A B : Type} (R : A -> A -> Prop) (R' : B -> B -> Prop)
  (f : A -> B) (l : list A) :
  (forall a b, R a b -> R' (f a) (f b)) ->
  Sorted R l -> Sorted R' (map f l).
Proof.
  intros HR Hs. induction Hs as [ | x l Hs IH Hhd]; cbn [map]; constructor;
    [exact IH | ].
  destruct Hhd; cbn [map]; constructor. now apply HR.
Qed.

Lemma date_le_total (a b : Document Booking) :
  date_le a b = false -> date_le b a = true.
Proof.
  unfold date_le. intro H.
  destruct (String.leb_total (date (fields a)) (date (fields b))); congruence.
Qed.

Lemma date_start_le_total (a b : Document Booking) :
  date_start_le a b = false -> date_start_le b a = true.
Proof.
  unfold date_start_le.
  rewrite (String.compare_antisym (date (fields a)) (date (fields b))).
  destruct (String.compare (date (fields b)) (date (fields a))); cbn [CompOpp];
    try congruence.
  intro H.
  destruct (String.leb_total (start_time (fields a)) (start_time (fields b)));
    congruence.
Qed.

(** X15.  [my_bookings] returns the bookings whose [user_email] is exactly
    the address asked for, each once, none other, sorted by date text in
    ascending order, the identifier of each given as text. *)
Theorem my_bookings_sorted (db : DB) (email : string) :
  Permutation (my_bookings db email)
    (map to_row (filter (fun d => String.eqb (user_email (fields d)) email)
                        (booking db)))
  /\ Sorted (fun a b => String.leb (date (row a)) (date (row b)) = true)
            (my_bookings db email)
  /\ (forall r, In r (my_bookings db email)
                <-> exists d, In d (booking db)
                              /\ user_email (fields d) = email
                              /\ r = to_row d).
Proof.
  assert (HP : Permutation (my_bookings db email)
                 (map to_row (filter (fun d => String.eqb (user_email (fields d)) email)
                                     (booking db))))
    by (unfold my_bookings; apply Permutation_map, sort_by_perm).
  split; [exact HP | split].
  - unfold my_bookings.
    apply (Sorted_map (fun a b => date_le a b = true)); [auto | ].
    apply sort_by_sorted, date_le_total.
  - intro r. split.
    + intro Hr. apply (Permutation_in _ HP) in Hr.
      apply in_map_iff in Hr as (d & <- & Hd).
      apply filter_In in Hd as [Hd He]. apply String.eqb_eq in He.
      exists d. auto.
    + intros (d & Hd & He & ->). apply (Permutation_in _ (Permutation_sym HP)).
      apply in_map. apply filter_In. split; [exact Hd | ].
      now apply String.eqb_eq.
Qed.

(** X16.  [admin_bookings] returns every stored booking, each once, sorted
    by date text and, within one date, by start text, both ascending. *)
Theorem admin_bookings_sorted (db : DB) :
  Permutation (admin_bookings db) (map to_row (booking db))
  /\ Sorted (fun a b =>
               str_lt (date (row a)) (date (row b)) = true
               \/ (date (row a) = date (row b)
                   /\ String.leb (start_time (row a)) (start_time (row b)) = true))
            (admin_bookings db).
Proof.
  unfold admin_bookings. split; [apply Permutation_map, sort_by_perm | ].
  apply (Sorted_map (fun a b => date_start_le a b = true));
    [ | apply sort_by_sorted, date_start_le_total].
  intros a b. unfold date_start_le, str_lt. cbn [to_row row].
  destruct (String.compare (date (fields a)) (date (fields b))) eqn:E;
    [ | auto | discriminate].
  intro H. right. split; [now apply String.compare_eq_iff | exact H].
Qed.

(** ** Seeding *)

Lemma distinct_strings_NoDup (l : list string) :
  distinct_strings l = true -> NoDup l.
Proof.
  induction l as [ | x l IH]; cbn [distinct_strings]; intro H; constructor;
    apply andb_true_iff in H as [Hx Hl].
  - intro Hin. apply negb_true_iff in Hx.
    assert (He : existsb (String.eqb x) l = true)
      by (apply existsb_exists; exists x; split; [exact Hin | apply String.eqb_refl]).
    congruence.
  - now apply IH.
Qed.

(** X17.  Seeding never touches the bookings.  On a facility collection that
    is not empty it changes nothing and reports the number of facilities
    there; on an empty one it stores the 36 default facilities, whose codes
    are pairwise distinct, and reports 36.  Seeding a second time changes
    nothing. *)
Theorem seed_facilities_once (db : DB) :
  booking (fst (seed_facilities_handler db)) = booking db
  /\ (facility db <> [] ->
      seed_facilities_handler db
      = (db, {| seed_message := "Facilities already seeded";
                seed_count := Z.of_nat (List.length (facility db)) |}))
  /\ (facility db = [] ->
      snd (seed_facilities_handler db)
      = {| seed_message := "Facilities seeded"; seed_count := 36 |}
      /\ map fields (facility (fst (seed_facilities_handler db))) = DEFAULT_FACILITIES
      /\ List.length (facility (fst (seed_facilities_handler db))) = 36%nat
      /\ NoDup (map (fun f => code (fields f))
                    (facility (fst (seed_facilities_handler db)))))
  /\ fst (seed_facilities_handler (fst (seed_facilities_handler db)))
     = fst (seed_facilities_handler db).
Proof.
  assert (Hseed : forall bs,
             facility (seed_facilities {| facility := []; booking := bs |})
             = facility seeded_db)
    by (intro bs; cbv beta iota delta [seed_facilities seeded_db empty_db facility];
        reflexivity).
  assert (Hfields : map fields (facility seeded_db) = DEFAULT_FACILITIES)
    by (vm_compute; reflexivity).
  assert (Hcodes : NoDup (map (fun f => code (fields f)) (facility seeded_db)))
    by (apply distinct_strings_NoDup; vm_compute; reflexivity).
  destruct db as [fs bs]. unfold seed_facilities_handler. cbn [facility booking].
  destruct fs as [ | f fs].
  - cbn [List.length Z.of_nat Z.ltb Z.compare fst snd].
    split; [reflexivity | split; [congruence | split]].
    + intros _. split; [reflexivity | ]. rewrite Hseed.
      split; [exact Hfields | split; [ | exact Hcodes]].
      rewrite <- (length_map fields), Hfields. reflexivity.
    + rewrite (Hseed bs).
      assert (Hne : facility seeded_db <> []).
      { intro E. rewrite E in Hfields. discriminate Hfields. }
      destruct (facility seeded_db) as [ | f fs] eqn:E; [congruence | ].
      cbv beta iota delta [seed_facilities facility fst].
      replace (0 <? Z.of_nat (List.length (f :: fs))) with true
        by (symmetry; apply Z.ltb_lt; cbn [List.length]; lia).
      reflexivity.
  - replace (0 <? Z.of_nat (List.length (f :: fs))) with true
      by (symmetry; apply Z.ltb_lt; cbn [List.length]; lia).
    cbn [fst snd facility booking].
    split; [reflexivity | split; [reflexivity | split; [discriminate | ]]].
    replace (0 <? Z.of_nat (List.length (f :: fs))) with true
      by (symmetry; apply Z.ltb_lt; cbn [List.length]; lia).
    reflexivity.
Qed.

Lemma seed_facilities_once_witness :
  snd (seed_facilities_handler empty_db)
  = {| seed_message := "Facilities seeded"; seed_count := 36 |}.
Proof.
  exact (proj1 (proj1 (proj2 (proj2 (seed_facilities_once empty_db))) eq_refl)).
Defined.

(** ** The readers of dates and times agree *)

(** X18.  Whenever [to_local_dt] reads a date and a time text, the
    [minutes] of [availability] reads the time too, as a minute of the day
    below 1440; the time of day of the [datetime] returned is that minute, and
    its date is the date of the three numbers of the date text. *)
Theorem to_local_dt_minutes (date_str time_str : string) (t : pydatetime) :
  to_local_dt date_str time_str = inr t ->
  exists m y mo d,
    minutes time_str = inr m
    /\ 0 <= m < 1440
    /\ t mod USEC_PER_DAY = m * USEC_PER_MINUTE
    /\ mapM int (split "-" date_str) = inr [y; mo; d]
    /\ date_new y mo d = inr (dt_date t).
Proof.
  unfold to_local_dt, minutes.
  destruct (mapM int (split "-" date_str)) as [e | ymd]; cbn [bind]; [discriminate | ].
  destruct ymd as [ | y [ | m [ | d [ | ? ?]]]]; try discriminate.
  destruct (mapM int (split ":" time_str)) as [e | hm]; cbn [bind]; [discriminate | ].
  destruct hm as [ | hh [ | mm [ | ? ?]]]; try discriminate.
  unfold datetime_new, date_new.
  destruct (is_c_int y && is_c_int m && is_c_int d) eqn:Ec;
    [ | rewrite !andb_false_l; discriminate].
  destruct (is_c_int hh && is_c_int mm) eqn:Ec2.
  2:{ apply andb_false_iff in Ec2 as [-> | ->];
        rewrite ?andb_false_r; cbn [negb andb]; discriminate. }
  apply andb_true_iff in Ec2 as [-> ->]. cbn [andb negb].
  destruct (valid_ymd y m d) eqn:Ev; [ | discriminate]. cbn [andb].
  destruct ((0 <=? hh) && (hh <=? 23) && (0 <=? mm) && (mm <=? 59)) eqn:E;
    [ | discriminate].
  intro H. injection H as <-.
  repeat (apply andb_true_iff in E as [E ?]).
  repeat match goal with H : (_ <=? _) = true |- _ => apply Z.leb_le in H end.
  exists (hh * 60 + mm), y, m, d.
  split; [reflexivity | split; [lia | ]].
  unfold dt_date, USEC_PER_DAY, USEC_PER_MINUTE. split; [ | split; [reflexivity | ]].
  - rewrite Z.add_comm, Z_mod_plus_full. apply Z.mod_small. lia.
  - rewrite Ec, Ev. cbn [negb].
    replace ((ymd2ord y m d - 1) * 86400000000 + (hh * 60 + mm) * 60000000)
      with ((hh * 60 + mm) * 60000000 + (ymd2ord y m d - 1) * 86400000000) by lia.
    rewrite Z_div_plus_full by lia. rewrite Z.div_small by lia.
    apply f_equal. ring.
Qed.

Lemma to_local_dt_minutes_witness :
  exists m y mo d,
    minutes "08:16" = inr m
    /\ 0 <= m < 1440
    /\ clock_at "2024-06-01" "08:16" mod USEC_PER_DAY = m * USEC_PER_MINUTE
    /\ mapM int (split "-" "2024-06-01") = inr [y; mo; d]
    /\ date_new y mo d = inr (dt_date (clock_at "2024-06-01" "08:16")).
Proof.
  apply (to_local_dt_minutes "2024-06-01" "08:16"). reflexivity.
Defined.

Lemma digit_not_space (c : ascii) : is_digit c = true -> is_space c = false.
Proof.
  intro H. apply is_digit_cases in H. cbn in H.
  repeat (destruct H as [<- | H]; [reflexivity | ]). contradiction.
Qed.

Lemma digit_not_dash (c : ascii) : is_digit c = true -> Ascii.eqb c "-" = false.
Proof.
  intro H. apply is_digit_cases in H. cbn in H.
  repeat (destruct H as [<- | H]; [reflexivity | ]). contradiction.
Qed.

Lemma in_range_digit (lo hi c : ascii) :
  is_digit lo = true -> is_digit hi = true -> in_range lo hi c = true ->
  is_digit c = true /\ digit_val lo <= digit_val c <= digit_val hi.
Proof.
  unfold in_range, is_digit, digit_val. intros Hlo Hhi H.
  apply andb_true_iff in Hlo as [L1 L2], Hhi as [H1 H2], H as [R1 R2].
  apply Z.leb_le in L1, L2, H1, H2, R1, R2.
  split; [apply andb_true_iff; split; apply Z.leb_le | ]; lia.
Qed.

Lemma rstrip_id (s : string) :
  string_forallb (fun c => negb (is_space c)) s = true -> rstrip s = s.
Proof.
  induction s as [ | c s IH]; cbn [string_forallb rstrip]; [reflexivity | ].
  intro H. apply andb_true_iff in H as [Hc Hs]. apply negb_true_iff in Hc.
  rewrite (IH Hs), Hc. destruct s; reflexivity.
Qed.

Lemma digits_no_space (s : string) :
  string_forallb is_digit s = true ->
  string_forallb (fun c => negb (is_space c)) s = true.
Proof.
  induction s as [ | c s IH]; cbn [string_forallb]; [reflexivity | ].
  intro H. apply andb_true_iff in H as [Hc Hs].
  now rewrite (digit_not_space c Hc), IH.
Qed.

(** [int] of a text made of digits only. *)
Lemma int_all_digits (a : ascii) (u : string) :
  string_forallb is_digit (String a u) = true ->
  int (String a u)
  = match parse_digits (String a u) 0 false with
    | Some n => if MAX_STR_DIGITS <? count_digits (String a u)
                then inl ValueError else inr n
    | None => inl ValueError
    end.
Proof.
  intro H. pose proof (digits_no_space _ H) as Hns.
  unfold int, strip. cbn [string_forallb] in H.
  apply andb_true_iff in H as [Ha Hu].
  cbn [lstrip]. rewrite (digit_not_space a Ha), (rstrip_id _ Hns).
  apply is_digit_cases in Ha. cbn in Ha.
  repeat (destruct Ha as [<- | Ha]; [reflexivity | ]). contradiction.
Qed.

Lemma int_one_digit (a : ascii) :
  is_digit a = true -> int (String a EmptyString) = inr (digit_val a).
Proof.
  intro H. rewrite int_all_digits by (cbn [string_forallb]; now rewrite H).
  cbn [parse_digits count_digits]. rewrite H. reflexivity.
Qed.

Lemma int_four_digits (a b c d : ascii) :
  is_digit a = true -> is_digit b = true -> is_digit c = true -> is_digit d = true ->
  int (String a (String b (String c (String d EmptyString))))
  = inr (((digit_val a * 10 + digit_val b) * 10 + digit_val c) * 10 + digit_val d).
Proof.
  intros Ha Hb Hc Hd.
  rewrite int_all_digits by (cbn [string_forallb]; now rewrite Ha, Hb, Hc, Hd).
  cbn [parse_digits count_digits]. rewrite Ha, Hb, Hc, Hd.
  change (MAX_STR_DIGITS <? 1 + (1 + (1 + (1 + 0)))) with false.
  cbv beta iota. f_equal. ring.
Qed.

Lemma int_space_digit (b : ascii) :
  is_digit b = true -> int (String " " (String b EmptyString)) = inr (digit_val b).
Proof.
  intro H. apply is_digit_cases in H. cbn in H.
  repeat (destruct H as [<- | H]; [reflexivity | ]). contradiction.
Qed.

Lemma split_no_dash (a : string) :
  no_dash a = true -> split "-" a = [a].
Proof.
  unfold no_dash. induction a as [ | c a IH]; cbn [string_forallb split];
    [reflexivity | ].
  intro H. apply andb_true_iff in H as [Hc Ha]. apply negb_true_iff in Hc.
  now rewrite Hc, (IH Ha).
Qed.

Lemma split_at_dash (a rest : string) :
  no_dash a = true -> split "-" (a ++ String "-" rest) = a :: split "-" rest.
Proof.
  unfold no_dash. induction a as [ | c a IH]; cbn [string_forallb split String.append].
  - intros _. reflexivity.
  - intro H. apply andb_true_iff in H as [Hc Ha]. apply negb_true_iff in Hc.
    now rewrite Hc, (IH Ha).
Qed.

Lemma strptime_month_text (r : string) (m : Z) (r' : string) :
  strptime_month r = Some (m, r') ->
  exists M, r = M ++ String "-" r' /\ no_dash M = true /\ int M = inr m.
Proof.
  unfold strptime_month. destruct r as [ | a [ | b r0]]; try discriminate.
  destruct (Ascii.eqb_spec b "-") as [-> | Hb].
  - destruct (in_range "1" "9" a) eqn:Ha; [ | discriminate].
    intro H. injection H as <- <-.
    destruct (in_range_digit "1" "9" a eq_refl eq_refl Ha) as [Da _].
    exists (String a EmptyString). split; [reflexivity | split].
    + unfold no_dash. cbn [string_forallb]. now rewrite (digit_not_dash a Da).
    + now apply int_one_digit.
  - destruct r0 as [ | c r0']; [discriminate | ].
    destruct (Ascii.eqb_spec c "-") as [-> | ]; [ | discriminate].
    destruct (Ascii.eqb a "1" && in_range "0" "2" b) eqn:E1.
    + apply andb_true_iff in E1 as [Ea Eb]. apply Ascii.eqb_eq in Ea. subst a.
      destruct (in_range_digit "0" "2" b eq_refl eq_refl Eb) as [Db _].
      intro H. injection H as <- <-.
      exists (String "1" (String b EmptyString)). split; [reflexivity | split].
      * unfold no_dash. cbn [string_forallb]. now rewrite (digit_not_dash b Db).
      * rewrite int_two_digits by (reflexivity || exact Db). reflexivity.
    + destruct (Ascii.eqb a "0" && in_range "1" "9" b) eqn:E2; [ | discriminate].
      apply andb_true_iff in E2 as [Ea Eb]. apply Ascii.eqb_eq in Ea. subst a.
      destruct (in_range_digit "1" "9" b eq_refl eq_refl Eb) as [Db _].
      intro H. injection H as <- <-.
      exists (String "0" (String b EmptyString)). split; [reflexivity | split].
      * unfold no_dash. cbn [string_forallb]. now rewrite (digit_not_dash b Db).
      * rewrite int_two_digits by (reflexivity || exact Db). reflexivity.
Qed.

Lemma strptime_day_text (r : string) (d : Z) :
  strptime_day r = Some (d, EmptyString) -> no_dash r = true /\ int r = inr d.
Proof.
  unfold strptime_day. destruct r as [ | a [ | b r1]]; try discriminate.
  - destruct (in_range "1" "9" a) eqn:Ha; [ | discriminate].
    intro H. injection H as <-.
    destruct (in_range_digit "1" "9" a eq_refl eq_refl Ha) as [Da _].
    split; [ | now apply int_one_digit].
    unfold no_dash. cbn [string_forallb]. now rewrite (digit_not_dash a Da).
  - destruct ((Ascii.eqb a "3" && in_range "0" "1" b)
              || (in_range "1" "2" a && is_digit b)
              || (Ascii.eqb a "0" && in_range "1" "9" b)) eqn:E2.
    + intro H. injection H as <- ->.
      assert (Hab : is_digit a = true /\ is_digit b = true).
      { apply orb_true_iff in E2 as [E2 | E2];
          [apply orb_true_iff in E2 as [E2 | E2] | ];
          apply andb_true_iff in E2 as [Ea Eb].
        - apply Ascii.eqb_eq in Ea. subst a.
          split; [reflexivity | ].
          now destruct (in_range_digit "0" "1" b eq_refl eq_refl Eb).
        - split; [ | exact Eb].
          now destruct (in_range_digit "1" "2" a eq_refl eq_refl Ea).
        - apply Ascii.eqb_eq in Ea. subst a.
          split; [reflexivity | ].
          now destruct (in_range_digit "1" "9" b eq_refl eq_refl Eb). }
      destruct Hab as [Da Db]. split; [ | now apply int_two_digits].
      unfold no_dash. cbn [string_forallb].
      now rewrite (digit_not_dash a Da), (digit_not_dash b Db).
    + destruct (in_range "1" "9" a); [discriminate | ].
      destruct (Ascii.eqb a " " && in_range "1" "9" b) eqn:E3; [ | discriminate].
      apply andb_true_iff in E3 as [Ea Eb]. apply Ascii.eqb_eq in Ea. subst a.
      destruct (in_range_digit "1" "9" b eq_refl eq_refl Eb) as [Db _].
      intro H. injection H as <- ->. split; [ | now apply int_space_digit].
      unfold no_dash. cbn [string_forallb]. now rewrite (digit_not_dash b Db).
Qed.

Lemma strptime_date_parts (s : string) (b_date : pydate) :
  strptime_date s = inr b_date ->
  exists y m d, mapM int (split "-" s) = inr [y; m; d]
                /\ date_new y m d = inr b_date.
Proof.
  unfold strptime_date.
  destruct s as [ | y1 [ | y2 [ | y3 [ | y4 [ | h r]]]]]; try discriminate.
  destruct (is_digit y1 && is_digit y2 && is_digit y3 && is_digit y4 && Ascii.eqb h "-")
    eqn:E; [ | discriminate].
  apply andb_true_iff in E as [E Hh]. apply andb_true_iff in E as [E D4].
  apply andb_true_iff in E as [E D3]. apply andb_true_iff in E as [D1 D2].
  apply Ascii.eqb_eq in Hh. subst h.
  destruct (strptime_month r) as [[m r'] | ] eqn:Em; [ | discriminate].
  destruct (strptime_day r') as [[d [ | ? ?]] | ] eqn:Ed; try discriminate.
  intro Hd.
  apply strptime_month_text in Em as (M & -> & HM & IM).
  apply strptime_day_text in Ed as (HD & ID).
  exists (((digit_val y1 * 10 + digit_val y2) * 10 + digit_val y3) * 10 + digit_val y4),
         m, d.
  split; [ | exact Hd].
  change (String y1 (String y2 (String y3 (String y4 (String "-" (M ++ String "-" r'))))))
    with (String y1 (String y2 (String y3 (String y4 EmptyString)))
          ++ String "-" (M ++ String "-" r')).
  rewrite split_at_dash.
  2:{ unfold no_dash. cbn [string_forallb].
      now rewrite !digit_not_dash by assumption. }
  rewrite split_at_dash by exact HM. rewrite split_no_dash by exact HD.
  cbn [mapM]. rewrite int_four_digits by assumption. rewrite IM, ID. reflexivity.
Qed.

(** X19.  The two readers of the sweep agree.  For a date text [strptime]
    accepts and a valid [HH:MM] time, [to_local_dt] returns, and returns the
    instant of that minute on that very date; so the loop of the sweep raises
    no [ValueError] on such a row. *)
Theorem sweep_readers_agree (date_str time_str : string) (b_date : pydate) :
  strptime_date date_str = inr b_date ->
  valid_hhmm time_str = true ->
  exists t, to_local_dt date_str time_str = inr t
            /\ dt_date t = b_date
            /\ t = (b_date - 1) * USEC_PER_DAY + minute_of_day time_str * USEC_PER_MINUTE.
Proof.
  intros Hd Hv.
  destruct (strptime_date_parts date_str b_date Hd) as (y & m & d & Hs & Hn).
  destruct (mapM_int_hhmm time_str Hv) as (hh & mm & Et & Hh & Hm & Em).
  unfold to_local_dt. rewrite Hs, Et. cbn [bind].
  unfold date_new in Hn. unfold datetime_new.
  destruct (is_c_int y && is_c_int m && is_c_int d) eqn:Ec; [ | discriminate Hn].
  cbn [negb] in Hn. destruct (valid_ymd y m d) eqn:Ev; [ | discriminate Hn].
  injection Hn as <-.
  replace (is_c_int hh) with true
    by (symmetry; unfold is_c_int; apply andb_true_iff; split;
        [apply Z.leb_le | apply Z.ltb_lt]; lia).
  replace (is_c_int mm) with true
    by (symmetry; unfold is_c_int; apply andb_true_iff; split;
        [apply Z.leb_le | apply Z.ltb_lt]; lia).
  replace (0 <=? hh) with true by (symmetry; apply Z.leb_le; lia).
  replace (hh <=? 23) with true by (symmetry; apply Z.leb_le; lia).
  replace (0 <=? mm) with true by (symmetry; apply Z.leb_le; lia).
  replace (mm <=? 59) with true by (symmetry; apply Z.leb_le; lia).
  cbn [andb negb]. eexists. split; [reflexivity | ].
  rewrite Em. split; [ | reflexivity].
  unfold dt_date, USEC_PER_DAY, USEC_PER_MINUTE.
  replace ((ymd2ord y m d - 1) * 86400000000 + (hh * 60 + mm) * 60000000)
    with ((hh * 60 + mm) * 60000000 + (ymd2ord y m d - 1) * 86400000000) by lia.
  rewrite Z_div_plus_full by lia. rewrite Z.div_small by lia.
  change (0 + (ymd2ord y m d - 1) + 1 = ymd2ord y m d :> Z). ring.
Qed.

Lemma sweep_readers_agree_witness :
  exists t, to_local_dt "2024-6- 1" "08:00" = inr t
            /\ dt_date t = 739038
            /\ t = (739038 - 1) * USEC_PER_DAY + minute_of_day "08:00" * USEC_PER_MINUTE.
Proof.
  apply (sweep_readers_agree "2024-6- 1" "08:00" 739038); reflexivity.
Defined.
